(** * SI-AGENT backend: the OpenRouter AI service

    A shallow embedding of [backend/src/services/AIService.ts] (class
    [AIService]) and of [createError] from the error-handler middleware,
    together with the parts of the JavaScript runtime the service relies on:
    [JSON.parse], [JSON.stringify], [String.prototype.match] with the one
    regular expression the service uses, truthiness, and the promise
    outcomes of [fetch] under an [AbortController] timer.

    Conventions of the model:
    - a JavaScript string is held as the UTF-8 bytes of its text ([string]);
      [prompt.substring(0, 100)] counts UTF-16 code units, as JavaScript
      does ([substring_to], [code_units]); where the Standard Library's
      [substring] stands for the method (the API key and the Authorization
      header, the preview of the diagnostic route) the model counts bytes,
      which is the same on ASCII text;
    - JSON numbers are kept as their source literal (no floating point);
    - objects are association lists in insertion order, with unique keys;
    - an [async] method is a computation over a [World] (the log records
      written so far and the requests handed to [fetch] so far) that either
      returns, throws, or never settles. *)

From Stdlib Require Import String Ascii List ZArith Bool Lia QArith.
From Stdlib Require Import DecimalString.
Import ListNotations.
Local Open Scope string_scope.
Local Open Scope Z_scope.

(** ** JSON values, [JSON.parse] and [JSON.stringify] *)

Module JSON.

#[warnings="-register-all"]
Inductive value : Type :=
| JNull
| JBool (b : bool)
| JNumber (literal : string)
| JString (s : string)
| JArray (items : list value)
| JObject (members : list (string * value)).

(** Own-property lookup, [o[k]]; [None] stands for [undefined]. *)
Fixpoint assoc (k : string) (ms : list (string * value)) : option value :=
  match ms with
  | [] => None
  | (k', v) :: rest => if String.eqb k k' then Some v else assoc k rest
  end.

Definition get (k : string) (v : value) : option value :=
  match v with
  | JObject ms => assoc k ms
  | _ => None
  end.

(** Property definition as [JSON.parse] does it: a repeated key keeps its
    first position and takes the last value. *)
Fixpoint set_member (k : string) (v : value) (ms : list (string * value))
  : list (string * value) :=
  match ms with
  | [] => [(k, v)]
  | (k', v') :: rest =>
      if String.eqb k k' then (k', v) :: rest
      else (k', v') :: set_member k v rest
  end.

(** *** Character classes *)

Definition dquote : ascii := ascii_of_N 34.

Definition char_code (c : ascii) : N := N_of_ascii c.

Definition is_ws (c : ascii) : bool :=
  let n := char_code c in
  (N.eqb n 32 || N.eqb n 9 || N.eqb n 10 || N.eqb n 13)%bool.

Definition is_digit (c : ascii) : bool :=
  let n := char_code c in (N.leb 48 n && N.leb n 57)%bool.

Definition is_digit19 (c : ascii) : bool :=
  let n := char_code c in (N.leb 49 n && N.leb n 57)%bool.

Definition is_lower (c : ascii) : bool :=
  let n := char_code c in (N.leb 97 n && N.leb n 122)%bool.

Definition hex_val (c : ascii) : option N :=
  let n := char_code c in
  if (N.leb 48 n && N.leb n 57)%bool then Some (n - 48)%N
  else if (N.leb 97 n && N.leb n 102)%bool then Some (n - 87)%N
  else if (N.leb 65 n && N.leb n 70)%bool then Some (n - 55)%N
  else None.

Definition is_num_char (c : ascii) : bool :=
  (is_digit c || Ascii.eqb c "." || Ascii.eqb c "e" || Ascii.eqb c "E"
   || Ascii.eqb c "+" || Ascii.eqb c "-")%bool.

(** *** Number literals: an optional minus sign; then a single zero, or a
    non-zero digit followed by digits; then optionally a point and at least
    one digit; then optionally [e] or [E], an optional sign and at least one
    digit. *)

Fixpoint skip_digits (cs : list ascii) : list ascii :=
  match cs with
  | c :: rest => if is_digit c then skip_digits rest else cs
  | [] => []
  end.

Definition digits1 (cs : list ascii) : option (list ascii) :=
  match cs with
  | c :: rest => if is_digit c then Some (skip_digits rest) else None
  | [] => None
  end.

Definition valid_exp (cs : list ascii) : bool :=
  match cs with
  | [] => true
  | c :: rest =>
      if (Ascii.eqb c "e" || Ascii.eqb c "E")%bool then
        let rest' :=
          match rest with
          | s :: r => if (Ascii.eqb s "+" || Ascii.eqb s "-")%bool then r else rest
          | [] => rest
          end in
        match digits1 rest' with
        | Some [] => true
        | _ => false
        end
      else false
  end.

Definition valid_frac_exp (cs : list ascii) : bool :=
  match cs with
  | c :: rest =>
      if Ascii.eqb c "." then
        match digits1 rest with
        | Some rest' => valid_exp rest'
        | None => false
        end
      else valid_exp cs
  | [] => true
  end.

Definition valid_number (cs : list ascii) : bool :=
  let body :=
    match cs with
    | c :: rest => if Ascii.eqb c "-" then rest else cs
    | [] => cs
    end in
  match body with
  | c :: rest =>
      if Ascii.eqb c "0" then valid_frac_exp rest
      else if is_digit19 c then valid_frac_exp (skip_digits rest)
      else false
  | [] => false
  end.

(** *** Tokens and the lexer: one pass over the text *)

Inductive token : Type :=
| TLBrace | TRBrace | TLBracket | TRBracket | TColon | TComma
| TStr (s : string) | TNum (literal : string) | TTrue | TFalse | TNull.

(** The accumulators hold the characters read so far, most recent first. *)
Inductive lexmode : Type :=
| LDefault
| LStr (acc : list ascii)
| LEsc (acc : list ascii)
| LUni (acc : list ascii) (hex : list N)
| LNum (acc : list ascii)
| LWord (acc : list ascii).

(** A [\uXXXX] escape denotes a UTF-16 code unit; it is stored as the UTF-8
    bytes of that number (a surrogate half is stored on its own). *)
Definition utf8_rev (n : N) : list ascii :=
  if N.ltb n 128 then [ascii_of_N n]
  else if N.ltb n 2048 then
    [ascii_of_N (128 + n mod 64); ascii_of_N (192 + n / 64)]
  else
    [ascii_of_N (128 + n mod 64); ascii_of_N (128 + (n / 64) mod 64);
     ascii_of_N (224 + n / 4096)].

Definition number_token (acc : list ascii) : option token :=
  let cs := rev acc in
  if valid_number cs then Some (TNum (string_of_list_ascii cs)) else None.

Definition word_token (acc : list ascii) : option token :=
  let w := string_of_list_ascii (rev acc) in
  if String.eqb w "true" then Some TTrue
  else if String.eqb w "false" then Some TFalse
  else if String.eqb w "null" then Some TNull
  else None.

Definition lex_default (c : ascii) : option (lexmode * list token) :=
  if is_ws c then Some (LDefault, [])
  else if Ascii.eqb c "{" then Some (LDefault, [TLBrace])
  else if Ascii.eqb c "}" then Some (LDefault, [TRBrace])
  else if Ascii.eqb c "[" then Some (LDefault, [TLBracket])
  else if Ascii.eqb c "]" then Some (LDefault, [TRBracket])
  else if Ascii.eqb c ":" then Some (LDefault, [TColon])
  else if Ascii.eqb c "," then Some (LDefault, [TComma])
  else if Ascii.eqb c dquote then Some (LStr [], [])
  else if (Ascii.eqb c "-" || is_digit c)%bool then Some (LNum [c], [])
  else if is_lower c then Some (LWord [c], [])
  else None.

Definition after_token (t : option token) (c : ascii)
  : option (lexmode * list token) :=
  match t with
  | Some tok =>
      match lex_default c with
      | Some (m, toks) => Some (m, tok :: toks)
      | None => None
      end
  | None => None
  end.

Definition unescape (c : ascii) : option ascii :=
  if Ascii.eqb c dquote then Some c
  else if Ascii.eqb c "\" then Some c
  else if Ascii.eqb c "/" then Some c
  else if Ascii.eqb c "b" then Some (ascii_of_N 8)
  else if Ascii.eqb c "f" then Some (ascii_of_N 12)
  else if Ascii.eqb c "n" then Some (ascii_of_N 10)
  else if Ascii.eqb c "r" then Some (ascii_of_N 13)
  else if Ascii.eqb c "t" then Some (ascii_of_N 9)
  else None.

Definition lex_step (m : lexmode) (c : ascii) : option (lexmode * list token) :=
  match m with
  | LDefault => lex_default c
  | LStr acc =>
      if Ascii.eqb c dquote then
        Some (LDefault, [TStr (string_of_list_ascii (rev acc))])
      else if Ascii.eqb c "\" then Some (LEsc acc, [])
      else if N.ltb (char_code c) 32 then None
      else Some (LStr (c :: acc), [])
  | LEsc acc =>
      if Ascii.eqb c "u" then Some (LUni acc [], [])
      else
        match unescape c with
        | Some c' => Some (LStr (c' :: acc), [])
        | None => None
        end
  | LUni acc hex =>
      match hex_val c with
      | Some h =>
          match hex with
          | [h2; h1; h0] =>
              let n := (((h0 * 16 + h1) * 16 + h2) * 16 + h)%N in
              Some (LStr (utf8_rev n ++ acc)%list, [])
          | _ => Some (LUni acc (h :: hex), [])
          end
      | None => None
      end
  | LNum acc =>
      if is_num_char c then Some (LNum (c :: acc), [])
      else after_token (number_token acc) c
  | LWord acc =>
      if is_lower c then Some (LWord (c :: acc), [])
      else after_token (word_token acc) c
  end.

Definition lex_end (m : lexmode) : option (list token) :=
  match m with
  | LDefault => Some []
  | LNum acc => option_map (fun t => [t]) (number_token acc)
  | LWord acc => option_map (fun t => [t]) (word_token acc)
  | LStr _ | LEsc _ | LUni _ _ => None
  end.

Fixpoint lex_from (m : lexmode) (s : string) : option (list token) :=
  match s with
  | EmptyString => lex_end m
  | String c rest =>
      match lex_step m c with
      | Some (m', toks) =>
          match lex_from m' rest with
          | Some more => Some (toks ++ more)%list
          | None => None
          end
      | None => None
      end
  end.

Definition lex (s : string) : option (list token) := lex_from LDefault s.

(** *** The parser: a pushdown automaton over the tokens *)

(** An open container: an array with its items so far (most recent first),
    or an object with its members so far and the key awaiting its value. *)
Inductive frame : Type :=
| FArr (rev_items : list value)
| FObj (members : list (string * value)) (key : option string).

Inductive pmode : Type :=
| PValue      (* a value must follow *)
| PArrFirst   (* just after "[": a value or "]" *)
| PObjFirst   (* just after "{": a key or "}" *)
| PObjKey     (* after "," in an object: a key *)
| PColon      (* after a key: ":" *)
| PAfter      (* after a value in a container: "," or the closing bracket *)
| PDone (v : value).

Definition pstate : Type := (list frame * pmode)%type.

Definition push_value (v : value) (stack : list frame) : option pstate :=
  match stack with
  | [] => Some ([], PDone v)
  | FArr items :: st => Some (FArr (v :: items) :: st, PAfter)
  | FObj ms (Some k) :: st => Some (FObj (set_member k v ms) None :: st, PAfter)
  | FObj _ None :: _ => None
  end.

Definition close_array (stack : list frame) : option pstate :=
  match stack with
  | FArr items :: st => push_value (JArray (rev items)) st
  | _ => None
  end.

Definition close_object (stack : list frame) : option pstate :=
  match stack with
  | FObj ms None :: st => push_value (JObject ms) st
  | _ => None
  end.

Definition start_value (t : token) (stack : list frame) : option pstate :=
  match t with
  | TLBrace => Some (FObj [] None :: stack, PObjFirst)
  | TLBracket => Some (FArr [] :: stack, PArrFirst)
  | TStr s => push_value (JString s) stack
  | TNum n => push_value (JNumber n) stack
  | TTrue => push_value (JBool true) stack
  | TFalse => push_value (JBool false) stack
  | TNull => push_value JNull stack
  | TRBrace | TRBracket | TColon | TComma => None
  end.

Definition take_key (t : token) (stack : list frame) : option pstate :=
  match t, stack with
  | TStr k, FObj ms None :: st => Some (FObj ms (Some k) :: st, PColon)
  | _, _ => None
  end.

Definition parse_step (st : pstate) (t : token) : option pstate :=
  let (stack, m) := st in
  match m with
  | PValue => start_value t stack
  | PArrFirst =>
      match t with
      | TRBracket => close_array stack
      | _ => start_value t stack
      end
  | PObjFirst =>
      match t with
      | TRBrace => close_object stack
      | _ => take_key t stack
      end
  | PObjKey => take_key t stack
  | PColon =>
      match t with
      | TColon => Some (stack, PValue)
      | _ => None
      end
  | PAfter =>
      match t, stack with
      | TComma, FArr _ :: _ => Some (stack, PValue)
      | TComma, FObj _ None :: _ => Some (stack, PObjKey)
      | TRBracket, _ => close_array stack
      | TRBrace, _ => close_object stack
      | _, _ => None
      end
  | PDone _ => None
  end.

Fixpoint parse_tokens (st : pstate) (ts : list token) : option value :=
  match ts with
  | [] =>
      match st with
      | ([], PDone v) => Some v
      | _ => None
      end
  | t :: rest =>
      match parse_step st t with
      | Some st' => parse_tokens st' rest
      | None => None
      end
  end.

(** [JSON.parse]: [None] stands for the [SyntaxError] it throws. *)
Definition parse (s : string) : option value :=
  match lex s with
  | Some ts => parse_tokens ([], PValue) ts
  | None => None
  end.

(** *** [JSON.stringify (v, null, gap)] *)

Definition hex_digit (n : N) : ascii :=
  if N.ltb n 10 then ascii_of_N (48 + n) else ascii_of_N (87 + n).

Definition escape_char (c : ascii) : string :=
  let n := char_code c in
  if Ascii.eqb c dquote then String "\" (String dquote "")
  else if Ascii.eqb c "\" then "\\"
  else if N.eqb n 8 then "\b"
  else if N.eqb n 12 then "\f"
  else if N.eqb n 10 then "\n"
  else if N.eqb n 13 then "\r"
  else if N.eqb n 9 then "\t"
  else if N.ltb n 32 then
    "\u00" ++ String (hex_digit (n / 16)) (String (hex_digit (n mod 16)) "")
  else String c "".

Fixpoint escape (s : string) : string :=
  match s with
  | EmptyString => EmptyString
  | String c rest => escape_char c ++ escape rest
  end.

Definition quote (s : string) : string :=
  String dquote (escape s) ++ String dquote "".

Definition newline : string := String (ascii_of_N 10) "".

(** The members or items already serialised, wrapped in their brackets. *)
Definition wrap (opening closing gap indent : string) (parts : list string)
  : string :=
  match parts with
  | [] => opening ++ closing
  | _ =>
      if String.eqb gap "" then
        opening ++ String.concat "," parts ++ closing
      else
        let inner := indent ++ gap in
        opening ++ newline ++ inner
        ++ String.concat ("," ++ newline ++ inner) parts
        ++ newline ++ indent ++ closing
  end.

Fixpoint serialize (gap indent : string) (v : value) {struct v} : string :=
  match v with
  | JNull => "null"
  | JBool true => "true"
  | JBool false => "false"
  | JNumber n => n
  | JString s => quote s
  | JArray items =>
      wrap "[" "]" gap indent (map (serialize gap (indent ++ gap)) items)
  | JObject ms =>
      wrap "{" "}" gap indent
        (map (fun kv : string * value =>
                quote (fst kv) ++ ":"
                ++ (if String.eqb gap "" then "" else " ")
                ++ serialize gap (indent ++ gap) (snd kv)) ms)
  end.

Definition stringify (v : value) : string := serialize "" "" v.

Definition stringify_indent (gap : string) (v : value) : string :=
  serialize gap "" v.

(** *** Truthiness of a value ([v ? a : b], [v || d]) *)

(** A number literal denotes zero when no digit of its mantissa is
    non-zero. *)
Fixpoint mantissa_is_zero (s : string) : bool :=
  match s with
  | EmptyString => true
  | String c rest =>
      if (Ascii.eqb c "e" || Ascii.eqb c "E")%bool then true
      else if is_digit19 c then false
      else mantissa_is_zero rest
  end.

Definition truthy (v : value) : bool :=
  match v with
  | JNull => false
  | JBool b => b
  | JNumber n => negb (mantissa_is_zero n)
  | JString s => negb (String.eqb s "")
  | JArray _ | JObject _ => true
  end.

End JSON.

(** ** JavaScript helpers *)

(** Writing texts that hold double quotes: every apostrophe of [s] stands for
    a double quote. *)
Fixpoint qq (s : string) : string :=
  match s with
  | EmptyString => EmptyString
  | String c rest =>
      String (if Ascii.eqb c "'" then JSON.dquote else c) (qq rest)
  end.

Definition lines (ls : list string) : string := String.concat JSON.newline ls.

(** [s || d] on an optional string: [undefined] and the empty string are
    falsy. *)
Definition str_or (s : option string) (d : string) : string :=
  match s with
  | Some x => if String.eqb x "" then d else x
  | None => d
  end.

Definition str_truthy (s : option string) : bool :=
  match s with
  | Some x => negb (String.eqb x "")
  | None => false
  end.

(** [v || d] on an optional JSON value. *)
Definition val_or (v : option JSON.value) (d : JSON.value) : JSON.value :=
  match v with
  | Some x => if JSON.truthy x then x else d
  | None => d
  end.

(** *** [text.substring(0, n)] and UTF-16 code units

    JavaScript counts the positions of a string in UTF-16 code units.  In
    the UTF-8 bytes of a text a character below U+0080 is one byte, one
    below U+0800 a lead byte and one continuation byte, one below U+10000 a
    lead byte and two continuation bytes, and each of them is one code unit;
    any other character is a lead byte (240 or more) and three continuation
    bytes, and is two code units, its surrogate pair.  A surrogate half that
    stands alone is held as the three bytes of its own number, as the lexer
    holds the one a [\u] escape denotes. *)

Definition is_continuation (c : ascii) : bool :=
  let n := JSON.char_code c in (N.leb 128 n && N.ltb n 192)%bool.

(** The byte opens a character of two code units. *)
Definition opens_pair (c : ascii) : bool := N.leb 240 (JSON.char_code c).

(** The bits of the character number that a byte holds. *)
Definition payload (c : ascii) : N :=
  let n := JSON.char_code c in
  if N.ltb n 128 then n
  else if N.ltb n 192 then n - 128
  else if N.ltb n 224 then n - 192
  else if N.ltb n 240 then n - 224
  else n - 240.

(** The continuation bytes [s] starts with: the number they hold, and 64 to
    the power of their count. *)
Fixpoint continuation (s : string) : N * N :=
  match s with
  | String c rest =>
      if is_continuation c then
        let (v, weight) := continuation rest in
        (payload c * weight + v, weight * 64)%N
      else (0, 1)%N
  | EmptyString => (0, 1)%N
  end.

(** The number of the character that the byte [c] opens when [rest]
    follows it. *)
Definition code_point (c : ascii) (rest : string) : N :=
  let (v, weight) := continuation rest in (payload c * weight + v)%N.

Definition high_surrogate (cp : N) : N :=
  (55296 + ((cp - 65536) / 1024) mod 1024)%N.

Definition low_surrogate (cp : N) : N := (56320 + cp mod 1024)%N.

(** The UTF-16 code units of a text: what [charCodeAt] reads, position by
    position; their count is the [length] of the string. *)
Fixpoint code_units (s : string) : list N :=
  match s with
  | EmptyString => []
  | String c rest =>
      if is_continuation c then code_units rest
      else if opens_pair c then
        high_surrogate (code_point c rest)
          :: low_surrogate (code_point c rest) :: code_units rest
      else code_point c rest :: code_units rest
  end.

(** A surrogate half on its own. *)
Definition lone_surrogate (u : N) : string :=
  String (ascii_of_N 237)
    (String (ascii_of_N (128 + (u / 64) mod 64))
       (String (ascii_of_N (128 + u mod 64)) "")).

(** [s.substring(0, n)]: the characters of [s] are taken as long as their
    code units fit in [n]; when only the first half of a surrogate pair
    fits, that half is taken.  (The continuation bytes met on the way belong
    to the character taken before them.) *)
Fixpoint substring_to (n : nat) (s : string) : string :=
  match s with
  | EmptyString => ""
  | String c rest =>
      if is_continuation c then String c (substring_to n rest)
      else
        match n with
        | O => ""
        | S n' =>
            if opens_pair c then
              match n' with
              | O => lone_surrogate (high_surrogate (code_point c rest))
              | S n'' => String c (substring_to n'' rest)
              end
            else String c (substring_to n' rest)
        end
  end.

(** Every byte of the text is below 128. *)
Fixpoint ascii_text (s : string) : bool :=
  match s with
  | EmptyString => true
  | String c rest => (N.ltb (JSON.char_code c) 128 && ascii_text rest)%bool
  end.

(** *** [text.match(/\{[\s\S]*\}/)]

    The expression is tried at each position from the left.  At a position
    it needs an opening brace, then [[\s\S]*], which takes any characters
    and is greedy: it first takes everything up to the end of the text and
    gives characters back until a closing brace follows. *)

(** The longest prefix of [s] that ends with a closing brace. *)
Fixpoint through_last_close (s : string) : option string :=
  match s with
  | EmptyString => None
  | String c rest =>
      match through_last_close rest with
      | Some m => Some (String c m)
      | None => if Ascii.eqb c "}" then Some (String c "") else None
      end
  end.

Definition match_here (s : string) : option string :=
  match s with
  | String c rest =>
      if Ascii.eqb c "{" then
        option_map (String c) (through_last_close rest)
      else None
  | EmptyString => None
  end.

(** [None] is the [null] that [match] returns; [Some m] is [jsonMatch[0]]. *)
Fixpoint match_brace_span (s : string) : option string :=
  match match_here s with
  | Some m => Some m
  | None =>
      match s with
      | EmptyString => None
      | String _ rest => match_brace_span rest
      end
  end.

(** ** Errors, promise outcomes and the world of effects *)

(** A thrown value.  Every value the service throws or catches is an [Error]
    object; [code] is the system error code node attaches to network
    failures, [statusCode] and [isOperational] are the [AppError] fields. *)
Record JsError : Type := {
  name : string;
  message : string;
  code : option string;
  stack : string;
  statusCode : option Z;
  isOperational : bool
}.

(** [new Error(message)]; of the stack only its first line is modelled. *)
Definition new_Error (msg : string) : JsError :=
  {| name := "Error"; message := msg; code := None;
     stack := "Error: " ++ msg; statusCode := None; isOperational := false |}.

(** middlewares/errorHandler.ts, [createError]. *)
Definition createError (msg : string) (status : Z) : JsError :=
  let error := new_Error msg in
  {| name := name error; message := message error; code := code error;
     stack := stack error; statusCode := Some status; isOperational := true |}.

(** What [JSON.parse] throws; nothing in the service reads its message. *)
Definition SyntaxError : JsError :=
  {| name := "SyntaxError"; message := "Unexpected token in JSON";
     code := None; stack := "SyntaxError: Unexpected token in JSON";
     statusCode := None; isOperational := false |}.

(** What [fetch] rejects with when its signal is aborted. *)
Definition AbortError : JsError :=
  {| name := "AbortError"; message := "The user aborted a request.";
     code := None; stack := "AbortError: The user aborted a request.";
     statusCode := None; isOperational := false |}.

(** How an awaited promise ends: it is fulfilled, it is rejected, or it never
    settles. *)
Inductive Outcome (A : Type) : Type :=
| Returned (a : A)
| Thrown (e : JsError)
| Pending.
Arguments Returned {A} a.
Arguments Thrown {A} e.
Arguments Pending {A}.

(** *** Log records (the winston [logger]) *)

Inductive LogLevel : Type := Info | Warn | Error.

Inductive LogValue : Type :=
| LString (s : string)
| LNumber (n : Z)
| LUndefined.

Inductive LogMeta : Type :=
| NoMeta
| Fields (fs : list (string * LogValue))
| ErrorObject (e : JsError).

Record LogRecord : Type := {
  level : LogLevel;
  text : string;
  meta : LogMeta
}.

Definition opt_string (s : option string) : LogValue :=
  match s with
  | Some x => LString x
  | None => LUndefined
  end.

(** *** The upstream endpoint *)

Module OpenRouter.

Record Message : Type := { role : string; content : option string }.

Record Choice : Type := {
  index : Z;
  message : option Message;
  finish_reason : string
}.

Record Usage : Type := {
  prompt_tokens : Z;
  completion_tokens : Z;
  total_tokens : Z
}.

(** [interface OpenRouterResponse].  The fields the service reads through
    [?.] are optional here.  The body of a response is taken to have this
    shape, as the cast of [response.json()] says it has; a body without a
    [choices] array is not represented. *)
Record Response : Type := {
  id : string;
  object : string;
  created : Z;
  model : string;
  choices : list Choice;
  usage : option Usage
}.

End OpenRouter.

Module Http.

Record Request : Type := {
  url : string;
  method : string;
  headers : list (string * string);
  body : string
}.

(** A response as [fetch] resolves it: the status line has arrived, the body
    has not been read yet.  [text] and [json] are the outcomes of awaiting
    [response.text()] and [response.json()]. *)
Record Response : Type := {
  status : Z;
  statusText : string;
  text : Outcome string;
  json : Outcome OpenRouter.Response
}.

(** [response.ok]: the status is in the range 200 to 299. *)
Definition ok (r : Response) : bool :=
  ((200 <=? status r) && (status r <=? 299))%bool.

(** The behaviour of the upstream for one call: after how many milliseconds
    the [fetch] promise would settle on its own ([None]: never), and how. *)
Record Upstream : Type := {
  settles_after : option Z;
  settles_with : JsError + Response
}.

End Http.

(** *** Computations *)

Record World : Type := {
  logs : list LogRecord;
  sent : list Http.Request
}.

Definition M (A : Type) : Type := World -> World * Outcome A.

Definition ret {A} (a : A) : M A := fun w => (w, Returned a).

Definition throw {A} (e : JsError) : M A := fun w => (w, Thrown e).

Definition bind {A B} (c : M A) (k : A -> M B) : M B :=
  fun w =>
    match c w with
    | (w', Returned a) => k a w'
    | (w', Thrown e) => (w', Thrown e)
    | (w', Pending) => (w', Pending)
    end.

Notation "x <- c ;; k" := (bind c (fun x => k))
  (at level 61, c at next level, right associativity).
Notation "c ;;; k" := (bind c (fun _ => k))
  (at level 61, right associativity).

(** [try { body } catch (error) { handler }] *)
Definition try_catch {A} (body : M A) (handler : JsError -> M A) : M A :=
  fun w =>
    match body w with
    | (w', Thrown e) => handler e w'
    | r => r
    end.

(** [await p] for a promise whose outcome is [o]. *)
Definition await {A} (o : Outcome A) : M A := fun w => (w, o).

Definition log (l : LogLevel) (msg : string) (m : LogMeta) : M unit :=
  fun w =>
    ({| logs := logs w ++ [{| level := l; text := msg; meta := m |}];
        sent := sent w |}, Returned tt).

Definition logger_info := log Info.
Definition logger_warn := log Warn.
Definition logger_error := log Error.

(** [fetch(url, { ..., signal })] while a timer aborts the signal after
    [abort_after] milliseconds: the call and its request are recorded in
    [sent]; if the upstream settles before the timer fires its outcome is
    the promise's, otherwise the promise is rejected with [AbortError].
    What [fetch] does on the wire to reach that outcome (a redirect it
    follows, say) is not part of the model: [sent] lists the calls of
    [fetch], one request each. *)
Definition fetch (up : Http.Upstream) (req : Http.Request) (abort_after : Z)
  : M Http.Response :=
  fun w =>
    let w' := {| logs := logs w; sent := sent w ++ [req] |} in
    match Http.settles_after up with
    | Some t =>
        if t <? abort_after then
          match Http.settles_with up with
          | inl e => (w', Thrown e)
          | inr r => (w', Returned r)
          end
        else (w', Thrown AbortError)
    | None => (w', Thrown AbortError)
    end.

Definition run {A} (c : M A) : World * Outcome A :=
  c {| logs := []; sent := [] |}.

(** ** services/AIService.ts *)

Record ChatMessage : Type := { role : string; content : string }.

Definition message_json (m : ChatMessage) : JSON.value :=
  JSON.JObject [("role", JSON.JString (role m));
                ("content", JSON.JString (content m))].

Record AIPromptRequest : Type := {
  prompt : string;
  context : option string;
  maxTokens : option Z;
  temperature : option Q
}.

Record APIGenerationRequest : Type := {
  description : string;
  method : option string;
  inputSchema : option JSON.value;
  outputSchema : option JSON.value
}.

(** The [options] argument of [makeRequest]. *)
Module Options.
Record t : Type := { maxTokens : option Z; temperature : option Q }.
Definition empty : t := {| maxTokens := None; temperature := None |}.
End Options.

(** The result of [testConnection]. *)
Module Connection.
Record t : Type := { success : bool; model : string; response : string }.
End Connection.

(** The private fields of the class. *)
Record AIService : Type := {
  apiKey : string;
  model : string;
  baseUrl : string
}.

Record ProcessEnv : Type := {
  OPENROUTER_API_KEY : option string;
  OPENROUTER_MODEL : option string;
  OPENROUTER_BASE_URL : option string
}.

(** [constructor()] *)
Definition new_AIService (env : ProcessEnv) : JsError + AIService :=
  let this_apiKey := str_or (OPENROUTER_API_KEY env) "" in
  let this_model :=
    str_or (OPENROUTER_MODEL env) "deepseek/deepseek-chat-v3.1:free" in
  let this_baseUrl :=
    str_or (OPENROUTER_BASE_URL env) "https://openrouter.ai/api/v1" in
  if String.eqb this_apiKey "" then
    inl (new_Error "OPENROUTER_API_KEY is required")
  else
    inr {| apiKey := this_apiKey; model := this_model;
           baseUrl := this_baseUrl |}.

(** [data.usage?.total_tokens || 0] *)
Definition total_tokens_or_0 (data : OpenRouter.Response) : Z :=
  match OpenRouter.usage data with
  | Some u => OpenRouter.total_tokens u
  | None => 0
  end.

(** The message the [catch] clause of [makeRequest] derives from what it
    caught. *)
Definition errorMessage_of (error : JsError) : string :=
  if String.eqb (name error) "AbortError" then
    "Request timeout - OpenRouter API took too long to respond"
  else if
    match code error with
    | Some c => (String.eqb c "ENOTFOUND" || String.eqb c "ECONNREFUSED")%bool
    | None => false
    end
  then "Network error - Cannot reach OpenRouter API"
  else message error.

(** [private async makeRequest(messages, options = {})] *)
Definition makeRequest (this : AIService) (up : Http.Upstream)
    (messages : list ChatMessage) (options : Options.t)
  : M OpenRouter.Response :=
  try_catch
    (let requestBody :=
       JSON.JObject [("model", JSON.JString (model this));
                     ("messages", JSON.JArray (map message_json messages))] in
     logger_info "Making OpenRouter API request"
       (Fields [("url", LString (baseUrl this ++ "/chat/completions"));
                ("model", LString (model this));
                ("baseUrl", LString (baseUrl this));
                ("messagesCount", LNumber (Z.of_nat (length messages)));
                ("requestBody",
                 LString (JSON.stringify_indent "  " requestBody))]) ;;;
     response <-
       fetch up
         {| Http.url := baseUrl this ++ "/chat/completions";
            Http.method := "POST";
            Http.headers :=
              [("Authorization", "Bearer " ++ apiKey this);
               ("Content-Type", "application/json");
               ("HTTP-Referer", "http://localhost:3001");
               ("X-Title", "SI-AGENT")];
            Http.body := JSON.stringify requestBody |}
         30000 ;;
     (* clearTimeout(timeoutId): from here on nothing aborts the call *)
     if negb (Http.ok response) then
       errorData <- await (Http.text response) ;;
       logger_error "OpenRouter API error:"
         (Fields [("status", LNumber (Http.status response));
                  ("error", LString errorData)]) ;;;
       throw (createError ("AI service error: " ++ Http.statusText response)
                          (Http.status response))
     else
       data <- await (Http.json response) ;;
       logger_info "OpenRouter API call successful"
         (Fields [("model", LString (model this));
                  ("tokens", LNumber (total_tokens_or_0 data))]) ;;;
       ret data)
    (fun error =>
       let errorMessage := errorMessage_of error in
       logger_error "AI service request failed:"
         (Fields [("message", LString errorMessage);
                  ("originalError", LString (message error));
                  ("errorName", LString (name error));
                  ("errorCode", opt_string (code error));
                  ("stack", LString (stack error));
                  ("apiKey",
                   LString (if String.eqb (apiKey this) "" then "NOT_SET"
                            else "SET"));
                  ("model", LString (model this));
                  ("baseUrl", LString (baseUrl this))]) ;;;
       throw (createError
                ("Failed to communicate with AI service: " ++ errorMessage)
                500)).

(** [response.choices[0]?.message?.content] *)
Definition first_content (response : OpenRouter.Response) : option string :=
  match OpenRouter.choices response with
  | c :: _ =>
      match OpenRouter.message c with
      | Some m => OpenRouter.content m
      | None => None
      end
  | [] => None
  end.

(** The [messages] of [generateResponse]. *)
Definition chat_messages (request : AIPromptRequest) : list ChatMessage :=
  [ {| role := "system";
       content := "You are a helpful AI assistant for the SI-AGENT platform. Provide clear, concise, and accurate responses." |};
    {| role := "user";
       content :=
         match context request with
         | Some c =>
             if String.eqb c "" then prompt request
             else "Context: " ++ c ++ JSON.newline ++ JSON.newline
                  ++ "Prompt: " ++ prompt request
         | None => prompt request
         end |} ].

(** [async generateResponse(request)] *)
Definition generateResponse (this : AIService) (up : Http.Upstream)
    (request : AIPromptRequest) : M string :=
  try_catch
    (let messages := chat_messages request in
     response <-
       makeRequest this up messages
         {| Options.maxTokens := maxTokens request;
            Options.temperature := temperature request |} ;;
     ret (str_or (first_content response) "No response generated"))
    (fun error =>
       logger_error "Generate response error:" (ErrorObject error) ;;;
       throw error).

(** [JSON.parse] as a computation: a syntax error is thrown. *)
Definition JSON_parse (s : string) : M JSON.value :=
  match JSON.parse s with
  | Some v => ret v
  | None => throw SyntaxError
  end.

(** The block both [generateApiCode] and [parseApiPrompt] run on the reply:
<<
      try {
        const jsonMatch = content.match(/\{[\s\S]*\}/);
        if (jsonMatch) { return JSON.parse(jsonMatch[0]); }
      } catch (parseError) { logger.warn(warning); }
>>
    [Some v] means the method returns [v] from inside the [try]; [None]
    means control falls through to the code after the block. *)
Definition parse_brace_span (content : string) (warning : string)
  : M (option JSON.value) :=
  try_catch
    (match match_brace_span content with
     | Some jsonMatch0 => v <- JSON_parse jsonMatch0 ;; ret (Some v)
     | None => ret None
     end)
    (fun parseError => logger_warn warning NoMeta ;;; ret None).

(** The [messages] of [generateApiCode]. *)
Definition codegen_messages (request : APIGenerationRequest)
  : list ChatMessage :=
  let systemPrompt := lines [
    "You are an expert API developer. Generate Express.js API code based on user descriptions.";
    "";
    "Return a JSON response with the following structure:";
    "{";
    qq "  'endpoint': '/api/example',";
    qq "  'method': 'GET|POST|PUT|DELETE',";
    qq "  'controllerCode': '// Express controller code',";
    qq "  'serviceCode': '// Business logic service code', ";
    qq "  'schema': {";
    qq "    'input': { /* JSON schema for input */ },";
    qq "    'output': { /* JSON schema for output */ }";
    "  }";
    "}";
    "";
    "Make the code production-ready with proper error handling, validation, and TypeScript types." ] in
  let userPrompt := lines [
    "Generate an API for: " ++ description request;
    "";
    (if str_truthy (method request) then
       "Preferred HTTP method: " ++ str_or (method request) ""
     else "");
    (match inputSchema request with
     | Some v =>
         if JSON.truthy v then
           "Input schema requirements: " ++ JSON.stringify v
         else ""
     | None => ""
     end);
    (match outputSchema request with
     | Some v =>
         if JSON.truthy v then
           "Output schema requirements: " ++ JSON.stringify v
         else ""
     | None => ""
     end);
    "";
    "Please generate complete, working code that follows best practices." ] in
  [ {| role := "system"; content := systemPrompt |};
    {| role := "user"; content := userPrompt |} ].

(** The value [generateApiCode] returns after its parsing block. *)
Definition codegen_fallback (request : APIGenerationRequest)
    (content : string) : JSON.value :=
  JSON.JObject [
    ("endpoint", JSON.JString "/api/generated");
    ("method", JSON.JString (str_or (method request) "GET"));
    ("controllerCode",
     JSON.JString ("// Generated from: " ++ description request
                   ++ JSON.newline ++ content));
    ("serviceCode", JSON.JString "// Service logic would go here");
    ("schema",
     JSON.JObject [
       ("input", val_or (inputSchema request) (JSON.JObject []));
       ("output", val_or (outputSchema request) (JSON.JObject []))]) ].

(** [async generateApiCode(request)] *)
Definition generateApiCode (this : AIService) (up : Http.Upstream)
    (request : APIGenerationRequest) : M JSON.value :=
  try_catch
    (let messages := codegen_messages request in
     response <-
       makeRequest this up messages
         {| Options.maxTokens := Some 2000;
            Options.temperature := Some (3 # 10)%Q |} ;;
     let content := str_or (first_content response) "" in
     returned <-
       parse_brace_span content
         "Failed to parse AI response as JSON, returning raw content" ;;
     match returned with
     | Some v => ret v
     | None => ret (codegen_fallback request content)
     end)
    (fun error =>
       logger_error "Generate API code error:" (ErrorObject error) ;;;
       throw error).

(** The [messages] of [parseApiPrompt]. *)
Definition analysis_messages (prompt : string) : list ChatMessage :=
  let systemPrompt := lines [
    "Analyze API requests and return structured information as JSON:";
    "{";
    qq "  'intent': 'Brief description of what the API should do',";
    qq "  'suggestedEndpoint': '/api/suggested-path',";
    qq "  'suggestedMethod': 'GET|POST|PUT|DELETE',";
    qq "  'parameters': ['param1', 'param2'],";
    qq "  'complexity': 'simple|medium|complex'";
    "}" ] in
  [ {| role := "system"; content := systemPrompt |};
    {| role := "user"; content := "Analyze this API request: " ++ prompt |} ].

(** The value [parseApiPrompt] returns after its parsing block. *)
Definition analysis_fallback (prompt : string) : JSON.value :=
  JSON.JObject [
    ("intent", JSON.JString (substring_to 100 prompt));
    ("suggestedEndpoint", JSON.JString "/api/generated");
    ("suggestedMethod", JSON.JString "GET");
    ("parameters", JSON.JArray []);
    ("complexity", JSON.JString "medium") ].

(** [async parseApiPrompt(prompt)] *)
Definition parseApiPrompt (this : AIService) (up : Http.Upstream)
    (prompt : string) : M JSON.value :=
  try_catch
    (let messages := analysis_messages prompt in
     response <-
       makeRequest this up messages
         {| Options.maxTokens := Some 500;
            Options.temperature := Some (2 # 10)%Q |} ;;
     let content := str_or (first_content response) "" in
     returned <-
       parse_brace_span content "Failed to parse prompt analysis as JSON" ;;
     match returned with
     | Some v => ret v
     | None => ret (analysis_fallback prompt)
     end)
    (fun error =>
       logger_error "Parse API prompt error:" (ErrorObject error) ;;;
       throw error).

(** [async testConnection()] *)
Definition testConnection (this : AIService) (up : Http.Upstream)
  : M Connection.t :=
  try_catch
    (let testPrompt :=
       qq "Hello! Please respond with 'AI service is working correctly' to confirm the connection." in
     response <-
       generateResponse this up
         {| prompt := testPrompt; context := None;
            maxTokens := Some 50; temperature := Some (1 # 10)%Q |} ;;
     ret {| Connection.success := true;
            Connection.model := model this;
            Connection.response := response |})
    (fun error =>
       logger_error "AI connection test failed:" (ErrorObject error) ;;;
       ret {| Connection.success := false;
              Connection.model := model this;
              Connection.response :=
                str_or (Some (message error)) "Connection test failed" |}).

(** ** Vocabulary of the statements *)

(** The upstream answers within the time limit with a success status and a
    body that reads as [data]. *)
Definition upstream_replies (up : Http.Upstream) (data : OpenRouter.Response)
  : Prop :=
  exists t r,
    Http.settles_after up = Some t /\ t < 30000 /\
    Http.settles_with up = inr r /\
    Http.ok r = true /\ Http.json r = Returned data.

(** The upstream answers within the time limit with the status line of [r],
    which is not a success status, and a body whose text is [bodyText]. *)
Definition upstream_refuses (up : Http.Upstream) (r : Http.Response)
    (bodyText : string) : Prop :=
  exists t,
    Http.settles_after up = Some t /\ t < 30000 /\
    Http.settles_with up = inr r /\
    Http.ok r = false /\ Http.text r = Returned bodyText.

(** The [fetch] promise has not settled when the timer fires. *)
Definition upstream_stalls (up : Http.Upstream) : Prop :=
  match Http.settles_after up with
  | Some t => 30000 <= t
  | None => True
  end.

(** The reply text the two parsing methods work on:
    [response.choices[0]?.message?.content || ''] *)
Definition reply_text (data : OpenRouter.Response) : string :=
  str_or (first_content data) "".

Fixpoint occurs (c : ascii) (s : string) : bool :=
  match s with
  | EmptyString => false
  | String c' rest => (Ascii.eqb c' c || occurs c rest)%bool
  end.

(** [needle] occurs in [hay] as a contiguous piece. *)
Fixpoint contains (needle hay : string) : bool :=
  (String.prefix needle hay ||
   match hay with
   | EmptyString => false
   | String _ rest => contains needle rest
   end)%bool.

(** [m] is the piece of [s] from its first opening brace to its last closing
    brace. *)
Definition first_open_to_last_close (s m : string) : Prop :=
  exists pre mid post,
    s = pre ++ m ++ post /\
    m = "{" ++ mid ++ "}" /\
    occurs "{" pre = false /\ occurs "}" post = false.

(** Every property named in [fields] is an own property of [v]. *)
Definition populated (fields : list string) (v : JSON.value) : Prop :=
  forall k, In k fields -> JSON.get k v <> None.

Definition analysis_fields : list string :=
  ["intent"; "suggestedEndpoint"; "suggestedMethod"; "parameters";
   "complexity"].

Definition artifact_fields : list string :=
  ["endpoint"; "method"; "controllerCode"; "serviceCode"; "schema"].

Definition returns_populated (fields : list string)
    (o : Outcome JSON.value) : Prop :=
  exists v, o = Returned v /\ populated fields v.

(** The failure the claimed [UpstreamError] would be: it has the upstream
    status code and its text holds the body text. *)
Definition surfaces_upstream_error {A} (o : Outcome A) (r : Http.Response)
    (bodyText : string) : Prop :=
  exists e,
    o = Thrown e /\ statusCode e = Some (Http.status r) /\
    (contains bodyText (message e) || contains bodyText (stack e))%bool = true.

Definition timeout_text : string :=
  "Failed to communicate with AI service: Request timeout - OpenRouter API took too long to respond".

Definition fails_with_timeout {A} (o : Outcome A) : Prop :=
  exists e, o = Thrown e /\ message e = timeout_text.

(** [r] is what [x || d] gives for an optional text [x]: the text itself
    when it is there and not empty, and [d] otherwise. *)
Definition is_text_or (x : option string) (d r : string) : Prop :=
  (forall s, x = Some s -> s <> "" -> r = s)
  /\ (x = None \/ x = Some "" -> r = d).

(** The JSON values JavaScript takes for false: [null], [false], the empty
    text and a number that is zero. *)
Definition falsy (v : JSON.value) : Prop :=
  v = JSON.JNull \/ v = JSON.JBool false \/ v = JSON.JString ""
  \/ exists n, v = JSON.JNumber n /\ JSON.mantissa_is_zero n = true.

(** [r] is what [x || d] gives for an optional JSON value [x]. *)
Definition is_value_or (x : option JSON.value) (d r : JSON.value) : Prop :=
  (forall v, x = Some v -> ~ falsy v -> r = v)
  /\ (x = None \/ (exists v, x = Some v /\ falsy v) -> r = d).

(** The request [makeRequest] hands to [fetch]. *)
Definition completion_request (this : AIService)
    (messages : list ChatMessage) : Http.Request :=
  {| Http.url := baseUrl this ++ "/chat/completions";
     Http.method := "POST";
     Http.headers :=
       [("Authorization", "Bearer " ++ apiKey this);
        ("Content-Type", "application/json");
        ("HTTP-Referer", "http://localhost:3001");
        ("X-Title", "SI-AGENT")];
     Http.body :=
       JSON.stringify
         (JSON.JObject
            [("model", JSON.JString (model this));
             ("messages", JSON.JArray (map message_json messages))]) |}.




(** *** Sample inputs *)

Definition sample_service : AIService :=
  {| apiKey := "sk-or-v1-0123456789abcdef";
     model := "deepseek/deepseek-chat-v3.1:free";
     baseUrl := "https://openrouter.ai/api/v1" |}.


(** The request [testConnection] passes to [generateResponse]. *)
Definition connection_probe : AIPromptRequest :=
  {| prompt :=
       qq "Hello! Please respond with 'AI service is working correctly' to confirm the connection.";
     context := None;
     maxTokens := Some 50;
     temperature := Some (1 # 10)%Q |}.

(** A reply with two separate objects. *)
Definition two_objects : string := qq "{'a':1} text {'b':2}".

(** A complete prompt analysis as the model may write it. *)
Definition books_analysis : string :=
  qq "{'intent':'list books','suggestedEndpoint':'/api/books','suggestedMethod':'GET','parameters':[],'complexity':'simple'}".

Definition sample_reply (choices : list OpenRouter.Choice)
  : OpenRouter.Response :=
  {| OpenRouter.id := "gen-1"; OpenRouter.object := "chat.completion";
     OpenRouter.created := 1700000000;
     OpenRouter.model := "deepseek/deepseek-chat-v3.1:free";
     OpenRouter.choices := choices;
     OpenRouter.usage :=
       Some {| OpenRouter.prompt_tokens := 12;
               OpenRouter.completion_tokens := 7;
               OpenRouter.total_tokens := 19 |} |}.

Definition sample_choice (c : option string) : OpenRouter.Choice :=
  {| OpenRouter.index := 0;
     OpenRouter.message :=
       Some {| OpenRouter.role := "assistant"; OpenRouter.content := c |};
     OpenRouter.finish_reason := "stop" |}.

(** A 200 reply after 40 ms whose first choice holds [c]. *)
Definition upstream_saying (c : string) : Http.Upstream :=
  {| Http.settles_after := Some 40;
     Http.settles_with :=
       inr {| Http.status := 200; Http.statusText := "OK";
              Http.text := Pending;
              Http.json := Returned (sample_reply [sample_choice (Some c)]) |} |}.

Definition upstream_no_choices : Http.Upstream :=
  {| Http.settles_after := Some 40;
     Http.settles_with :=
       inr {| Http.status := 200; Http.statusText := "OK";
              Http.text := Pending;
              Http.json := Returned (sample_reply []) |} |}.

Definition response_404 : Http.Response :=
  {| Http.status := 404; Http.statusText := "Not Found";
     Http.text := Returned "model not found";
     Http.json := Pending |}.

Definition upstream_404 : Http.Upstream :=
  {| Http.settles_after := Some 40; Http.settles_with := inr response_404 |}.

(** The status line arrives after 40 ms, the body never does. *)
Definition upstream_stalled_body : Http.Upstream :=
  {| Http.settles_after := Some 40;
     Http.settles_with :=
       inr {| Http.status := 200; Http.statusText := "OK";
              Http.text := Pending; Http.json := Pending |} |}.

Definition upstream_silent : Http.Upstream :=
  {| Http.settles_after := None; Http.settles_with := inr response_404 |}.

Definition sample_generation : APIGenerationRequest :=
  {| description := "list all books"; method := Some "POST";
     inputSchema := None; outputSchema := None |}.

Definition sample_chat : AIPromptRequest :=
  {| prompt := "What is 2+2?"; context := None;
     maxTokens := None; temperature := None |}.

(** A generation request with an input schema, with [null] for the output
    schema and without a method. *)
Definition schema_generation : APIGenerationRequest :=
  {| description := "list all books"; method := None;
     inputSchema := Some (JSON.JObject [("type", JSON.JString "object")]);
     outputSchema := Some JSON.JNull |}.

Fixpoint repeat_text (n : nat) (s : string) : string :=
  match n with
  | O => ""
  | S n' => s ++ repeat_text n' s
  end.

(** U+00E9, two bytes and one code unit; U+1F600, four bytes and two code
    units. *)
Definition e_acute : string :=
  String (ascii_of_N 195) (String (ascii_of_N 169) "").

Definition grinning_face : string :=
  String (ascii_of_N 240)
    (String (ascii_of_N 159)
       (String (ascii_of_N 152) (String (ascii_of_N 128) ""))).

(** A prompt of 240 code units in 300 bytes. *)
Definition accented_prompt : string :=
  repeat_text 60 ("caf" ++ e_acute).

(** A prompt whose code units 100 and 101 are one character. *)
Definition paired_prompt : string :=
  repeat_text 99 "a" ++ grinning_face ++ "!".



(** The refusal of [upstream_404] with its status text for body. *)
Definition response_404_terse : Http.Response :=
  {| Http.status := 404; Http.statusText := "Not Found";
     Http.text := Returned "Not Found";
     Http.json := Pending |}.

Definition upstream_404_terse : Http.Upstream :=
  {| Http.settles_after := Some 40;
     Http.settles_with := inr response_404_terse |}.

(** ** The HTTP layer: middlewares/errorHandler.ts and the AI controller *)

(** The parts of an Express request and response the handlers use.  A
    request body is modelled with the field types the service declares for
    its requests; a field that is not sent is [None]. *)
Module Express.

Record Req (B : Type) : Type := {
  url : string;
  method : string;
  ip : option string;
  userAgent : option string;      (* req.get('User-Agent') *)
  user_id : option string;        (* req.user?.id *)
  body : B
}.
Arguments url {B} _.
Arguments method {B} _.
Arguments ip {B} _.
Arguments userAgent {B} _.
Arguments user_id {B} _.
Arguments body {B} _.

(** The object [errorHandler] sends; [stack] and [details] are the two
    properties it adds in development. *)
Record ErrorResponse : Type := {
  success : bool;
  message : string;
  statusCode : Z;
  timestamp : string;
  path : string;
  stack : option string;
  details : option JsError
}.

Inductive Payload : Type :=
| Json (v : JSON.value)
| Failure (r : ErrorResponse).

(** One [res.status(status).json(payload)]. *)
Record Reply : Type := { status : Z; payload : Payload }.

(** The record [errorHandler] writes with [logger.error]; its fields hold
    the error object, so it is kept apart from the service's records. *)
Record ErrorLog : Type := {
  log_text : string;
  log_error : JsError;
  log_url : string;
  log_method : string;
  log_ip : option string;
  log_userAgent : option string;
  log_stack : string
}.

Record State : Type := {
  world : World;
  error_log : list ErrorLog;
  replies : list Reply
}.

End Express.

(** The bodies of the AI routes. *)
Module Body.

Record Prompt : Type := {
  prompt : option string;
  context : option string;
  maxTokens : option Z;
  temperature : option Q
}.

Record Generation : Type := {
  description : option string;
  method : option string;
  inputSchema : option JSON.value;
  outputSchema : option JSON.value
}.

End Body.

(** A handler is a computation over the service's world, the middleware's
    log and the replies sent so far. *)
Definition HM (A : Type) : Type := Express.State -> Express.State * Outcome A.

Definition hret {A} (a : A) : HM A := fun st => (st, Returned a).

Definition hthrow {A} (e : JsError) : HM A := fun st => (st, Thrown e).

Definition hbind {A B} (c : HM A) (k : A -> HM B) : HM B :=
  fun st =>
    match c st with
    | (st', Returned a) => k a st'
    | (st', Thrown e) => (st', Thrown e)
    | (st', Pending) => (st', Pending)
    end.

Notation "x <~ c ;; k" := (hbind c (fun x => k))
  (at level 61, c at next level, right associativity).
Notation "c ;;~ k" := (hbind c (fun _ => k))
  (at level 61, right associativity).

Definition htry_catch {A} (body : HM A) (handler : JsError -> HM A) : HM A :=
  fun st =>
    match body st with
    | (st', Thrown e) => handler e st'
    | r => r
    end.

(** A computation of the service, run on the world of the handler. *)
Definition lift {A} (c : M A) : HM A :=
  fun st =>
    let (w', o) := c (Express.world st) in
    ({| Express.world := w';
        Express.error_log := Express.error_log st;
        Express.replies := Express.replies st |}, o).

(** A number inside a template string. *)
Definition number_text (n : Z) : string := NilZero.string_of_int (Z.to_int n).

(** What writing a response with a status code outside 100 to 999 throws
    (the wording is node's). *)
Definition invalid_status (status : Z) : JsError :=
  {| name := "RangeError";
     message := "Invalid status code: " ++ number_text status;
     code := Some "ERR_HTTP_INVALID_STATUS_CODE";
     stack := "RangeError [ERR_HTTP_INVALID_STATUS_CODE]: Invalid status code: "
              ++ number_text status;
     statusCode := None; isOperational := false |}.

(** [res.status(status).json(payload)]: the reply is sent when the status
    code is one HTTP can carry, from 100 to 999; otherwise the call throws
    and nothing is sent.  The reply is recorded as it is handed over (for a
    status that carries no body, such as 204, node writes the status line
    and leaves the payload out). *)
Definition respond (status : Z) (payload : Express.Payload) : HM unit :=
  fun st =>
    if ((100 <=? status) && (status <=? 999))%bool then
      ({| Express.world := Express.world st;
          Express.error_log := Express.error_log st;
          Express.replies :=
            Express.replies st
            ++ [{| Express.status := status; Express.payload := payload |}] |},
       Returned tt)
    else (st, Thrown (invalid_status status)).

(** [err.statusCode || 500] *)
Definition status_or_500 (s : option Z) : Z :=
  match s with
  | Some n => if n =? 0 then 500 else n
  | None => 500
  end.

(** middlewares/errorHandler.ts, [errorHandler (err, req, res, next)].
    [nodeEnv] is [process.env.NODE_ENV] and [now] is what
    [new Date().toISOString()] reads. *)
Definition errorHandler (nodeEnv : option string) (now : string) {B}
    (err : JsError) (req : Express.Req B) : HM unit :=
  let statusCode0 := status_or_500 (statusCode err) in
  let message0 := str_or (Some (message err)) "Internal Server Error" in
  (fun st =>
     ({| Express.world := Express.world st;
         Express.error_log :=
           Express.error_log st
           ++ [{| Express.log_text :=
                    "Error " ++ number_text statusCode0 ++ ": " ++ message0;
                  Express.log_error := err;
                  Express.log_url := Express.url req;
                  Express.log_method := Express.method req;
                  Express.log_ip := Express.ip req;
                  Express.log_userAgent := Express.userAgent req;
                  Express.log_stack := stack err |}];
         Express.replies := Express.replies st |}, Returned tt)) ;;~
  let (statusCode1, message1) :=
    if String.eqb (name err) "ValidationError" then
      (400, "Validation Error")
    else if String.eqb (name err) "JsonWebTokenError" then
      (401, "Invalid token")
    else if String.eqb (name err) "TokenExpiredError" then
      (401, "Token expired")
    else if String.eqb (name err) "PrismaClientKnownRequestError" then
      (400, "Database operation failed")
    else (statusCode0, message0) in
  let development :=
    match nodeEnv with
    | Some v => String.eqb v "development"
    | None => false
    end in
  respond statusCode1
    (Express.Failure
       {| Express.success := false;
          Express.message := message1;
          Express.statusCode := statusCode1;
          Express.timestamp := now;
          Express.path := Express.url req;
          Express.stack := if development then Some (stack err) else None;
          Express.details := if development then Some err else None |}).

(** The status code and message [errorHandler] has settled on when it
    builds its answer. *)
Definition decided (err : JsError) : Z * string :=
  if String.eqb (name err) "ValidationError" then (400, "Validation Error")
  else if String.eqb (name err) "JsonWebTokenError" then (401, "Invalid token")
  else if String.eqb (name err) "TokenExpiredError" then (401, "Token expired")
  else if String.eqb (name err) "PrismaClientKnownRequestError" then
    (400, "Database operation failed")
  else (status_or_500 (statusCode err),
        str_or (Some (message err)) "Internal Server Error").

(** The state after the log record of [errorHandler]. *)
Definition error_logged {B} (err : JsError) (req : Express.Req B)
    (st : Express.State) : Express.State :=
  {| Express.world := Express.world st;
     Express.error_log :=
       Express.error_log st
       ++ [{| Express.log_text :=
                "Error " ++ number_text (status_or_500 (statusCode err))
                ++ ": " ++ str_or (Some (message err)) "Internal Server Error";
              Express.log_error := err;
              Express.log_url := Express.url req;
              Express.log_method := Express.method req;
              Express.log_ip := Express.ip req;
              Express.log_userAgent := Express.userAgent req;
              Express.log_stack := stack err |}];
     Express.replies := Express.replies st |}.

(** The status code is one a response can carry. *)
Definition sendable (status : Z) : Prop := 100 <= status <= 999.

(** middlewares/errorHandler.ts, [asyncHandler (fn)]: the rejection of the
    handler's promise is given to [next]. *)
Definition asyncHandler {B} (fn : Express.Req B -> HM unit)
    (next : JsError -> HM unit) (req : Express.Req B) : HM unit :=
  fun st =>
    match fn req st with
    | (st', Thrown e) => next e st'
    | r => r
    end.

(** An object literal property whose value may be [undefined]: [res.json]
    leaves such a property out. *)
Definition optional_member (k : string) (v : option string)
  : list (string * JSON.value) :=
  match v with
  | Some x => [(k, JSON.JString x)]
  | None => []
  end.

Fixpoint remove_member (k : string) (ms : list (string * JSON.value))
  : list (string * JSON.value) :=
  match ms with
  | [] => []
  | (k', v) :: rest =>
      if String.eqb k k' then remove_member k rest
      else (k', v) :: remove_member k rest
  end.

Fixpoint indexed {A} (f : A -> JSON.value) (i : nat) (xs : list A)
  : list (string * JSON.value) :=
  match xs with
  | [] => []
  | x :: rest =>
      (NilZero.string_of_uint (Nat.to_uint i), f x) :: indexed f (S i) rest
  end.

(** The own enumerable properties [{...v}] copies. *)
Definition spread (v : JSON.value) : list (string * JSON.value) :=
  match v with
  | JSON.JObject ms => ms
  | JSON.JArray items => indexed (fun x => x) 0 items
  | JSON.JString s =>
      indexed (fun c => JSON.JString (String c "")) 0 (list_ascii_of_string s)
  | _ => []
  end.

(** [k: v] written after a spread: an existing property takes the new
    value; a value that is [undefined] is left out by [res.json]. *)
Definition override (k : string) (v : option string)
    (ms : list (string * JSON.value)) : list (string * JSON.value) :=
  match v with
  | Some x => JSON.set_member k (JSON.JString x) ms
  | None => remove_member k ms
  end.

(** controllers/AIController.ts *)
Module AIController.

Record t : Type := { aiService : AIService }.

(** [constructor()] *)
Definition new (env : ProcessEnv) : JsError + t :=
  match new_AIService env with
  | inl e => inl e
  | inr service => inr {| aiService := service |}
  end.

Definition connection_json (r : Connection.t) : JSON.value :=
  JSON.JObject [("success", JSON.JBool (Connection.success r));
                ("model", JSON.JString (Connection.model r));
                ("response", JSON.JString (Connection.response r))].

(** [async testAI(req, res)] *)
Definition testAI (this : t) (up : Http.Upstream) {B} (req : Express.Req B)
  : HM unit :=
  htry_catch
    (testResult <~ lift (testConnection (aiService this) up) ;;
     respond 200
       (Express.Json
          (JSON.JObject
             [("success", JSON.JBool true);
              ("data", connection_json testResult);
              ("message",
               JSON.JString
                 (if Connection.success testResult then "AI service is working"
                  else "AI service test failed"))])))
    (fun error =>
       lift (logger_error "AI test error:" (ErrorObject error)) ;;~
       hthrow (createError "Failed to test AI service" 500)).

(** [async generateResponse(req, res)] *)
Definition generateResponse (this : t) (up : Http.Upstream)
    (req : Express.Req Body.Prompt) : HM unit :=
  htry_catch
    (let b := Express.body req in
     match Body.prompt b with
     | Some prompt =>
         if String.eqb prompt "" then
           hthrow (createError "Prompt is required" 400)
         else
           response <~
             lift (generateResponse (aiService this) up
                     {| prompt := prompt;
                        context := Body.context b;
                        maxTokens := Body.maxTokens b;
                        temperature := Body.temperature b |}) ;;
           respond 200
             (Express.Json
                (JSON.JObject
                   [("success", JSON.JBool true);
                    ("data",
                     JSON.JObject
                       ([("response", JSON.JString response);
                         ("prompt", JSON.JString prompt)]
                        ++ optional_member "userId" (Express.user_id req)))]))
     | None => hthrow (createError "Prompt is required" 400)
     end)
    (fun error =>
       lift (logger_error "Generate response error:" (ErrorObject error)) ;;~
       hthrow error).

(** [async parsePrompt(req, res)] *)
Definition parsePrompt (this : t) (up : Http.Upstream)
    (req : Express.Req Body.Prompt) : HM unit :=
  htry_catch
    (let b := Express.body req in
     match Body.prompt b with
     | Some prompt =>
         if String.eqb prompt "" then
           hthrow (createError "Prompt is required" 400)
         else
           analysis <~ lift (parseApiPrompt (aiService this) up prompt) ;;
           respond 200
             (Express.Json
                (JSON.JObject
                   [("success", JSON.JBool true);
                    ("data",
                     JSON.JObject
                       ([("analysis", analysis);
                         ("originalPrompt", JSON.JString prompt)]
                        ++ optional_member "userId" (Express.user_id req)))]))
     | None => hthrow (createError "Prompt is required" 400)
     end)
    (fun error =>
       lift (logger_error "Parse prompt error:" (ErrorObject error)) ;;~
       hthrow error).

(** [async generateApiCode(req, res)]; [now] is what
    [new Date().toISOString()] reads. *)
Definition generateApiCode (this : t) (up : Http.Upstream) (now : string)
    (req : Express.Req Body.Generation) : HM unit :=
  htry_catch
    (let b := Express.body req in
     match Body.description b with
     | Some description =>
         if String.eqb description "" then
           hthrow (createError "API description is required" 400)
         else
           generatedCode <~
             lift (generateApiCode (aiService this) up
                     {| description := description;
                        method := Body.method b;
                        inputSchema := Body.inputSchema b;
                        outputSchema := Body.outputSchema b |}) ;;
           respond 200
             (Express.Json
                (JSON.JObject
                   [("success", JSON.JBool true);
                    ("data",
                     JSON.JObject
                       (JSON.set_member "generatedAt" (JSON.JString now)
                          (override "userId" (Express.user_id req)
                             (JSON.set_member "description"
                                (JSON.JString description)
                                (spread generatedCode)))))]))
     | None => hthrow (createError "API description is required" 400)
     end)
    (fun error =>
       lift (logger_error "Generate API code error:" (ErrorObject error)) ;;~
       hthrow error).

End AIController.

(** A route as Express runs it when [errorHandler] is the error middleware
    that [next] reaches. *)
Definition route {B} (nodeEnv : option string) (now : string)
    (handler : Express.Req B -> HM unit) (req : Express.Req B) : HM unit :=
  asyncHandler handler (fun err => errorHandler nodeEnv now err req) req.

Definition fresh : Express.State :=
  {| Express.world := {| logs := []; sent := [] |};
     Express.error_log := [];
     Express.replies := [] |}.

Definition sample_controller : AIController.t :=
  {| AIController.aiService := sample_service |}.

Definition request_with {B} (user : option string) (b : B) : Express.Req B :=
  {| Express.url := "/api/generate-response"; Express.method := "POST";
     Express.ip := Some "127.0.0.1"; Express.userAgent := Some "curl/8.0";
     Express.user_id := user; Express.body := b |}.

Definition prompt_body (p : option string) : Body.Prompt :=
  {| Body.prompt := p; Body.context := None;
     Body.maxTokens := None; Body.temperature := None |}.

Definition generation_body (d : option string) : Body.Generation :=
  {| Body.description := d; Body.method := Some "POST";
     Body.inputSchema := None; Body.outputSchema := None |}.


(** The handler has finished and has sent, after the replies of [before],
    the one error reply with this status and message. *)
Definition answered_with_error (status : Z) (msg : string)
    (before : Express.State) (result : Express.State * Outcome unit) : Prop :=
  snd result = Returned tt
  /\ exists r,
       Express.replies (fst result)
       = app (Express.replies before)
           [{| Express.status := status;
               Express.payload := Express.Failure r |}]
       /\ Express.statusCode r = status
       /\ Express.message r = msg
       /\ Express.success r = false.

(** The handler has finished and has sent, after the replies of [before],
    the one reply with status 200 and this JSON body. *)
Definition answered_with_json (v : JSON.value)
    (before : Express.State) (result : Express.State * Outcome unit) : Prop :=
  snd result = Returned tt
  /\ Express.replies (fst result)
     = app (Express.replies before)
         [{| Express.status := 200; Express.payload := Express.Json v |}]
  /\ Express.error_log (fst result) = Express.error_log before.

(** No HTTP request went out between [before] and [after]. *)
Definition nothing_sent (before after : Express.State) : Prop :=
  sent (Express.world after) = sent (Express.world before).

(** The state [st] of a handler with the service's world replaced. *)
Definition with_world (st : Express.State) (w : World) : Express.State :=
  {| Express.world := w;
     Express.error_log := Express.error_log st;
     Express.replies := Express.replies st |}.

(** The world after [logger.error(label, e)]. *)
Definition logged (w : World) (label : string) (e : JsError) : World :=
  {| logs := logs w ++ [{| level := Error; text := label;
                           meta := ErrorObject e |}];
     sent := sent w |}.

(** A reply in which the model writes the properties the controller
    sets. *)
Definition forged_reply : string :=
  qq "{'endpoint':'/api/books','description':'something else','userId':'admin','generatedAt':'never'}".

(** The outermost open container of the parser is an object. *)
Definition bottom_is_object (stack : list JSON.frame) : Prop :=
  match last stack (JSON.FArr []) with
  | JSON.FObj _ _ => True
  | JSON.FArr _ => False
  end.

Definition is_object (v : JSON.value) : Prop := exists ms, v = JSON.JObject ms.

(** ** routes/index.ts: the diagnostic route GET /api/test-openrouter *)






(** ** middlewares/auth.ts *)

(** What the Clerk SDK gives back.  A rejection of one of its promises
    carries, beside the error, the [status] property the middleware reads;
    errors made by [createError] have none. *)
Module Clerk.

Inductive Settled (A : Type) : Type :=
| Fulfilled (a : A)
| Rejected (e : JsError) (status : option Z)
| Never.
Arguments Fulfilled {A} a.
Arguments Rejected {A} e status.
Arguments Never {A}.

Record Session : Type := { id : string; userId : string }.

Record EmailAddress : Type := { emailAddress : option string }.

Record User : Type := {
  user_id : string;
  emailAddresses : option (list EmailAddress);
  firstName : option string;
  lastName : option string;
  imageUrl : option string;
  metadata_role : option string     (* publicMetadata?.role *)
}.

(** [clerkClient]: how its two calls end, for each argument. *)
Record Client : Type := {
  verifySession : string -> string -> Settled (option Session);
  getUser : string -> Settled User
}.

End Clerk.

Module Auth.

(** [req.user] *)
Record UserInfo : Type := {
  id : string;
  email : string;
  firstName : option string;
  lastName : option string;
  imageUrl : option string;
  role : string
}.

(** [req.auth] *)
Record AuthInfo : Type := { userId : string; sessionId : string }.

Inductive Level : Type := Debug | Failure.

Record LogEntry : Type := {
  level : Level;
  text : string;
  about : option JsError
}.

(** How the middleware hands over: [next()] or [next(error)]. *)
Inductive Next : Type :=
| Continue
| Fail (e : JsError).

(** What a middleware has done when it is over: the records it wrote, what
    it attached to the request, and its call of [next], if it made one. *)
Record Result : Type := {
  written : list LogEntry;
  attached : option (UserInfo * AuthInfo);
  handed : option Next
}.

(** [x ? x : undefined] for the optional names of the user. *)
Definition if_truthy (s : option string) : option string :=
  match s with
  | Some x => if String.eqb x "" then None else Some x
  | None => None
  end.

(** [user.emailAddresses?.[0]?.emailAddress || ''] *)
Definition first_email (u : Clerk.User) : string :=
  match Clerk.emailAddresses u with
  | Some (a :: _) => str_or (Clerk.emailAddress a) ""
  | _ => ""
  end.

Definition userInfo_of (u : Clerk.User) : UserInfo :=
  {| id := Clerk.user_id u;
     email := first_email u;
     firstName := if_truthy (Clerk.firstName u);
     lastName := if_truthy (Clerk.lastName u);
     imageUrl := if_truthy (Clerk.imageUrl u);
     role := str_or (Clerk.metadata_role u) "user" |}.

(** [authHeader.substring(7)] *)
Definition token_of (authHeader : string) : string :=
  substring 7 (String.length authHeader - 7) authHeader.

Definition plain_next : Result :=
  {| written := []; attached := None; handed := Some Continue |}.

Definition never_next : Result :=
  {| written := []; attached := None; handed := None |}.

(** [async authenticate(req, res, next)]; [authorization] is
    [req.headers.authorization] and [secretKey] is
    [process.env.CLERK_SECRET_KEY]. *)
Definition authenticate (secretKey : option string) (clerk : Clerk.Client)
    (authorization : option string) : Result :=
  let attempt : Clerk.Settled (UserInfo * AuthInfo) :=
    match authorization with
    | Some authHeader =>
        if String.prefix "Bearer " authHeader then
          let sessionToken := token_of authHeader in
          if str_truthy secretKey then
            match Clerk.verifySession clerk sessionToken
                    (str_or secretKey "") with
            | Clerk.Fulfilled (Some session) =>
                if String.eqb (Clerk.userId session) "" then
                  Clerk.Rejected (createError "Invalid session" 401) None
                else
                  match Clerk.getUser clerk (Clerk.userId session) with
                  | Clerk.Fulfilled user =>
                      Clerk.Fulfilled
                        (userInfo_of user,
                         {| userId := Clerk.userId session;
                            sessionId := Clerk.id session |})
                  | Clerk.Rejected e s => Clerk.Rejected e s
                  | Clerk.Never => Clerk.Never
                  end
            | Clerk.Fulfilled None =>
                Clerk.Rejected (createError "Invalid session" 401) None
            | Clerk.Rejected e s => Clerk.Rejected e s
            | Clerk.Never => Clerk.Never
            end
          else
            Clerk.Rejected
              (createError "Clerk secret key not configured" 500) None
        else Clerk.Rejected (createError "Access token required" 401) None
    | None => Clerk.Rejected (createError "Access token required" 401) None
    end in
  match attempt with
  | Clerk.Fulfilled (user, auth) =>
      {| written :=
           [{| level := Debug;
               text := "User authenticated via Clerk: "
                       ++ str_or (Some (email user)) "unknown";
               about := None |}];
         attached := Some (user, auth);
         handed := Some Continue |}
  | Clerk.Rejected error status =>
      {| written :=
           [{| level := Failure; text := "Clerk authentication error:";
               about := Some error |}];
         attached := None;
         handed :=
           Some (Fail
                   (if (match status with
                        | Some n => n =? 401
                        | None => false
                        end
                        || contains "session" (message error))%bool
                    then createError "Invalid or expired session" 401
                    else createError "Authentication failed" 401)) |}
  | Clerk.Never => never_next
  end.

(** [authorize(...roles)(req, res, next)] *)
Definition authorize (roles : list string) (user : option UserInfo) : Next :=
  match user with
  | None => Fail (createError "Authentication required" 401)
  | Some u =>
      if existsb (String.eqb (role u)) roles then Continue
      else Fail (createError "Insufficient permissions" 403)
  end.

(** [async optionalAuth(req, res, next)] *)
Definition optionalAuth (secretKey : option string) (clerk : Clerk.Client)
    (authorization : option string) : Result :=
  let failed (clerkError : JsError) : Result :=
    {| written :=
         [{| level := Debug; text := "Optional auth failed:";
             about := Some clerkError |}];
       attached := None; handed := Some Continue |} in
  match authorization with
  | Some authHeader =>
      if String.prefix "Bearer " authHeader then
        let sessionToken := token_of authHeader in
        if str_truthy secretKey then
          match Clerk.verifySession clerk sessionToken
                  (str_or secretKey "") with
          | Clerk.Fulfilled (Some session) =>
              if String.eqb (Clerk.userId session) "" then plain_next
              else
                match Clerk.getUser clerk (Clerk.userId session) with
                | Clerk.Fulfilled user =>
                    {| written := [];
                       attached :=
                         Some (userInfo_of user,
                               {| userId := Clerk.userId session;
                                  sessionId := Clerk.id session |});
                       handed := Some Continue |}
                | Clerk.Rejected clerkError _ => failed clerkError
                | Clerk.Never => never_next
                end
          | Clerk.Fulfilled None => plain_next
          | Clerk.Rejected clerkError _ => failed clerkError
          | Clerk.Never => never_next
          end
        else
          {| written :=
               [{| level := Debug;
                   text := "Clerk secret key not configured for optional auth";
                   about := None |}];
             attached := None; handed := Some Continue |}
      else plain_next
  | None => plain_next
  end.

End Auth.

(** A Clerk client that knows one session, of one user without a role in
    the metadata, and is unavailable for every other token. *)
Definition sample_user : Clerk.User :=
  {| Clerk.user_id := "user_2abc";
     Clerk.emailAddresses :=
       Some [{| Clerk.emailAddress := Some "ada@example.org" |}];
     Clerk.firstName := Some "Ada"; Clerk.lastName := Some "";
     Clerk.imageUrl := None; Clerk.metadata_role := None |}.

Definition unavailable : JsError :=
  {| name := "Error"; message := "connect ETIMEDOUT";
     code := Some "ETIMEDOUT"; stack := "Error: connect ETIMEDOUT";
     statusCode := None; isOperational := false |}.

Definition sample_clerk : Clerk.Client :=
  {| Clerk.verifySession :=
       fun token _ =>
         if String.eqb token "sess_token_1" then
           Clerk.Fulfilled
             (Some {| Clerk.id := "sess_1"; Clerk.userId := "user_2abc" |})
         else Clerk.Rejected unavailable (Some 503);
     Clerk.getUser := fun _ => Clerk.Fulfilled sample_user |}.

(** The same client when the user lookup is refused. *)
Definition clerk_without_users : Clerk.Client :=
  {| Clerk.verifySession := Clerk.verifySession sample_clerk;
     Clerk.getUser := fun _ => Clerk.Rejected unavailable (Some 503) |}.

(** The text [x], wherever it stands between tokens, is read by the lexer
    as the tokens [toks]. *)
Definition Lexes (x : string) (toks : list JSON.token) : Prop :=
  forall rest,
    JSON.lex_from JSON.LDefault (x ++ rest)
    = option_map (app toks) (JSON.lex_from JSON.LDefault rest).

(** The tokens of one chat message and of a list of them. *)
Definition message_tokens (m : ChatMessage) : list JSON.token :=
  [JSON.TLBrace; JSON.TStr "role"; JSON.TColon; JSON.TStr (role m);
   JSON.TComma; JSON.TStr "content"; JSON.TColon; JSON.TStr (content m);
   JSON.TRBrace].

Fixpoint messages_tokens (ms : list ChatMessage) : list JSON.token :=
  match ms with
  | [] => []
  | m :: rest =>
      match rest with
      | [] => message_tokens m
      | _ => message_tokens m ++ JSON.TComma :: messages_tokens rest
      end
  end.

(** *** Further vocabulary *)

(** The [fetch] promise is rejected with [err] before the timer fires. *)
Definition upstream_rejects (up : Http.Upstream) (err : JsError) : Prop :=
  exists t,
    Http.settles_after up = Some t /\ t < 30000 /\
    Http.settles_with up = inl err.

(** The upstream answers in time with a success status, and reading the body
    as JSON fails with [err]. *)
Definition upstream_garbles (up : Http.Upstream) (err : JsError) : Prop :=
  exists t r,
    Http.settles_after up = Some t /\ t < 30000 /\
    Http.settles_with up = inr r /\
    Http.ok r = true /\ Http.json r = Thrown err.

Fixpoint field_of (k : string) (fs : list (string * LogValue))
  : option LogValue :=
  match fs with
  | [] => None
  | (k', v) :: rest => if String.eqb k k' then Some v else field_of k rest
  end.

(** The field [k] of the structured part of a log record. *)
Definition log_field (k : string) (r : LogRecord) : option LogValue :=
  match meta r with
  | Fields fs => field_of k fs
  | _ => None
  end.

Definition failure_prefix : string :=
  "Failed to communicate with AI service: ".

Definition network_text : string :=
  "Failed to communicate with AI service: Network error - Cannot reach OpenRouter API".

(** What node reports when the host name does not resolve. *)
Definition dns_failure : JsError :=
  {| name := "FetchError";
     message := "request to https://openrouter.ai/api/v1/chat/completions failed, reason: getaddrinfo ENOTFOUND openrouter.ai";
     code := Some "ENOTFOUND";
     stack := "FetchError: request to https://openrouter.ai/api/v1/chat/completions failed";
     statusCode := None; isOperational := false |}.

Definition upstream_unreachable : Http.Upstream :=
  {| Http.settles_after := Some 15; Http.settles_with := inl dns_failure |}.

(** What [response.json()] throws on a body that is an HTML page. *)
Definition invalid_json : JsError :=
  {| name := "FetchError";
     message := "invalid json response body at https://openrouter.ai/api/v1/chat/completions reason: Unexpected token < in JSON at position 0";
     code := None;
     stack := "FetchError: invalid json response body";
     statusCode := None; isOperational := false |}.

Definition upstream_html : Http.Upstream :=
  {| Http.settles_after := Some 40;
     Http.settles_with :=
       inr {| Http.status := 200; Http.statusText := "OK";
              Http.text := Returned "<html></html>";
              Http.json := Thrown invalid_json |} |}.

Definition sample_env : ProcessEnv :=
  {| OPENROUTER_API_KEY := Some "sk-or-v1-0123456789abcdef";
     OPENROUTER_MODEL := None;
     OPENROUTER_BASE_URL := Some "" |}.

(** ** The transport: [makeRequest] *)

Section MakeRequest.

Variable this : AIService.
Variable up : Http.Upstream.
Variable messages : list ChatMessage.
Variable options : Options.t.
Variable w : World.

Lemma makeRequest_returns (data : OpenRouter.Response) :
  upstream_replies up data ->
  snd (makeRequest this up messages options w) = Returned data.
Proof.
  intros (t & r & Ht & Hlt & Hr & Hok & Hjson).
  unfold makeRequest, try_catch, bind, fetch, await, logger_info, log, ret.
  cbn. rewrite Ht, Hr.
  apply Z.ltb_lt in Hlt. rewrite Hlt. rewrite Hok. cbn.
  rewrite Hjson. reflexivity.
Qed.

(** Whatever [makeRequest] throws was built by its [catch] clause. *)
Lemma makeRequest_throws_wrapped (e : JsError) :
  snd (makeRequest this up messages options w) = Thrown e ->
  exists inner,
    e = createError ("Failed to communicate with AI service: " ++ inner) 500.
Proof.
  unfold makeRequest, try_catch, bind, fetch, await, logger_info,
    logger_error, log, ret, throw.
  cbn.
  destruct (Http.settles_after up) as [t|];
    [destruct (t <? 30000); [destruct (Http.settles_with up) as [e0|r]|]|];
    cbn.
  - intros H; inversion H; eauto.
  - destruct (Http.ok r); cbn.
    + destruct (Http.json r); cbn; intros H; inversion H; eauto.
    + destruct (Http.text r); cbn; intros H; inversion H; eauto.
  - intros H; inversion H; eauto.
  - intros H; inversion H; eauto.
Qed.

Lemma makeRequest_refused (r : Http.Response) (bodyText : string) :
  upstream_refuses up r bodyText ->
  snd (makeRequest this up messages options w)
  = Thrown (createError
              ("Failed to communicate with AI service: AI service error: "
               ++ Http.statusText r) 500)
  /\ In {| level := Error; text := "OpenRouter API error:";
           meta := Fields [("status", LNumber (Http.status r));
                           ("error", LString bodyText)] |}
        (logs (fst (makeRequest this up messages options w))).
Proof.
  intros (t & Ht & Hlt & Hr & Hok & Htext).
  unfold makeRequest, try_catch, bind, fetch, await, logger_info,
    logger_error, log, ret, throw.
  cbn. rewrite Ht, Hr.
  apply Z.ltb_lt in Hlt. rewrite Hlt. rewrite Hok. cbn.
  rewrite Htext. cbn. split; [reflexivity|].
  apply in_or_app. left. apply in_or_app. right. left. reflexivity.
Qed.

Lemma makeRequest_times_out :
  upstream_stalls up ->
  snd (makeRequest this up messages options w)
  = Thrown (createError timeout_text 500).
Proof.
  unfold upstream_stalls.
  unfold makeRequest, try_catch, bind, fetch, await, logger_info,
    logger_error, log, ret, throw.
  cbn.
  destruct (Http.settles_after up) as [t|]; intros H.
  - apply Z.ltb_ge in H. rewrite H. reflexivity.
  - reflexivity.
Qed.

End MakeRequest.

(** ** The brace span *)

Lemma through_last_close_none (s : string) :
  through_last_close s = None -> occurs "}" s = false.
Proof.
  induction s as [|c rest IH]; cbn; [reflexivity|].
  destruct (through_last_close rest) as [m|]; [discriminate|].
  destruct (Ascii.eqb c "}"); [discriminate|].
  intros _. now apply IH.
Qed.

Lemma no_close_through_last_close (s : string) :
  occurs "}" s = false -> through_last_close s = None.
Proof.
  induction s as [|c rest IH]; cbn; [reflexivity|].
  intros H. apply orb_false_iff in H as [Hc Hrest].
  rewrite (IH Hrest), Hc. reflexivity.
Qed.

Lemma through_last_close_some (s m : string) :
  through_last_close s = Some m ->
  exists mid post,
    m = mid ++ "}" /\ s = m ++ post /\ occurs "}" post = false.
Proof.
  revert m. induction s as [|c rest IH]; cbn; intros m; [discriminate|].
  destruct (through_last_close rest) as [m'|] eqn:E.
  - intros H; inversion H; subst m; clear H.
    destruct (IH m' eq_refl) as (mid & post & Hm & Hs & Hpost).
    exists (String c mid), post. cbn. subst m'. rewrite Hs at 1.
    repeat split; assumption.
  - destruct (Ascii.eqb c "}") eqn:Hc; [|discriminate].
    apply Ascii.eqb_eq in Hc. subst c.
    intros H; inversion H; subst m; clear H.
    exists "", rest. cbn. repeat split.
    now apply through_last_close_none.
Qed.

Lemma through_last_close_finds (mid post : string) :
  through_last_close (mid ++ "}" ++ post) <> None.
Proof.
  induction mid as [|c mid IH]; cbn.
  - destruct (through_last_close post); discriminate.
  - cbn in IH.
    destruct (through_last_close (mid ++ String "}" post));
      [discriminate | contradiction].
Qed.

Lemma no_close_no_span (s : string) :
  occurs "}" s = false -> match_brace_span s = None.
Proof.
  induction s as [|c rest IH]; [reflexivity|].
  intros H. pose proof H as H'. cbn in H'.
  apply orb_false_iff in H' as [_ Hrest].
  cbn. rewrite (no_close_through_last_close rest Hrest).
  destruct (Ascii.eqb c "{"); cbn; now apply IH.
Qed.

Lemma match_brace_span_some (s m : string) :
  match_brace_span s = Some m -> first_open_to_last_close s m.
Proof.
  revert m. induction s as [|c rest IH]; intros m; [discriminate|].
  cbn. destruct (Ascii.eqb c "{") eqn:Hc.
  - apply Ascii.eqb_eq in Hc. subst c.
    destruct (through_last_close rest) as [m'|] eqn:E; cbn.
    + intros H; inversion H; subst m; clear H.
      destruct (through_last_close_some rest m' E)
        as (mid & post & Hm & Hs & Hpost).
      exists "", mid, post. cbn. subst m'. rewrite Hs at 1.
      repeat split; assumption.
    + rewrite (no_close_no_span rest (through_last_close_none rest E)).
      discriminate.
  - intros H. destruct (IH m H) as (pre & mid & post & Hs & Hm & Hpre & Hpost).
    exists (String c pre), mid, post. cbn. rewrite Hc, Hpre.
    rewrite Hs at 1. repeat split; assumption.
Qed.

Lemma match_brace_span_none (s : string) :
  match_brace_span s = None ->
  forall pre mid post, s <> pre ++ "{" ++ mid ++ "}" ++ post.
Proof.
  intros Hnone pre. revert s Hnone.
  induction pre as [|c pre IH]; intros s Hnone mid post Hs; subst s.
  - cbn in Hnone.
    destruct (through_last_close (mid ++ String "}" post)) eqn:E;
      [discriminate|].
    now apply (through_last_close_finds mid post).
  - cbn in Hnone.
    destruct (if Ascii.eqb c "{"
              then option_map (String c)
                     (through_last_close
                        (pre ++ String "{" (mid ++ String "}" post)))
              else None); [discriminate|].
    now apply (IH _ Hnone mid post).
Qed.

Lemma append_assoc (a b c : string) : (a ++ b) ++ c = a ++ b ++ c.
Proof.
  induction a as [|x a IH]; cbn; [reflexivity | now rewrite IH].
Qed.

Lemma through_last_close_exact (mid post : string) :
  occurs "}" post = false ->
  through_last_close (mid ++ "}" ++ post) = Some (mid ++ "}").
Proof.
  intros Hpost. induction mid as [|c mid IH]; cbn.
  - now rewrite (no_close_through_last_close post Hpost).
  - cbn in IH. now rewrite IH.
Qed.

Lemma match_brace_span_complete (s m : string) :
  first_open_to_last_close s m -> match_brace_span s = Some m.
Proof.
  intros (pre & mid & post & Hs & Hm & Hpre & Hpost). subst s m.
  induction pre as [|c pre IH].
  - cbn. rewrite append_assoc.
    now rewrite (through_last_close_exact mid post Hpost).
  - cbn in Hpre. apply orb_false_iff in Hpre as [Hc Hpre].
    cbn. rewrite Hc. now apply IH.
Qed.

(** The scenarios of the specification. *)

Example span_within_noise :
  match_brace_span (qq "noise {'a':1} more noise") = Some (qq "{'a':1}").
Proof. reflexivity. Qed.

Example span_of_two_objects :
  match_brace_span two_objects = Some two_objects
  /\ JSON.parse two_objects = None.
Proof. split; reflexivity. Qed.

Example parse_books_analysis :
  JSON.parse books_analysis
  = Some (JSON.JObject [
            ("intent", JSON.JString "list books");
            ("suggestedEndpoint", JSON.JString "/api/books");
            ("suggestedMethod", JSON.JString "GET");
            ("parameters", JSON.JArray []);
            ("complexity", JSON.JString "simple") ]).
Proof. reflexivity. Qed.

Example parse_nested :
  JSON.parse (qq "{'a': [1, -2.5e3, true, null, 'x\n'], 'b': {'c': {}}, 'a': []}")
  = Some (JSON.JObject [
            ("a", JSON.JArray []);
            ("b", JSON.JObject [("c", JSON.JObject [])]) ]).
Proof. reflexivity. Qed.

Example parse_rejects_trailing_comma : JSON.parse "[1,]" = None.
Proof. reflexivity. Qed.

Example parse_rejects_leading_zero : JSON.parse "01" = None.
Proof. reflexivity. Qed.

Example stringify_then_parse :
  let v := JSON.JObject [("model", JSON.JString "m");
                         ("messages",
                          JSON.JArray [message_json
                                         {| role := "user";
                                            content := qq "say 'hi'" |}])] in
  JSON.parse (JSON.stringify v) = Some v
  /\ JSON.parse (JSON.stringify_indent "  " v) = Some v.
Proof. split; reflexivity. Qed.

Example constructor_requires_key :
  new_AIService {| OPENROUTER_API_KEY := None; OPENROUTER_MODEL := None;
                   OPENROUTER_BASE_URL := None |}
  = inl (new_Error "OPENROUTER_API_KEY is required").
Proof. reflexivity. Qed.

Lemma constructed_service_has_key (env : ProcessEnv) (this : AIService) :
  new_AIService env = inr this -> apiKey this <> "".
Proof.
  unfold new_AIService.
  destruct (String.eqb_spec (str_or (OPENROUTER_API_KEY env) "") "")
    as [|Hne]; [discriminate|].
  intros H; inversion H; subst this. exact Hne.
Qed.

(** ** The four operations in terms of the transport *)

Section Operations.

Variable this : AIService.
Variable up : Http.Upstream.
Variable w : World.

Lemma generateResponse_outcome (request : AIPromptRequest) :
  snd (generateResponse this up request w)
  = match snd (makeRequest this up (chat_messages request)
                 {| Options.maxTokens := maxTokens request;
                    Options.temperature := temperature request |} w) with
    | Returned data =>
        Returned (str_or (first_content data) "No response generated")
    | Thrown e => Thrown e
    | Pending => Pending
    end.
Proof.
  unfold generateResponse, try_catch, bind.
  destruct (makeRequest this up (chat_messages request) _ w) as [w' [d|e|]];
    reflexivity.
Qed.

Lemma parseApiPrompt_outcome (prompt : string) :
  snd (parseApiPrompt this up prompt w)
  = match snd (makeRequest this up (analysis_messages prompt)
                 {| Options.maxTokens := Some 500;
                    Options.temperature := Some (2 # 10)%Q |} w) with
    | Returned data =>
        Returned
          match match_brace_span (reply_text data) with
          | Some m =>
              match JSON.parse m with
              | Some v => v
              | None => analysis_fallback prompt
              end
          | None => analysis_fallback prompt
          end
    | Thrown e => Thrown e
    | Pending => Pending
    end.
Proof.
  unfold parseApiPrompt, try_catch at 1, bind at 1.
  destruct (makeRequest this up (analysis_messages prompt) _ w)
    as [w' [d|e|]]; try reflexivity.
  unfold reply_text, parse_brace_span, JSON_parse, try_catch, bind. cbn.
  destruct (match_brace_span (str_or (first_content d) "")) as [m|];
    [|reflexivity].
  destruct (JSON.parse m); reflexivity.
Qed.

Lemma generateApiCode_outcome (request : APIGenerationRequest) :
  snd (generateApiCode this up request w)
  = match snd (makeRequest this up (codegen_messages request)
                 {| Options.maxTokens := Some 2000;
                    Options.temperature := Some (3 # 10)%Q |} w) with
    | Returned data =>
        Returned
          match match_brace_span (reply_text data) with
          | Some m =>
              match JSON.parse m with
              | Some v => v
              | None => codegen_fallback request (reply_text data)
              end
          | None => codegen_fallback request (reply_text data)
          end
    | Thrown e => Thrown e
    | Pending => Pending
    end.
Proof.
  unfold generateApiCode, try_catch at 1, bind at 1.
  destruct (makeRequest this up (codegen_messages request) _ w)
    as [w' [d|e|]]; try reflexivity.
  unfold reply_text, parse_brace_span, JSON_parse, try_catch, bind. cbn.
  destruct (match_brace_span (str_or (first_content d) "")) as [m|];
    [|reflexivity].
  destruct (JSON.parse m); reflexivity.
Qed.

End Operations.

Lemma testConnection_outcome (this : AIService) (up : Http.Upstream)
    (w : World) :
  snd (testConnection this up w)
  = match snd (generateResponse this up connection_probe w) with
    | Returned response =>
        Returned {| Connection.success := true;
                    Connection.model := model this;
                    Connection.response := response |}
    | Thrown e =>
        Returned {| Connection.success := false;
                    Connection.model := model this;
                    Connection.response :=
                      str_or (Some (message e)) "Connection test failed" |}
    | Pending => Pending
    end.
Proof.
  unfold testConnection, try_catch, bind.
  change {| prompt := _; context := None; maxTokens := Some 50;
            temperature := Some (1 # 10)%Q |} with connection_probe.
  destruct (generateResponse this up connection_probe w) as [w' [d|e|]];
    reflexivity.
Qed.

Lemma reply_text_empty (data : OpenRouter.Response) :
  OpenRouter.choices data = [] \/ first_content data = None
  \/ first_content data = Some "" ->
  reply_text data = "".
Proof.
  unfold reply_text, first_content.
  intros [H | [H | H]]; rewrite H; reflexivity.
Qed.

Lemma substring_0_is_prefix (n : nat) (s : string) :
  exists rest,
    s = substring 0 n s ++ rest
    /\ String.length (substring 0 n s) = Nat.min n (String.length s).
Proof.
  revert s. induction n as [|n IH]; intros s.
  - exists s. destruct s; split; reflexivity.
  - destruct s as [|c s]; cbn.
    + exists "". split; reflexivity.
    + destruct (IH s) as (rest & Hs & Hlen).
      exists rest. split; [now rewrite <- Hs | now rewrite Hlen].
Qed.

(** The method is total on a well-formed fallback: each field is there. *)
Lemma analysis_fallback_populated (prompt : string) :
  populated analysis_fields (analysis_fallback prompt).
Proof.
  intros k Hk. cbn in Hk.
  repeat (destruct Hk as [<- | Hk]; [cbn; discriminate|]).
  contradiction.
Qed.

Lemma codegen_fallback_populated (request : APIGenerationRequest)
    (content : string) :
  populated artifact_fields (codegen_fallback request content).
Proof.
  intros k Hk. cbn in Hk.
  repeat (destruct Hk as [<- | Hk]; [cbn; discriminate|]).
  contradiction.
Qed.

(** ** Code units and [substring_to] *)

Lemma continuation_byte (x : N) :
  is_continuation (ascii_of_N (128 + x mod 64)) = true
  /\ payload (ascii_of_N (128 + x mod 64)) = (x mod 64)%N.
Proof.
  assert (H : (x mod 64 < 64)%N) by (apply N.mod_lt; discriminate).
  generalize dependent (x mod 64)%N. intros m H.
  unfold is_continuation, payload, JSON.char_code.
  rewrite N_ascii_embedding by lia.
  assert (H1 : (128 <=? 128 + m)%N = true) by (apply N.leb_le; lia).
  assert (H2 : (128 + m <? 192)%N = true) by (apply N.ltb_lt; lia).
  assert (H3 : (128 + m <? 128)%N = false) by (apply N.ltb_ge; lia).
  rewrite H1, H2, H3. split; [reflexivity | lia].
Qed.

(** The three bytes of a high surrogate hold its number. *)
Lemma surrogate_bits (x : N) :
  (x < 1024)%N ->
  (13 * 4096 + (((55296 + x) / 64) mod 64) * 64 + (55296 + x) mod 64
   = 55296 + x)%N.
Proof.
  intros H.
  pose proof (N.div_mod (55296 + x) 64) as D1.
  pose proof (N.mod_lt (55296 + x) 64) as M1.
  pose proof (N.div_mod ((55296 + x) / 64) 64) as D2.
  pose proof (N.mod_lt ((55296 + x) / 64) 64) as M2.
  assert (Q : (((55296 + x) / 64) / 64 = 13)%N).
  { rewrite N.Div0.div_div.
    symmetry. apply (N.div_unique _ _ 13 (55296 + x - 13 * 4096)); lia. }
  rewrite Q in D2. lia.
Qed.

Lemma code_units_lone_surrogate (x : N) :
  (x < 1024)%N ->
  code_units (lone_surrogate (55296 + x)) = [(55296 + x)%N].
Proof.
  intros H. unfold lone_surrogate.
  destruct (continuation_byte ((55296 + x) / 64)) as (C1 & P1).
  destruct (continuation_byte (55296 + x)) as (C2 & P2).
  cbn [code_units]. rewrite C1, C2.
  change (is_continuation (ascii_of_N 237)) with false.
  change (opens_pair (ascii_of_N 237)) with false.
  cbn match. unfold code_point. cbn [continuation]. rewrite C1, C2.
  cbn [continuation]. rewrite P1, P2.
  change (payload (ascii_of_N 237)) with 13%N.
  f_equal. pose proof (surrogate_bits x H). lia.
Qed.

Lemma continuation_substring_to (n : nat) (s : string) :
  continuation (substring_to n s) = continuation s.
Proof.
  revert n. induction s as [|c rest IH]; intros n; [reflexivity|].
  cbn [substring_to continuation].
  destruct (is_continuation c) eqn:Hc.
  - cbn [continuation]. now rewrite Hc, IH.
  - destruct n as [|n']; [reflexivity|].
    destruct (opens_pair c).
    + destruct n' as [|n'']; [reflexivity|].
      cbn [continuation]. now rewrite Hc.
    + cbn [continuation]. now rewrite Hc.
Qed.

(** The code units of [s.substring(0, n)] are the first [n] code units of
    [s]. *)
Lemma code_units_substring_to (n : nat) (s : string) :
  code_units (substring_to n s) = firstn n (code_units s).
Proof.
  revert n. induction s as [|c rest IH]; intros n;
    [now destruct n|].
  cbn [substring_to code_units].
  destruct (is_continuation c) eqn:Hc.
  - cbn [code_units]. now rewrite Hc, IH.
  - destruct n as [|n']; [reflexivity|].
    destruct (opens_pair c) eqn:Hp.
    + destruct n' as [|n''].
      * cbn [firstn]. unfold high_surrogate.
        apply code_units_lone_surrogate.
        apply N.mod_lt. discriminate.
      * cbn [code_units firstn]. rewrite Hc, Hp, IH.
        unfold code_point. now rewrite continuation_substring_to.
    + cbn [code_units firstn]. rewrite Hc, Hp, IH.
      unfold code_point. now rewrite continuation_substring_to.
Qed.

(** In bytes, [s.substring(0, n)] is a piece [s] starts with, unless the
    cut falls inside a surrogate pair: then it is the piece before that
    character, followed by the first half of the pair. *)
Lemma substring_to_bytes (n : nat) (s : string) :
  (exists rest, s = substring_to n s ++ rest)
  \/ (exists pre c tail,
         s = pre ++ String c tail /\ opens_pair c = true
         /\ substring_to n s
            = pre ++ lone_surrogate (high_surrogate (code_point c tail))).
Proof.
  revert n. induction s as [|c rest IH]; intros n; [left; now exists ""|].
  assert (Hcons : forall m,
             (exists tl, String c rest = String c (substring_to m rest) ++ tl)
             \/ (exists pre c' tail,
                    String c rest = pre ++ String c' tail
                    /\ opens_pair c' = true
                    /\ String c (substring_to m rest)
                       = pre ++ lone_surrogate
                                  (high_surrogate (code_point c' tail)))).
  { intros m. destruct (IH m) as [(tl & E) | (pre & c' & tail & E & Hp & Ht)].
    - left. exists tl. cbn. now rewrite <- E.
    - right. exists (String c pre), c', tail. cbn.
      now rewrite <- E, Ht. }
  cbn [substring_to].
  destruct (is_continuation c); [apply Hcons|].
  destruct n as [|n']; [left; now exists (String c rest)|].
  destruct (opens_pair c) eqn:Hp; [|apply Hcons].
  destruct n' as [|n'']; [|apply Hcons].
  right. exists "", c, rest. repeat split. exact Hp.
Qed.

(** On ASCII text code units are bytes. *)
Lemma substring_to_ascii (n : nat) (s : string) :
  ascii_text s = true -> substring_to n s = substring 0 n s.
Proof.
  revert n. induction s as [|c rest IH]; intros n; [now destruct n|].
  cbn [ascii_text substring_to]. intros H.
  apply andb_prop in H. destruct H as [Hc Hrest].
  apply N.ltb_lt in Hc.
  assert (H1 : is_continuation c = false).
  { unfold is_continuation. apply andb_false_iff. left.
    apply N.leb_gt. exact Hc. }
  assert (H2 : opens_pair c = false).
  { unfold opens_pair. apply N.leb_gt. lia. }
  rewrite H1. destruct n as [|n']; [reflexivity|].
  rewrite H2. cbn. now rewrite IH.
Qed.

Example code_units_of_a_text :
  code_units ("a" ++ e_acute ++ grinning_face ++ "z")
  = [97; 233; 55357; 56832; 122]%N.
Proof. reflexivity. Qed.

Example substring_to_whole_characters :
  substring_to 100 accented_prompt = repeat_text 25 ("caf" ++ e_acute).
Proof. reflexivity. Qed.

Example substring_to_splits_a_pair :
  substring_to 100 paired_prompt
  = repeat_text 99 "a" ++ lone_surrogate 55357
  /\ code_units (substring_to 100 paired_prompt)
     = app (repeat 97%N 99) [55357%N]
  /\ code_units (substring_to 101 paired_prompt)
     = app (repeat 97%N 99) [55357%N; 56832%N].
Proof. repeat split; reflexivity. Qed.

(** ** [||] *)

Lemma truthy_not_falsy (v : JSON.value) :
  JSON.truthy v = true <-> ~ falsy v.
Proof.
  unfold falsy. destruct v as [|b|n|x|items|ms]; cbn.
  - split; [discriminate | intros H; elim H; now left].
  - destruct b; split; try discriminate; try reflexivity.
    + intros _ [H | [H | [H | (n & H & _)]]]; discriminate.
    + intros H. elim H. right. now left.
  - destruct (JSON.mantissa_is_zero n) eqn:E; cbn; split;
      try discriminate; try reflexivity.
    + intros H. elim H. right. right. right. now exists n.
    + intros _ [H | [H | [H | (n' & H & Hz)]]]; try discriminate.
      inversion H; subst n'. congruence.
  - destruct (String.eqb_spec x "") as [->|Hx]; cbn; split;
      try discriminate; try reflexivity.
    + intros H. elim H. right. right. now left.
    + intros _ [H | [H | [H | (n & H & _)]]]; try discriminate.
      inversion H. contradiction.
  - split; [|reflexivity].
    intros _ [H | [H | [H | (n & H & _)]]]; discriminate.
  - split; [|reflexivity].
    intros _ [H | [H | [H | (n & H & _)]]]; discriminate.
Qed.

Example truthy_values :
  map JSON.truthy
    [JSON.JNull; JSON.JBool false; JSON.JBool true; JSON.JString "";
     JSON.JString "0"; JSON.JNumber "0"; JSON.JNumber "-0.0";
     JSON.JNumber "0e7"; JSON.JNumber "0.5"; JSON.JNumber "10";
     JSON.JArray []; JSON.JObject []]
  = [false; false; true; false; true; false; false; false; true; true;
     true; true].
Proof. reflexivity. Qed.

Lemma val_or_is_value_or (x : option JSON.value) (d : JSON.value) :
  is_value_or x d (val_or x d).
Proof.
  split.
  - intros v -> Hv. apply truthy_not_falsy in Hv. cbn. now rewrite Hv.
  - intros [-> | (v & -> & Hv)]; [reflexivity|]. cbn.
    destruct (JSON.truthy v) eqn:E; [|reflexivity].
    apply truthy_not_falsy in E. contradiction.
Qed.

Lemma str_or_is_text_or (x : option string) (d : string) :
  is_text_or x d (str_or x d).
Proof.
  split.
  - intros t -> Ht. cbn. apply String.eqb_neq in Ht. now rewrite Ht.
  - intros [-> | ->]; reflexivity.
Qed.

(** ** Claims *)

(** C1, as stated, fails.  The upstream answers 404 "Not Found" with the body
    text "model not found": what reaches the caller of [makeRequest] has
    status code 500, and neither its message nor its stack holds the body
    text.  The error made from the upstream status is thrown inside the
    method's own [try] and replaced by its [catch] clause. *)
Lemma C1_upstream_error_not_surfaced :
  let o := snd (run (makeRequest sample_service upstream_404
                       (chat_messages sample_chat) Options.empty)) in
  (exists e,
      o = Thrown e /\ statusCode e = Some 500
      /\ contains "model not found" (message e) = false
      /\ contains "model not found" (stack e) = false)
  /\ ~ surfaces_upstream_error o response_404 "model not found".
Proof.
  split.
  - eexists. repeat split; vm_compute; reflexivity.
  - intros (e & He & Hstatus & _).
    vm_compute in He. inversion He; subst e. discriminate Hstatus.
Qed.

(** C1, amended.  For every upstream response with a non-success status
    whose body text can be read, [makeRequest] fails, and so do
    [generateResponse], [parseApiPrompt] and [generateApiCode], with one and
    the same operational error, whose message ends with "AI service error: "
    followed by the upstream status text.  The upstream status code and the
    body text are written to the error log record "OpenRouter API error:".
    The error does not carry the body text: a refusal with the same status
    code and status text raises the same error, whatever its body. *)
Theorem C1_upstream_refusal_fails_and_logs_diagnostics :
  forall (this : AIService) (up up' : Http.Upstream) (r r' : Http.Response)
         (bodyText bodyText' : string) (w : World),
    upstream_refuses up r bodyText ->
    upstream_refuses up' r' bodyText' ->
    Http.status r' = Http.status r ->
    Http.statusText r' = Http.statusText r ->
    exists e,
      isOperational e = true
      /\ (exists lead,
             message e = lead ++ "AI service error: " ++ Http.statusText r)
      /\ (forall messages options,
             snd (makeRequest this up messages options w) = Thrown e
             /\ snd (makeRequest this up' messages options w) = Thrown e
             /\ In {| level := Error; text := "OpenRouter API error:";
                      meta := Fields [("status", LNumber (Http.status r));
                                      ("error", LString bodyText)] |}
                  (logs (fst (makeRequest this up messages options w))))
      /\ (forall request,
             snd (generateResponse this up request w) = Thrown e
             /\ snd (generateResponse this up' request w) = Thrown e)
      /\ (forall prompt,
             snd (parseApiPrompt this up prompt w) = Thrown e
             /\ snd (parseApiPrompt this up' prompt w) = Thrown e)
      /\ (forall request,
             snd (generateApiCode this up request w) = Thrown e
             /\ snd (generateApiCode this up' request w) = Thrown e).
Proof.
  intros this up up' r r' bodyText bodyText' w H H' Hstatus Htext.
  exists (createError
            ("Failed to communicate with AI service: AI service error: "
             ++ Http.statusText r) 500).
  assert (Hup : forall messages options,
             snd (makeRequest this up messages options w)
             = Thrown (createError
                         ("Failed to communicate with AI service: AI service error: "
                          ++ Http.statusText r) 500)).
  { intros messages options.
    exact (proj1 (makeRequest_refused this up messages options w r bodyText
                    H)). }
  assert (Hup' : forall messages options,
             snd (makeRequest this up' messages options w)
             = Thrown (createError
                         ("Failed to communicate with AI service: AI service error: "
                          ++ Http.statusText r) 500)).
  { intros messages options. rewrite <- Htext.
    exact (proj1 (makeRequest_refused this up' messages options w r'
                    bodyText' H')). }
  split; [reflexivity|].
  split; [now exists "Failed to communicate with AI service: "|].
  split; [|split; [|split]].
  - intros messages options.
    split; [apply Hup|]. split; [apply Hup'|].
    exact (proj2 (makeRequest_refused this up messages options w r bodyText
                    H)).
  - intros request. rewrite !generateResponse_outcome.
    now rewrite Hup, Hup'.
  - intros prompt. rewrite !parseApiPrompt_outcome.
    now rewrite Hup, Hup'.
  - intros request. rewrite !generateApiCode_outcome.
    now rewrite Hup, Hup'.
Qed.

Lemma upstream_404_refuses :
  upstream_refuses upstream_404 response_404 "model not found".
Proof.
  exists 40. repeat split; reflexivity.
Defined.

Lemma upstream_404_terse_refuses :
  upstream_refuses upstream_404_terse response_404_terse "Not Found".
Proof.
  exists 40. repeat split; reflexivity.
Defined.

Lemma C1_refusal_witness :
  upstream_refuses upstream_404 response_404 "model not found"
  /\ upstream_refuses upstream_404_terse response_404_terse "Not Found"
  /\ Http.status response_404_terse = Http.status response_404
  /\ Http.statusText response_404_terse = Http.statusText response_404
  /\ exists e,
       isOperational e = true
       /\ snd (run (parseApiPrompt sample_service upstream_404
                      "list all books")) = Thrown e
       /\ snd (run (parseApiPrompt sample_service upstream_404_terse
                      "list all books")) = Thrown e.
Proof.
  split; [exact upstream_404_refuses|].
  split; [exact upstream_404_terse_refuses|].
  split; [reflexivity|]. split; [reflexivity|].
  destruct (C1_upstream_refusal_fails_and_logs_diagnostics
              sample_service upstream_404 upstream_404_terse
              response_404 response_404_terse "model not found" "Not Found"
              {| logs := []; sent := [] |}
              upstream_404_refuses upstream_404_terse_refuses
              eq_refl eq_refl)
    as (e & Hop & _ & _ & _ & Hparse & _).
  exists e. split; [exact Hop|]. exact (Hparse "list all books").
Defined.

(** C2, as stated, fails.  The reply text is a JSON object with the single
    member "intent" (respectively "endpoint"): [parseApiPrompt]
    (respectively [generateApiCode]) returns that object as it is, without
    the other fields of the declared shape. *)
Lemma C2_partial_reply_returned_unfilled :
  ~ returns_populated analysis_fields
      (snd (run (parseApiPrompt sample_service
                   (upstream_saying (qq "{'intent':'list books'}"))
                   "list all books")))
  /\ ~ returns_populated artifact_fields
         (snd (run (generateApiCode sample_service
                      (upstream_saying (qq "{'endpoint':'/api/books'}"))
                      sample_generation))).
Proof.
  split; intros (v & Hv & Hp); vm_compute in Hv; inversion Hv; subst v.
  - apply (Hp "complexity"); [cbn; tauto | reflexivity].
  - apply (Hp "schema"); [cbn; tauto | reflexivity].
Qed.

(** C2, amended.  For every input and every upstream reply text: when the
    text has no brace span, or its span is not valid JSON, [parseApiPrompt]
    and [generateApiCode] return a result in which every field of the
    declared shape is populated; when the span is valid JSON they return the
    parsed value as it is, whatever fields it has. *)
Theorem C2_fallback_populated_parsed_reply_verbatim :
  forall (this : AIService) (up : Http.Upstream) (prompt : string)
         (request : APIGenerationRequest) (data : OpenRouter.Response)
         (w : World),
    upstream_replies up data ->
    let content := reply_text data in
    ((match_brace_span content = None
      \/ exists m, match_brace_span content = Some m /\ JSON.parse m = None) ->
     returns_populated analysis_fields (snd (parseApiPrompt this up prompt w))
     /\ returns_populated artifact_fields
          (snd (generateApiCode this up request w)))
    /\ (forall m v,
           match_brace_span content = Some m -> JSON.parse m = Some v ->
           snd (parseApiPrompt this up prompt w) = Returned v
           /\ snd (generateApiCode this up request w) = Returned v).
Proof.
  intros this up prompt request data w H content.
  rewrite parseApiPrompt_outcome, generateApiCode_outcome.
  rewrite !(makeRequest_returns this up _ _ w data H).
  fold content. split.
  - intros [Hnone | (m & Hm & Hparse)].
    + rewrite Hnone. split; eexists; split; try reflexivity.
      * apply analysis_fallback_populated.
      * apply codegen_fallback_populated.
    + rewrite Hm, Hparse. split; eexists; split; try reflexivity.
      * apply analysis_fallback_populated.
      * apply codegen_fallback_populated.
  - intros m v Hm Hparse. rewrite Hm, Hparse. split; reflexivity.
Qed.

Lemma upstream_saying_replies (c : string) :
  upstream_replies (upstream_saying c) (sample_reply [sample_choice (Some c)]).
Proof.
  exists 40, {| Http.status := 200; Http.statusText := "OK";
               Http.text := Pending;
               Http.json := Returned (sample_reply [sample_choice (Some c)]) |}.
  repeat split; reflexivity.
Defined.

Lemma C2_fallback_witness :
  upstream_replies (upstream_saying "I cannot help with that.")
    (sample_reply [sample_choice (Some "I cannot help with that.")])
  /\ returns_populated analysis_fields
       (snd (run (parseApiPrompt sample_service
                    (upstream_saying "I cannot help with that.")
                    "list all books"))).
Proof.
  split; [apply upstream_saying_replies|].
  refine (proj1 (proj1 (C2_fallback_populated_parsed_reply_verbatim
                          sample_service _ "list all books" sample_generation
                          _ {| logs := []; sent := [] |}
                          (upstream_saying_replies _)) _)).
  left. reflexivity.
Defined.

(** C3: the code does not do what the claim says.  Whatever [options] it is
    given, [makeRequest] does the same; and the request [parseApiPrompt]
    (respectively [generateApiCode]) sends for "list all books" has a body
    whose members are "model" and "messages" only: no temperature, no
    token limit. *)
Theorem C3_sampling_settings_are_not_sent :
  (forall this up messages options options' w,
      makeRequest this up messages options w
      = makeRequest this up messages options' w)
  /\ (exists req ms,
         sent (fst (run (parseApiPrompt sample_service (upstream_saying "{}")
                           "list all books"))) = [req]
         /\ JSON.parse (Http.body req) = Some (JSON.JObject ms)
         /\ map fst ms = ["model"; "messages"])
  /\ (exists req ms,
         sent (fst (run (generateApiCode sample_service (upstream_saying "{}")
                           sample_generation))) = [req]
         /\ JSON.parse (Http.body req) = Some (JSON.JObject ms)
         /\ map fst ms = ["model"; "messages"]).
Proof.
  split; [reflexivity|].
  split; eexists; eexists; (split; [vm_compute; reflexivity|]);
    (split; [vm_compute; reflexivity|]); reflexivity.
Qed.

(** C4.  On the reply text [content] of a successful upstream call, the
    parsing block of [parseApiPrompt] and [generateApiCode] takes the piece
    from the first opening brace to the last closing brace (there is none
    exactly when no opening brace is followed by a closing one), parses that
    piece with [JSON.parse], and the method returns the parsed value, or,
    when there is no such piece or it is not valid JSON, its fallback value;
    in every case the method returns and does not throw. *)
Theorem C4_greedy_span_parsed_or_fallback :
  forall (this : AIService) (up : Http.Upstream) (prompt : string)
         (request : APIGenerationRequest) (data : OpenRouter.Response)
         (w : World),
    upstream_replies up data ->
    let content := reply_text data in
    (forall m, match_brace_span content = Some m <->
               first_open_to_last_close content m)
    /\ (match_brace_span content = None ->
        forall pre mid post, content <> pre ++ "{" ++ mid ++ "}" ++ post)
    /\ snd (parseApiPrompt this up prompt w)
       = Returned
           match match_brace_span content with
           | Some m =>
               match JSON.parse m with
               | Some v => v
               | None => analysis_fallback prompt
               end
           | None => analysis_fallback prompt
           end
    /\ snd (generateApiCode this up request w)
       = Returned
           match match_brace_span content with
           | Some m =>
               match JSON.parse m with
               | Some v => v
               | None => codegen_fallback request content
               end
           | None => codegen_fallback request content
           end.
Proof.
  intros this up prompt request data w H content.
  split.
  { intros m. split;
      [apply match_brace_span_some | apply match_brace_span_complete]. }
  split; [exact (match_brace_span_none content)|].
  rewrite parseApiPrompt_outcome, generateApiCode_outcome.
  rewrite !(makeRequest_returns this up _ _ w data H).
  split; reflexivity.
Qed.

Lemma C4_two_objects_witness :
  upstream_replies (upstream_saying two_objects)
    (sample_reply [sample_choice (Some two_objects)])
  /\ match_brace_span two_objects = Some two_objects
  /\ JSON.parse two_objects = None
  /\ snd (run (parseApiPrompt sample_service (upstream_saying two_objects)
                 "list all books"))
     = Returned (analysis_fallback "list all books")
  /\ snd (run (generateApiCode sample_service (upstream_saying two_objects)
                 sample_generation))
     = Returned (codegen_fallback sample_generation two_objects).
Proof.
  split; [apply upstream_saying_replies|].
  split; [reflexivity|]. split; [reflexivity|].
  destruct (C4_greedy_span_parsed_or_fallback
              sample_service (upstream_saying two_objects) "list all books"
              sample_generation _ {| logs := []; sent := [] |}
              (upstream_saying_replies two_objects))
    as (_ & _ & Hparse & Hgen).
  split; [exact Hparse | exact Hgen].
Defined.

(** C5: the code does not do what the claim says.  The upstream sends its
    status line after 40 ms and never completes the body.  The timer is
    cleared as soon as [fetch] resolves, so nothing aborts the reading of
    the body: [makeRequest], and [generateResponse] on top of it, never
    settle, and no timeout failure is raised. *)
Theorem C5_stalled_body_is_never_cancelled :
  let o := snd (run (makeRequest sample_service upstream_stalled_body
                       (chat_messages sample_chat) Options.empty)) in
  o = Pending
  /\ ~ fails_with_timeout o
  /\ snd (run (generateResponse sample_service upstream_stalled_body
                 sample_chat)) = Pending.
Proof.
  split; [reflexivity|]. split; [|reflexivity].
  intros (e & He & _). discriminate He.
Qed.

(** C6.  When the upstream call succeeds, [generateResponse] returns the
    content of the first choice's message if that is a non-empty text, and
    the literal "No response generated" when the choices array is empty or
    that content is absent or empty. *)
Theorem C6_generateResponse_content_or_literal :
  forall (this : AIService) (up : Http.Upstream) (request : AIPromptRequest)
         (data : OpenRouter.Response) (w : World),
    upstream_replies up data ->
    (forall c, first_content data = Some c -> c <> "" ->
               snd (generateResponse this up request w) = Returned c)
    /\ (OpenRouter.choices data = [] \/ first_content data = None
        \/ first_content data = Some "" ->
        snd (generateResponse this up request w)
        = Returned "No response generated").
Proof.
  intros this up request data w H.
  rewrite generateResponse_outcome.
  rewrite (makeRequest_returns this up _ _ w data H).
  split.
  - intros c Hc Hne. rewrite Hc. cbn.
    apply String.eqb_neq in Hne. now rewrite Hne.
  - unfold first_content. intros [Hd | [Hd | Hd]]; rewrite Hd; reflexivity.
Qed.

Lemma upstream_no_choices_replies :
  upstream_replies upstream_no_choices (sample_reply []).
Proof.
  exists 40, {| Http.status := 200; Http.statusText := "OK";
               Http.text := Pending;
               Http.json := Returned (sample_reply []) |}.
  repeat split; reflexivity.
Defined.

Lemma C6_content_witness :
  upstream_replies (upstream_saying "4") (sample_reply [sample_choice (Some "4")])
  /\ snd (run (generateResponse sample_service (upstream_saying "4")
                 sample_chat)) = Returned "4"
  /\ snd (run (generateResponse sample_service upstream_no_choices
                 sample_chat)) = Returned "No response generated".
Proof.
  split; [apply upstream_saying_replies|]. split.
  - refine (proj1 (C6_generateResponse_content_or_literal
                     sample_service _ sample_chat _ {| logs := []; sent := [] |}
                     (upstream_saying_replies "4")) "4" eq_refl _).
    discriminate.
  - refine (proj2 (C6_generateResponse_content_or_literal
                     sample_service _ sample_chat _ {| logs := []; sent := [] |}
                     upstream_no_choices_replies) _).
    left. reflexivity.
Defined.

(** C7.  When the parsing block falls back (the reply text has no brace span,
    or its span is not valid JSON), [parseApiPrompt] returns exactly the
    object below, whose intent is the first 100 characters of the prompt as
    JavaScript counts them: its UTF-16 code units are the first 100 code
    units of the prompt.  In bytes the intent is a piece the prompt starts
    with (or, when unit 100 is the first half of a surrogate pair, the piece
    before that character and that half); for an ASCII prompt it is its
    first 100 bytes.  [generateApiCode] returns exactly the object below,
    whose method is the caller's method or "GET", and whose schema holds
    the caller's input and output schemas, or the empty object where the
    caller gave none or a value JavaScript takes for false. *)
Theorem C7_fallback_values :
  forall (this : AIService) (up : Http.Upstream) (prompt : string)
         (request : APIGenerationRequest) (data : OpenRouter.Response)
         (w : World),
    upstream_replies up data ->
    let content := reply_text data in
    (match_brace_span content = None
     \/ exists m, match_brace_span content = Some m /\ JSON.parse m = None) ->
    (exists intent,
        snd (parseApiPrompt this up prompt w)
        = Returned
            (JSON.JObject [
               ("intent", JSON.JString intent);
               ("suggestedEndpoint", JSON.JString "/api/generated");
               ("suggestedMethod", JSON.JString "GET");
               ("parameters", JSON.JArray []);
               ("complexity", JSON.JString "medium") ])
        /\ code_units intent = firstn 100 (code_units prompt)
        /\ ((exists rest, prompt = intent ++ rest)
            \/ (exists pre c tail,
                   prompt = pre ++ String c tail /\ opens_pair c = true
                   /\ intent
                      = pre ++ lone_surrogate
                                 (high_surrogate (code_point c tail))))
        /\ (ascii_text prompt = true -> intent = substring 0 100 prompt))
    /\ (exists method_ input output,
           snd (generateApiCode this up request w)
           = Returned
               (JSON.JObject [
                  ("endpoint", JSON.JString "/api/generated");
                  ("method", JSON.JString method_);
                  ("controllerCode",
                   JSON.JString ("// Generated from: " ++ description request
                                 ++ JSON.newline ++ content));
                  ("serviceCode",
                   JSON.JString "// Service logic would go here");
                  ("schema",
                   JSON.JObject [("input", input); ("output", output)]) ])
           /\ is_text_or (method request) "GET" method_
           /\ is_value_or (inputSchema request) (JSON.JObject []) input
           /\ is_value_or (outputSchema request) (JSON.JObject []) output).
Proof.
  intros this up prompt request data w H content Hfall.
  rewrite parseApiPrompt_outcome, generateApiCode_outcome.
  rewrite !(makeRequest_returns this up _ _ w data H).
  fold content.
  split.
  - exists (substring_to 100 prompt).
    split; [|split; [|split]].
    + destruct Hfall as [Hnone | (m & Hm & Hparse)].
      * now rewrite Hnone.
      * now rewrite Hm, Hparse.
    + apply code_units_substring_to.
    + apply substring_to_bytes.
    + apply substring_to_ascii.
  - exists (str_or (method request) "GET"),
           (val_or (inputSchema request) (JSON.JObject [])),
           (val_or (outputSchema request) (JSON.JObject [])).
    split; [|split; [|split]].
    + destruct Hfall as [Hnone | (m & Hm & Hparse)].
      * now rewrite Hnone.
      * now rewrite Hm, Hparse.
    + apply str_or_is_text_or.
    + apply val_or_is_value_or.
    + apply val_or_is_value_or.
Qed.

Lemma object_schema_not_falsy (ms : list (string * JSON.value)) :
  ~ falsy (JSON.JObject ms).
Proof.
  intros [H | [H | [H | (n & H & _)]]]; discriminate.
Defined.

Lemma C7_fallback_witness :
  upstream_replies (upstream_saying two_objects)
    (sample_reply [sample_choice (Some two_objects)])
  /\ (match_brace_span two_objects = Some two_objects
      /\ JSON.parse two_objects = None)
  /\ (exists intent,
         snd (run (parseApiPrompt sample_service (upstream_saying two_objects)
                     accented_prompt))
         = Returned
             (JSON.JObject [
                ("intent", JSON.JString intent);
                ("suggestedEndpoint", JSON.JString "/api/generated");
                ("suggestedMethod", JSON.JString "GET");
                ("parameters", JSON.JArray []);
                ("complexity", JSON.JString "medium") ])
         /\ code_units intent = firstn 100 (code_units accented_prompt))
  /\ snd (run (generateApiCode sample_service (upstream_saying two_objects)
                 schema_generation))
     = Returned
         (JSON.JObject [
            ("endpoint", JSON.JString "/api/generated");
            ("method", JSON.JString "GET");
            ("controllerCode",
             JSON.JString ("// Generated from: list all books"
                           ++ JSON.newline ++ two_objects));
            ("serviceCode", JSON.JString "// Service logic would go here");
            ("schema",
             JSON.JObject [
               ("input", JSON.JObject [("type", JSON.JString "object")]);
               ("output", JSON.JObject [])]) ]).
Proof.
  split; [apply upstream_saying_replies|].
  split; [split; reflexivity|].
  destruct (C7_fallback_values
              sample_service (upstream_saying two_objects) accented_prompt
              schema_generation _ {| logs := []; sent := [] |}
              (upstream_saying_replies two_objects)
              (or_intror (ex_intro _ two_objects (conj eq_refl eq_refl))))
    as ((intent & Hparse & Hunits & _)
        & (method_ & input & output & Hgen & Hmethod & Hinput & Houtput)).
  split; [exists intent; split; [exact Hparse | exact Hunits]|].
  rewrite (proj2 Hmethod (or_introl eq_refl)) in Hgen.
  rewrite (proj1 Hinput _ eq_refl (object_schema_not_falsy _)) in Hgen.
  rewrite (proj2 Houtput
             (or_intror (ex_intro _ JSON.JNull
                           (conj eq_refl (or_introl eq_refl))))) in Hgen.
  exact Hgen.
Defined.

(** When the transport call settles, the four operations end as it ends.
    [testConnection] never throws: when the transport call of its probe
    returns, it returns a result with [success = true] and the generated
    text; when the transport call throws, it returns a result with
    [success = false] and the error's message.  [generateResponse],
    [parseApiPrompt] and [generateApiCode] throw to their caller the very
    error their transport call threw. *)
Lemma testConnection_downgrades_others_propagate :
  forall (this : AIService) (up : Http.Upstream) (w : World),
    let probe_options :=
      {| Options.maxTokens := Some 50;
         Options.temperature := Some (1 # 10)%Q |} in
    (forall e, snd (testConnection this up w) <> Thrown e)
    /\ (forall data,
           snd (makeRequest this up (chat_messages connection_probe)
                  probe_options w) = Returned data ->
           snd (testConnection this up w)
           = Returned
               {| Connection.success := true;
                  Connection.model := model this;
                  Connection.response :=
                    str_or (first_content data) "No response generated" |})
    /\ (forall e,
           snd (makeRequest this up (chat_messages connection_probe)
                  probe_options w) = Thrown e ->
           snd (testConnection this up w)
           = Returned
               {| Connection.success := false;
                  Connection.model := model this;
                  Connection.response := message e |})
    /\ (forall request e,
           snd (makeRequest this up (chat_messages request)
                  {| Options.maxTokens := maxTokens request;
                     Options.temperature := temperature request |} w)
           = Thrown e ->
           snd (generateResponse this up request w) = Thrown e)
    /\ (forall prompt e,
           snd (makeRequest this up (analysis_messages prompt)
                  {| Options.maxTokens := Some 500;
                     Options.temperature := Some (2 # 10)%Q |} w)
           = Thrown e ->
           snd (parseApiPrompt this up prompt w) = Thrown e)
    /\ (forall request e,
           snd (makeRequest this up (codegen_messages request)
                  {| Options.maxTokens := Some 2000;
                     Options.temperature := Some (3 # 10)%Q |} w)
           = Thrown e ->
           snd (generateApiCode this up request w) = Thrown e).
Proof.
  intros this up w probe_options.
  split; [|split; [|split; [|split; [|split]]]].
  - intros e. rewrite testConnection_outcome.
    destruct (snd (generateResponse this up connection_probe w));
      discriminate.
  - intros data H. rewrite testConnection_outcome, generateResponse_outcome.
    cbn [maxTokens temperature connection_probe].
    fold probe_options. now rewrite H.
  - intros e H. rewrite testConnection_outcome, generateResponse_outcome.
    cbn [maxTokens temperature connection_probe].
    fold probe_options. rewrite H.
    destruct (makeRequest_throws_wrapped this up _ _ w e H) as (inner & ->).
    reflexivity.
  - intros request e H. rewrite generateResponse_outcome. now rewrite H.
  - intros prompt e H. rewrite parseApiPrompt_outcome. now rewrite H.
  - intros request e H. rewrite generateApiCode_outcome. now rewrite H.
Qed.

Example refused_probe_is_downgraded :
  snd (run (makeRequest sample_service upstream_404
              (chat_messages connection_probe)
              {| Options.maxTokens := Some 50;
                 Options.temperature := Some (1 # 10)%Q |}))
  = Thrown (createError
              "Failed to communicate with AI service: AI service error: Not Found"
              500)
  /\ snd (run (testConnection sample_service upstream_404))
     = Returned
         {| Connection.success := false;
            Connection.model := "deepseek/deepseek-chat-v3.1:free";
            Connection.response :=
              "Failed to communicate with AI service: AI service error: Not Found" |}.
Proof.
  split; [reflexivity|].
  exact (proj1 (proj2 (proj2 (testConnection_downgrades_others_propagate
                                sample_service upstream_404
                                {| logs := []; sent := [] |})))
           _ eq_refl).
Defined.

(** C8: the code does not do what the claim says.  The upstream sends its
    status line after 40 ms and never completes the body, the input of C5.
    [testConnection] turns what [generateResponse] throws into a result,
    but here nothing is thrown: the timer was cleared when [fetch]
    resolved and nothing ends the reading of the body.  [testConnection]
    returns no result and throws nothing, it never settles; the one log
    record written is that of the request going out. *)
Theorem C8_stalled_body_leaves_testConnection_pending :
  let outcome := run (testConnection sample_service upstream_stalled_body) in
  snd outcome = Pending
  /\ (forall result, snd outcome <> Returned result)
  /\ (forall e, snd outcome <> Thrown e)
  /\ map text (logs (fst outcome)) = ["Making OpenRouter API request"]
  /\ sent (fst outcome)
     = [completion_request sample_service (chat_messages connection_probe)].
Proof.
  cbv zeta. split; [reflexivity|].
  split; [intros result; discriminate|].
  split; [intros e; discriminate|].
  split; reflexivity.
Qed.




(** C10.  When the upstream call succeeds with an empty choices array, or
    with a first choice whose message content is missing or empty, the reply
    text is empty, has no brace span, and [parseApiPrompt] and
    [generateApiCode] return their fallback values. *)
Theorem C10_empty_reply_falls_back :
  forall (this : AIService) (up : Http.Upstream) (prompt : string)
         (request : APIGenerationRequest) (data : OpenRouter.Response)
         (w : World),
    upstream_replies up data ->
    OpenRouter.choices data = [] \/ first_content data = None
    \/ first_content data = Some "" ->
    reply_text data = ""
    /\ match_brace_span (reply_text data) = None
    /\ snd (parseApiPrompt this up prompt w)
       = Returned (analysis_fallback prompt)
    /\ snd (generateApiCode this up request w)
       = Returned (codegen_fallback request "").
Proof.
  intros this up prompt request data w H Hempty.
  rewrite parseApiPrompt_outcome, generateApiCode_outcome.
  rewrite !(makeRequest_returns this up _ _ w data H).
  rewrite (reply_text_empty data Hempty).
  repeat split; reflexivity.
Qed.

Lemma C10_no_choices_witness :
  upstream_replies upstream_no_choices (sample_reply [])
  /\ snd (run (parseApiPrompt sample_service upstream_no_choices
                 "list all books"))
     = Returned (analysis_fallback "list all books").
Proof.
  split; [exact upstream_no_choices_replies|].
  refine (proj1 (proj2 (proj2 (C10_empty_reply_falls_back
                                 sample_service upstream_no_choices
                                 "list all books" sample_generation
                                 (sample_reply []) {| logs := []; sent := [] |}
                                 upstream_no_choices_replies _)))).
  left. reflexivity.
Defined.

(** ** Further properties of the service *)

Ltac run_transport :=
  unfold makeRequest, try_catch, bind, fetch, await, logger_info,
    logger_error, logger_warn, log, ret, throw; cbn.

Ltac upstream_cases up :=
  let t := fresh "t" in
  let e0 := fresh "e0" in
  let r := fresh "r" in
  destruct (Http.settles_after up) as [t|];
    [destruct (t <? 30000);
       [destruct (Http.settles_with up) as [e0|r];
          [|destruct (Http.ok r);
              [destruct (Http.json r)|destruct (Http.text r)]]|]|];
    cbn.

Section Effects.

Variable this : AIService.
Variable up : Http.Upstream.
Variable w : World.

Lemma makeRequest_sent (messages : list ChatMessage) (options : Options.t) :
  sent (fst (makeRequest this up messages options w))
  = app (sent w)
     [{| Http.url := baseUrl this ++ "/chat/completions";
         Http.method := "POST";
         Http.headers :=
           [("Authorization", "Bearer " ++ apiKey this);
            ("Content-Type", "application/json");
            ("HTTP-Referer", "http://localhost:3001");
            ("X-Title", "SI-AGENT")];
         Http.body :=
           JSON.stringify
             (JSON.JObject
                [("model", JSON.JString (model this));
                 ("messages", JSON.JArray (map message_json messages))]) |}].
Proof.
  run_transport. upstream_cases up; reflexivity.
Qed.

Lemma makeRequest_failure_logged (messages : list ChatMessage)
    (options : Options.t) (e : JsError) :
  snd (makeRequest this up messages options w) = Thrown e ->
  exists older r inner,
    logs (fst (makeRequest this up messages options w)) = (older ++ [r])%list
    /\ level r = Error
    /\ text r = "AI service request failed:"
    /\ log_field "message" r = Some (LString inner)
    /\ e = createError (failure_prefix ++ inner) 500
    /\ log_field "apiKey" r
       = Some (LString (if String.eqb (apiKey this) "" then "NOT_SET"
                        else "SET")).
Proof.
  run_transport. upstream_cases up; intros H; inversion H; subst e;
    eexists; eexists; eexists; (split; [reflexivity|]);
    repeat split; reflexivity.
Qed.

Lemma generateResponse_sent (request : AIPromptRequest) :
  sent (fst (generateResponse this up request w))
  = sent (fst (makeRequest this up (chat_messages request)
                 {| Options.maxTokens := maxTokens request;
                    Options.temperature := temperature request |} w)).
Proof.
  unfold generateResponse, try_catch, bind.
  destruct (makeRequest this up (chat_messages request) _ w) as [w' [d|e|]];
    reflexivity.
Qed.

Lemma parseApiPrompt_sent (prompt : string) :
  sent (fst (parseApiPrompt this up prompt w))
  = sent (fst (makeRequest this up (analysis_messages prompt)
                 {| Options.maxTokens := Some 500;
                    Options.temperature := Some (2 # 10)%Q |} w)).
Proof.
  unfold parseApiPrompt, try_catch at 1, bind at 1.
  destruct (makeRequest this up (analysis_messages prompt) _ w)
    as [w' [d|e|]]; try reflexivity.
  unfold parse_brace_span, JSON_parse, try_catch, bind. cbn.
  destruct (match_brace_span (str_or (first_content d) "")) as [m|];
    [|reflexivity].
  destruct (JSON.parse m); reflexivity.
Qed.

Lemma generateApiCode_sent (request : APIGenerationRequest) :
  sent (fst (generateApiCode this up request w))
  = sent (fst (makeRequest this up (codegen_messages request)
                 {| Options.maxTokens := Some 2000;
                    Options.temperature := Some (3 # 10)%Q |} w)).
Proof.
  unfold generateApiCode, try_catch at 1, bind at 1.
  destruct (makeRequest this up (codegen_messages request) _ w)
    as [w' [d|e|]]; try reflexivity.
  unfold parse_brace_span, JSON_parse, try_catch, bind. cbn.
  destruct (match_brace_span (str_or (first_content d) "")) as [m|];
    [|reflexivity].
  destruct (JSON.parse m); reflexivity.
Qed.

Lemma testConnection_sent :
  sent (fst (testConnection this up w))
  = sent (fst (generateResponse this up connection_probe w)).
Proof.
  unfold testConnection, try_catch, bind.
  change {| prompt := _; context := None; maxTokens := Some 50;
            temperature := Some (1 # 10)%Q |} with connection_probe.
  destruct (generateResponse this up connection_probe w) as [w' [d|e|]];
    reflexivity.
Qed.

End Effects.

Lemma prefix_append (p x : string) : String.prefix p (p ++ x) = true.
Proof.
  induction p as [|c p IH]; cbn; [now destruct x|].
  destruct (Ascii.ascii_dec c c) as [_|Hne]; [exact IH | now elim Hne].
Qed.

Lemma str_or_nonempty (s : option string) (d : string) :
  d <> "" -> str_or s d <> "".
Proof.
  intros Hd. unfold str_or. destruct s as [x|]; [|exact Hd].
  destruct (String.eqb_spec x ""); assumption.
Qed.

Lemma makeRequest_rejected (this : AIService) (up : Http.Upstream)
    (messages : list ChatMessage) (options : Options.t) (w : World)
    (err : JsError) :
  upstream_rejects up err ->
  snd (makeRequest this up messages options w)
  = Thrown (createError (failure_prefix ++ errorMessage_of err) 500).
Proof.
  intros (t & Ht & Hlt & Hr).
  run_transport. rewrite Ht, Hr.
  apply Z.ltb_lt in Hlt. rewrite Hlt. reflexivity.
Qed.

Lemma makeRequest_garbled (this : AIService) (up : Http.Upstream)
    (messages : list ChatMessage) (options : Options.t) (w : World)
    (err : JsError) :
  upstream_garbles up err ->
  snd (makeRequest this up messages options w)
  = Thrown (createError (failure_prefix ++ errorMessage_of err) 500).
Proof.
  intros (t & r & Ht & Hlt & Hr & Hok & Hjson).
  run_transport. rewrite Ht, Hr.
  apply Z.ltb_lt in Hlt. rewrite Hlt, Hok. cbn. rewrite Hjson. reflexivity.
Qed.

(** Each operation ends the way its transport call ends, once that call has
    thrown. *)
Lemma operations_rethrow (this : AIService) (up : Http.Upstream) (w : World)
    (e : JsError) :
  (forall messages options,
      snd (makeRequest this up messages options w) = Thrown e) ->
  (forall request, snd (generateResponse this up request w) = Thrown e)
  /\ (forall prompt, snd (parseApiPrompt this up prompt w) = Thrown e)
  /\ (forall request, snd (generateApiCode this up request w) = Thrown e)
  /\ snd (testConnection this up w)
     = Returned {| Connection.success := false;
                   Connection.model := model this;
                   Connection.response :=
                     str_or (Some (message e)) "Connection test failed" |}.
Proof.
  intros H. repeat split.
  - intros request. now rewrite generateResponse_outcome, H.
  - intros prompt. now rewrite parseApiPrompt_outcome, H.
  - intros request. now rewrite generateApiCode_outcome, H.
  - now rewrite testConnection_outcome, generateResponse_outcome, H.
Qed.

(** X1.  The constructor fails exactly when OPENROUTER_API_KEY is unset or
    empty, with the error "OPENROUTER_API_KEY is required".  Otherwise the
    service holds that key, and its model and base URL are the values of
    OPENROUTER_MODEL and OPENROUTER_BASE_URL, or the built-in defaults when
    those are unset or empty; none of the three fields is ever empty. *)
Theorem X1_constructor_requires_key_and_fills_defaults :
  forall env : ProcessEnv,
    (OPENROUTER_API_KEY env = None \/ OPENROUTER_API_KEY env = Some "" <->
     new_AIService env = inl (new_Error "OPENROUTER_API_KEY is required"))
    /\ (forall this,
           new_AIService env = inr this ->
           OPENROUTER_API_KEY env = Some (apiKey this)
           /\ apiKey this <> "" /\ model this <> "" /\ baseUrl this <> ""
           /\ (OPENROUTER_MODEL env = None \/ OPENROUTER_MODEL env = Some "" ->
               model this = "deepseek/deepseek-chat-v3.1:free")
           /\ (forall m, OPENROUTER_MODEL env = Some m -> m <> "" ->
                         model this = m)
           /\ (OPENROUTER_BASE_URL env = None
               \/ OPENROUTER_BASE_URL env = Some "" ->
               baseUrl this = "https://openrouter.ai/api/v1")
           /\ (forall b, OPENROUTER_BASE_URL env = Some b -> b <> "" ->
                         baseUrl this = b)).
Proof.
  intros [key mdl url]. unfold new_AIService. cbn. split.
  - split.
    + intros [-> | ->]; reflexivity.
    + destruct key as [k|]; cbn; [|now left].
      destruct (String.eqb_spec k "") as [->|Hk]; cbn; [now right|].
      apply String.eqb_neq in Hk. rewrite Hk. discriminate.
  - intros this. destruct key as [k|]; cbn; [|discriminate].
    destruct (String.eqb_spec k "") as [->|Hk]; cbn; [discriminate|].
    pose proof Hk as Hk'. apply String.eqb_neq in Hk'. rewrite Hk'.
    intros H; inversion H; subst this; clear H. cbn.
    split; [reflexivity|]. split; [exact Hk|].
    split; [apply str_or_nonempty; discriminate|].
    split; [apply str_or_nonempty; discriminate|].
    repeat split.
    + intros [-> | ->]; reflexivity.
    + intros m -> Hm. cbn. apply String.eqb_neq in Hm. now rewrite Hm.
    + intros [-> | ->]; reflexivity.
    + intros b -> Hb. cbn. apply String.eqb_neq in Hb. now rewrite Hb.
Qed.

Lemma X1_constructor_witness :
  new_AIService sample_env = inr sample_service
  /\ apiKey sample_service <> ""
  /\ baseUrl sample_service = "https://openrouter.ai/api/v1".
Proof.
  destruct (proj2 (X1_constructor_requires_key_and_fills_defaults sample_env)
              sample_service eq_refl)
    as (_ & Hkey & _ & _ & _ & _ & Hurl & _).
  split; [reflexivity|]. split; [exact Hkey|].
  apply Hurl. right. reflexivity.
Defined.

(** X2.  Each of the four operations calls [fetch] exactly once, whatever
    the upstream does (answer, refusal, rejection, abort, or a body that
    never arrives), with a POST to the chat-completions path of the base
    URL, the key as bearer token and the model and messages as JSON body.
    The service itself tries nothing a second time.  (How many requests
    [fetch] puts on the wire for one call, when it follows a redirect, is
    not part of the model.) *)
Theorem X2_one_fetch_call_per_operation :
  forall (this : AIService) (up : Http.Upstream) (w : World),
    let request_for (messages : list ChatMessage) : Http.Request :=
      {| Http.url := baseUrl this ++ "/chat/completions";
         Http.method := "POST";
         Http.headers :=
           [("Authorization", "Bearer " ++ apiKey this);
            ("Content-Type", "application/json");
            ("HTTP-Referer", "http://localhost:3001");
            ("X-Title", "SI-AGENT")];
         Http.body :=
           JSON.stringify
             (JSON.JObject
                [("model", JSON.JString (model this));
                 ("messages", JSON.JArray (map message_json messages))]) |} in
    (forall request,
        sent (fst (generateResponse this up request w))
        = app (sent w) [request_for (chat_messages request)])
    /\ (forall prompt,
           sent (fst (parseApiPrompt this up prompt w))
           = app (sent w) [request_for (analysis_messages prompt)])
    /\ (forall request,
           sent (fst (generateApiCode this up request w))
           = app (sent w) [request_for (codegen_messages request)])
    /\ sent (fst (testConnection this up w))
       = app (sent w) [request_for (chat_messages connection_probe)].
Proof.
  intros this up w request_for. repeat split.
  - intros request. rewrite generateResponse_sent. apply makeRequest_sent.
  - intros prompt. rewrite parseApiPrompt_sent. apply makeRequest_sent.
  - intros request. rewrite generateApiCode_sent. apply makeRequest_sent.
  - rewrite testConnection_sent, generateResponse_sent.
    apply makeRequest_sent.
Qed.

(** X3.  Every error that [makeRequest] throws is an operational [Error]
    with status code 500 and no system error code, whose message starts with
    "Failed to communicate with AI service: ".  When their transport call
    throws it, [generateResponse], [parseApiPrompt] and [generateApiCode]
    throw that very error.  (Nothing is said here of what an operation may
    throw once its transport call has returned.) *)
Theorem X3_transport_errors_are_operational_500 :
  forall (this : AIService) (up : Http.Upstream) (w : World) (e : JsError),
    (forall messages options,
        snd (makeRequest this up messages options w) = Thrown e ->
        name e = "Error" /\ statusCode e = Some 500 /\ isOperational e = true
        /\ code e = None
        /\ String.prefix "Failed to communicate with AI service: " (message e)
           = true)
    /\ (forall request,
           snd (makeRequest this up (chat_messages request)
                  {| Options.maxTokens := maxTokens request;
                     Options.temperature := temperature request |} w)
           = Thrown e ->
           snd (generateResponse this up request w) = Thrown e)
    /\ (forall prompt,
           snd (makeRequest this up (analysis_messages prompt)
                  {| Options.maxTokens := Some 500;
                     Options.temperature := Some (2 # 10)%Q |} w)
           = Thrown e ->
           snd (parseApiPrompt this up prompt w) = Thrown e)
    /\ (forall request,
           snd (makeRequest this up (codegen_messages request)
                  {| Options.maxTokens := Some 2000;
                     Options.temperature := Some (3 # 10)%Q |} w)
           = Thrown e ->
           snd (generateApiCode this up request w) = Thrown e).
Proof.
  intros this up w e. split; [|split; [|split]].
  - intros messages options Hm.
    destruct (makeRequest_throws_wrapped this up messages options w e Hm)
      as (inner & ->).
    repeat split. apply (prefix_append failure_prefix inner).
  - intros request H. rewrite generateResponse_outcome. now rewrite H.
  - intros prompt H. rewrite parseApiPrompt_outcome. now rewrite H.
  - intros request H. rewrite generateApiCode_outcome. now rewrite H.
Qed.

Lemma X3_refusal_witness :
  snd (run (makeRequest sample_service upstream_404
              (codegen_messages sample_generation)
              {| Options.maxTokens := Some 2000;
                 Options.temperature := Some (3 # 10)%Q |}))
  = Thrown (createError
              "Failed to communicate with AI service: AI service error: Not Found"
              500)
  /\ statusCode
       (createError
          "Failed to communicate with AI service: AI service error: Not Found"
          500) = Some 500
  /\ snd (run (generateApiCode sample_service upstream_404 sample_generation))
     = Thrown (createError
                 "Failed to communicate with AI service: AI service error: Not Found"
                 500).
Proof.
  destruct (X3_transport_errors_are_operational_500
              sample_service upstream_404 {| logs := []; sent := [] |}
              (createError
                 "Failed to communicate with AI service: AI service error: Not Found"
                 500))
    as (Hshape & _ & _ & Hgen).
  split; [reflexivity|].
  split; [exact (proj1 (proj2 (Hshape (codegen_messages sample_generation)
                                  Options.empty eq_refl)))|].
  exact (Hgen sample_generation eq_refl).
Defined.

(** X4.  When the [fetch] promise has not settled after 30000 ms (or never
    settles), the call is aborted: [generateResponse], [parseApiPrompt] and
    [generateApiCode] throw the operational error "Failed to communicate
    with AI service: Request timeout - OpenRouter API took too long to
    respond" with status code 500, and [testConnection] returns
    [success = false] with that text. *)
Theorem X4_fetch_stall_is_aborted_with_timeout :
  forall (this : AIService) (up : Http.Upstream) (w : World),
    upstream_stalls up ->
    let timeout := createError timeout_text 500 in
    (forall request, snd (generateResponse this up request w) = Thrown timeout)
    /\ (forall prompt, snd (parseApiPrompt this up prompt w) = Thrown timeout)
    /\ (forall request, snd (generateApiCode this up request w) = Thrown timeout)
    /\ snd (testConnection this up w)
       = Returned {| Connection.success := false;
                     Connection.model := model this;
                     Connection.response := timeout_text |}.
Proof.
  intros this up w H timeout.
  apply (operations_rethrow this up w timeout).
  intros messages options. now apply makeRequest_times_out.
Qed.

Lemma X4_silent_upstream_witness :
  upstream_stalls upstream_silent
  /\ snd (run (testConnection sample_service upstream_silent))
     = Returned
         {| Connection.success := false;
            Connection.model := "deepseek/deepseek-chat-v3.1:free";
            Connection.response :=
              "Failed to communicate with AI service: Request timeout - OpenRouter API took too long to respond" |}.
Proof.
  split; [exact I|].
  exact (proj2 (proj2 (proj2 (X4_fetch_stall_is_aborted_with_timeout
                                sample_service upstream_silent
                                {| logs := []; sent := [] |} I)))).
Defined.

(** X5.  When [fetch] is rejected with an error whose code is ENOTFOUND or
    ECONNREFUSED (and which is not an abort), the three operations throw the
    operational error "Failed to communicate with AI service: Network error
    - Cannot reach OpenRouter API" with status code 500: the original
    message is replaced.  An error with any other code, or none, keeps its
    own message behind the prefix. *)
Theorem X5_network_failures_are_classified :
  forall (this : AIService) (up : Http.Upstream) (w : World) (err : JsError),
    upstream_rejects up err ->
    name err <> "AbortError" ->
    (code err = Some "ENOTFOUND" \/ code err = Some "ECONNREFUSED" ->
     (forall request,
         snd (generateResponse this up request w)
         = Thrown (createError network_text 500))
     /\ (forall prompt,
            snd (parseApiPrompt this up prompt w)
            = Thrown (createError network_text 500))
     /\ (forall request,
            snd (generateApiCode this up request w)
            = Thrown (createError network_text 500)))
    /\ (code err <> Some "ENOTFOUND" -> code err <> Some "ECONNREFUSED" ->
        (forall request,
            snd (generateResponse this up request w)
            = Thrown (createError (failure_prefix ++ message err) 500))
        /\ (forall prompt,
               snd (parseApiPrompt this up prompt w)
               = Thrown (createError (failure_prefix ++ message err) 500))
        /\ (forall request,
               snd (generateApiCode this up request w)
               = Thrown (createError (failure_prefix ++ message err) 500))).
Proof.
  intros this up w err Hup Hname.
  apply String.eqb_neq in Hname.
  split.
  - intros Hcode.
    assert (Hm : errorMessage_of err
                 = "Network error - Cannot reach OpenRouter API").
    { unfold errorMessage_of. rewrite Hname.
      destruct Hcode as [-> | ->]; reflexivity. }
    destruct (operations_rethrow this up w (createError network_text 500))
      as (H1 & H2 & H3 & _).
    + intros messages options.
      rewrite (makeRequest_rejected this up messages options w err Hup).
      now rewrite Hm.
    + auto.
  - intros Hn1 Hn2.
    assert (Hm : errorMessage_of err = message err).
    { unfold errorMessage_of. rewrite Hname.
      destruct (code err) as [c|]; [|reflexivity].
      destruct (String.eqb_spec c "ENOTFOUND") as [->|_];
        [now elim Hn1|].
      destruct (String.eqb_spec c "ECONNREFUSED") as [->|_];
        [now elim Hn2|].
      reflexivity. }
    destruct (operations_rethrow this up w
                (createError (failure_prefix ++ message err) 500))
      as (H1 & H2 & H3 & _).
    + intros messages options.
      rewrite (makeRequest_rejected this up messages options w err Hup).
      now rewrite Hm.
    + auto.
Qed.

Lemma upstream_unreachable_rejects :
  upstream_rejects upstream_unreachable dns_failure.
Proof.
  exists 15. repeat split; reflexivity.
Defined.

Lemma X5_dns_failure_witness :
  upstream_rejects upstream_unreachable dns_failure
  /\ name dns_failure <> "AbortError"
  /\ snd (run (parseApiPrompt sample_service upstream_unreachable
                 "list all books"))
     = Thrown (createError
                 "Failed to communicate with AI service: Network error - Cannot reach OpenRouter API"
                 500).
Proof.
  split; [exact upstream_unreachable_rejects|].
  split; [discriminate|].
  refine (proj1 (proj2 (proj1 (X5_network_failures_are_classified
                                 sample_service upstream_unreachable
                                 {| logs := []; sent := [] |} dns_failure
                                 upstream_unreachable_rejects _) _))
            "list all books").
  - discriminate.
  - left. reflexivity.
Defined.

(** X6.  When the upstream answers with a success status but its body cannot
    be read as JSON, no fallback is used: the three operations throw an
    operational error with status code 500 whose message is the prefix
    followed by the message of the reading error (for a reading error that
    is neither an abort nor a network failure). *)
Theorem X6_unreadable_body_is_a_failure :
  forall (this : AIService) (up : Http.Upstream) (w : World) (err : JsError),
    upstream_garbles up err ->
    name err <> "AbortError" ->
    code err = None ->
    let failure := createError (failure_prefix ++ message err) 500 in
    (forall request, snd (generateResponse this up request w) = Thrown failure)
    /\ (forall prompt, snd (parseApiPrompt this up prompt w) = Thrown failure)
    /\ (forall request, snd (generateApiCode this up request w) = Thrown failure).
Proof.
  intros this up w err Hup Hname Hcode failure.
  apply String.eqb_neq in Hname.
  destruct (operations_rethrow this up w failure) as (H1 & H2 & H3 & _);
    [|auto].
  intros messages options.
  rewrite (makeRequest_garbled this up messages options w err Hup).
  unfold errorMessage_of. now rewrite Hname, Hcode.
Qed.

Lemma upstream_html_garbles : upstream_garbles upstream_html invalid_json.
Proof.
  exists 40, {| Http.status := 200; Http.statusText := "OK";
               Http.text := Returned "<html></html>";
               Http.json := Thrown invalid_json |}.
  repeat split; reflexivity.
Defined.

Lemma X6_html_body_witness :
  upstream_garbles upstream_html invalid_json
  /\ snd (run (generateApiCode sample_service upstream_html
                 sample_generation))
     = Thrown (createError (failure_prefix ++ message invalid_json) 500).
Proof.
  split; [exact upstream_html_garbles|].
  refine (proj2 (proj2 (X6_unreadable_body_is_a_failure
                          sample_service upstream_html
                          {| logs := []; sent := [] |} invalid_json
                          upstream_html_garbles _ eq_refl))
            sample_generation).
  discriminate.
Defined.

Section FailureLogging.

Variable this : AIService.
Variable up : Http.Upstream.
Variable w : World.

Lemma generateResponse_logs_thrown (request : AIPromptRequest) (e : JsError) :
  snd (generateResponse this up request w) = Thrown e ->
  snd (makeRequest this up (chat_messages request)
         {| Options.maxTokens := maxTokens request;
            Options.temperature := temperature request |} w) = Thrown e
  /\ logs (fst (generateResponse this up request w))
     = app (logs (fst (makeRequest this up (chat_messages request)
                         {| Options.maxTokens := maxTokens request;
                            Options.temperature := temperature request |} w)))
         [{| level := Error; text := "Generate response error:";
             meta := ErrorObject e |}].
Proof.
  unfold generateResponse, try_catch, bind.
  destruct (makeRequest this up (chat_messages request) _ w) as [w' [d|e'|]];
    cbn; intros H; inversion H; subst. split; reflexivity.
Qed.

Lemma parseApiPrompt_logs_thrown (prompt : string) (e : JsError) :
  snd (parseApiPrompt this up prompt w) = Thrown e ->
  snd (makeRequest this up (analysis_messages prompt)
         {| Options.maxTokens := Some 500;
            Options.temperature := Some (2 # 10)%Q |} w) = Thrown e
  /\ logs (fst (parseApiPrompt this up prompt w))
     = app (logs (fst (makeRequest this up (analysis_messages prompt)
                         {| Options.maxTokens := Some 500;
                            Options.temperature := Some (2 # 10)%Q |} w)))
         [{| level := Error; text := "Parse API prompt error:";
             meta := ErrorObject e |}].
Proof.
  unfold parseApiPrompt, try_catch, bind.
  destruct (makeRequest this up (analysis_messages prompt) _ w)
    as [w' [d|e'|]]; cbn.
  - unfold parse_brace_span, JSON_parse, try_catch, bind. cbn.
    destruct (match_brace_span (str_or (first_content d) "")) as [m|];
      [destruct (JSON.parse m)|]; cbn; discriminate.
  - intros H; inversion H; subst. split; reflexivity.
  - discriminate.
Qed.

Lemma generateApiCode_logs_thrown (request : APIGenerationRequest)
    (e : JsError) :
  snd (generateApiCode this up request w) = Thrown e ->
  snd (makeRequest this up (codegen_messages request)
         {| Options.maxTokens := Some 2000;
            Options.temperature := Some (3 # 10)%Q |} w) = Thrown e
  /\ logs (fst (generateApiCode this up request w))
     = app (logs (fst (makeRequest this up (codegen_messages request)
                         {| Options.maxTokens := Some 2000;
                            Options.temperature := Some (3 # 10)%Q |} w)))
         [{| level := Error; text := "Generate API code error:";
             meta := ErrorObject e |}].
Proof.
  unfold generateApiCode, try_catch, bind.
  destruct (makeRequest this up (codegen_messages request) _ w)
    as [w' [d|e'|]]; cbn.
  - unfold parse_brace_span, JSON_parse, try_catch, bind. cbn.
    destruct (match_brace_span (str_or (first_content d) "")) as [m|];
      [destruct (JSON.parse m)|]; cbn; discriminate.
  - intros H; inversion H; subst. split; reflexivity.
  - discriminate.
Qed.

End FailureLogging.

(** X7.  A transport failure is always logged before it reaches the caller.
    When the transport call of an operation of a service built by the
    constructor throws [e], the last two log records of the operation are
    the transport's "AI service request failed:" record, whose [message]
    field is the text that follows the prefix in the message of [e] and
    whose [apiKey] field is the flag "SET", and then the operation's own
    error record, which holds [e] itself.  (Nothing is said here of what an
    operation may throw once its transport call has returned.) *)
Theorem X7_transport_failures_are_logged_before_they_are_thrown :
  forall (env : ProcessEnv) (this : AIService) (up : Http.Upstream)
         (w : World) (e : JsError) (after : list LogRecord) (label : string),
    new_AIService env = inr this ->
    (exists request,
        snd (makeRequest this up (chat_messages request)
               {| Options.maxTokens := maxTokens request;
                  Options.temperature := temperature request |} w)
        = Thrown e
        /\ after = logs (fst (generateResponse this up request w))
        /\ label = "Generate response error:")
    \/ (exists prompt,
           snd (makeRequest this up (analysis_messages prompt)
                  {| Options.maxTokens := Some 500;
                     Options.temperature := Some (2 # 10)%Q |} w)
           = Thrown e
           /\ after = logs (fst (parseApiPrompt this up prompt w))
           /\ label = "Parse API prompt error:")
    \/ (exists request,
           snd (makeRequest this up (codegen_messages request)
                  {| Options.maxTokens := Some 2000;
                     Options.temperature := Some (3 # 10)%Q |} w)
           = Thrown e
           /\ after = logs (fst (generateApiCode this up request w))
           /\ label = "Generate API code error:") ->
    exists older r inner,
      after = app older
                [r; {| level := Error; text := label;
                       meta := ErrorObject e |}]
      /\ level r = Error
      /\ text r = "AI service request failed:"
      /\ log_field "message" r = Some (LString inner)
      /\ message e = "Failed to communicate with AI service: " ++ inner
      /\ log_field "apiKey" r = Some (LString "SET").
Proof.
  intros env this up w e after label Henv H.
  assert (Hkey : String.eqb (apiKey this) "" = false).
  { apply String.eqb_neq. exact (constructed_service_has_key env this Henv). }
  assert (Hm : exists messages options,
             snd (makeRequest this up messages options w) = Thrown e
             /\ after = app (logs (fst (makeRequest this up messages options w)))
                          [{| level := Error; text := label;
                              meta := ErrorObject e |}]).
  { destruct H as [(request & H & -> & ->) | [(prompt & H & -> & ->)
                                             | (request & H & -> & ->)]].
    - assert (Hop : snd (generateResponse this up request w) = Thrown e)
        by (rewrite generateResponse_outcome; now rewrite H).
      destruct (generateResponse_logs_thrown this up w request e Hop); eauto.
    - assert (Hop : snd (parseApiPrompt this up prompt w) = Thrown e)
        by (rewrite parseApiPrompt_outcome; now rewrite H).
      destruct (parseApiPrompt_logs_thrown this up w prompt e Hop); eauto.
    - assert (Hop : snd (generateApiCode this up request w) = Thrown e)
        by (rewrite generateApiCode_outcome; now rewrite H).
      destruct (generateApiCode_logs_thrown this up w request e Hop); eauto. }
  destruct Hm as (messages & options & Hthrown & ->).
  destruct (makeRequest_failure_logged this up w messages options e Hthrown)
    as (older & r & inner & Hlogs & Hlevel & Htext & Hmsg & -> & Hflag).
  rewrite Hkey in Hflag.
  exists older, r, inner. rewrite Hlogs, <- app_assoc.
  repeat split; assumption.
Qed.

Lemma X7_logged_refusal_witness :
  new_AIService sample_env = inr sample_service
  /\ snd (run (makeRequest sample_service upstream_404
                 (analysis_messages "list all books")
                 {| Options.maxTokens := Some 500;
                    Options.temperature := Some (2 # 10)%Q |}))
     = Thrown (createError
                 "Failed to communicate with AI service: AI service error: Not Found"
                 500)
  /\ exists older r,
       logs (fst (run (parseApiPrompt sample_service upstream_404
                         "list all books")))
       = app older
           [r; {| level := Error; text := "Parse API prompt error:";
                  meta :=
                    ErrorObject
                      (createError
                         "Failed to communicate with AI service: AI service error: Not Found"
                         500) |}]
       /\ log_field "apiKey" r = Some (LString "SET").
Proof.
  split; [reflexivity|]. split; [reflexivity|].
  destruct (X7_transport_failures_are_logged_before_they_are_thrown
              sample_env sample_service upstream_404
              {| logs := []; sent := [] |}
              (createError
                 "Failed to communicate with AI service: AI service error: Not Found"
                 500)
              (logs (fst (run (parseApiPrompt sample_service upstream_404
                                 "list all books"))))
              "Parse API prompt error:" eq_refl)
    as (older & r & inner & Hlogs & _ & _ & _ & _ & Hflag).
  - right. left. exists "list all books". repeat split; reflexivity.
  - exists older, r. split; [exact Hlogs | exact Hflag].
Defined.

(** X8.  [generateResponse] never returns an empty text: an empty or missing
    reply is replaced by "No response generated".  [testConnection] returns
    a record whose model is the service's model and whose response is never
    empty, with [success = true] exactly when [generateResponse] on its
    probe returned. *)
Theorem X8_returned_texts_are_never_empty :
  forall (this : AIService) (up : Http.Upstream) (w : World),
    (forall request text,
        snd (generateResponse this up request w) = Returned text ->
        text <> "")
    /\ (forall result,
           snd (testConnection this up w) = Returned result ->
           Connection.model result = model this
           /\ Connection.response result <> ""
           /\ (Connection.success result = true <->
               exists text,
                 snd (generateResponse this up connection_probe w)
                 = Returned text)).
Proof.
  intros this up w. split.
  - intros request text. rewrite generateResponse_outcome.
    destruct (snd (makeRequest this up (chat_messages request) _ w));
      intros H; inversion H.
    apply str_or_nonempty. discriminate.
  - intros result. rewrite testConnection_outcome.
    destruct (snd (generateResponse this up connection_probe w))
      as [text|e|] eqn:E; intros H; inversion H; subst result; cbn.
    + split; [reflexivity|]. split.
      * rewrite generateResponse_outcome in E.
        destruct (snd (makeRequest this up (chat_messages connection_probe)
                         _ w)); inversion E.
        apply str_or_nonempty. discriminate.
      * split; [eauto | reflexivity].
    + split; [reflexivity|]. split.
      * apply (str_or_nonempty (Some (message e))). discriminate.
      * split; [discriminate | intros (text & Ht); discriminate].
Qed.

Lemma X8_empty_content_witness :
  snd (run (generateResponse sample_service (upstream_saying "") sample_chat))
  = Returned "No response generated"
  /\ "No response generated" <> "".
Proof.
  split; [reflexivity|].
  exact (proj1 (X8_returned_texts_are_never_empty
                  sample_service (upstream_saying "")
                  {| logs := []; sent := [] |})
           sample_chat "No response generated" eq_refl).
Defined.

(** ** Properties of the HTTP layer *)

(** [errorHandler] step by step: the log record, then the answer with the
    status and message it has settled on, if that status can be sent. *)
Lemma errorHandler_unfolded (nodeEnv : option string) (now : string) {B}
    (err : JsError) (req : Express.Req B) (st : Express.State) :
  errorHandler nodeEnv now err req st
  = respond (fst (decided err))
      (Express.Failure
         {| Express.success := false;
            Express.message := snd (decided err);
            Express.statusCode := fst (decided err);
            Express.timestamp := now;
            Express.path := Express.url req;
            Express.stack :=
              if match nodeEnv with
                 | Some v => String.eqb v "development"
                 | None => false
                 end then Some (stack err) else None;
            Express.details :=
              if match nodeEnv with
                 | Some v => String.eqb v "development"
                 | None => false
                 end then Some err else None |})
      (error_logged err req st).
Proof.
  unfold errorHandler, hbind, decided, error_logged. cbn.
  destruct (String.eqb (name err) "ValidationError"); [reflexivity|].
  destruct (String.eqb (name err) "JsonWebTokenError"); [reflexivity|].
  destruct (String.eqb (name err) "TokenExpiredError"); [reflexivity|].
  destruct (String.eqb (name err) "PrismaClientKnownRequestError");
    reflexivity.
Qed.

Lemma respond_sendable (status : Z) (payload : Express.Payload)
    (st : Express.State) :
  sendable status ->
  respond status payload st
  = ({| Express.world := Express.world st;
        Express.error_log := Express.error_log st;
        Express.replies :=
          app (Express.replies st)
            [{| Express.status := status; Express.payload := payload |}] |},
     Returned tt).
Proof.
  intros [Hlo Hhi]. unfold respond.
  apply Z.leb_le in Hlo. apply Z.leb_le in Hhi. now rewrite Hlo, Hhi.
Qed.


Lemma decided_createError (msg : string) (status : Z) :
  msg <> "" ->
  decided (createError msg status) = (status_or_500 (Some status), msg).
Proof.
  intros Hmsg. apply String.eqb_neq in Hmsg.
  unfold decided. cbn. now rewrite Hmsg.
Qed.





Section Routes.

Variable this : AIController.t.
Variable up : Http.Upstream.
Variable nodeEnv : option string.
Variable now : string.

Lemma route_on_throw {B} (fn : Express.Req B -> HM unit)
    (req : Express.Req B) (st st' : Express.State) (e : JsError) :
  fn req st = (st', Thrown e) ->
  route nodeEnv now fn req st = errorHandler nodeEnv now e req st'.
Proof.
  intros H. unfold route, asyncHandler. now rewrite H.
Qed.

Lemma route_on_return {B} (fn : Express.Req B -> HM unit)
    (req : Express.Req B) (st st' : Express.State) :
  fn req st = (st', Returned tt) ->
  route nodeEnv now fn req st = (st', Returned tt).
Proof.
  intros H. unfold route, asyncHandler. now rewrite H.
Qed.

(** What [errorHandler] does with an error made by [createError]. *)
Lemma errorHandler_createError {B} (req : Express.Req B) (msg : string)
    (status : Z) (st : Express.State) :
  msg <> "" -> sendable status ->
  exists r,
    errorHandler nodeEnv now (createError msg status) req st
    = ({| Express.world := Express.world st;
          Express.error_log :=
            app (Express.error_log st)
              [{| Express.log_text :=
                    "Error " ++ number_text status ++ ": " ++ msg;
                  Express.log_error := createError msg status;
                  Express.log_url := Express.url req;
                  Express.log_method := Express.method req;
                  Express.log_ip := Express.ip req;
                  Express.log_userAgent := Express.userAgent req;
                  Express.log_stack := "Error: " ++ msg |}];
          Express.replies :=
            app (Express.replies st)
              [{| Express.status := status;
                  Express.payload := Express.Failure r |}] |}, Returned tt)
    /\ Express.statusCode r = status
    /\ Express.message r = msg
    /\ Express.success r = false.
Proof.
  intros Hmsg Hstatus.
  assert (E : status_or_500 (Some status) = status).
  { unfold status_or_500. destruct (Z.eqb_spec status 0) as [->|_];
      [destruct Hstatus; lia | reflexivity]. }
  rewrite errorHandler_unfolded, (decided_createError msg status Hmsg).
  cbn [fst snd]. rewrite E, respond_sendable by exact Hstatus.
  unfold error_logged, createError, new_Error.
  cbn [statusCode message stack name Express.world Express.error_log
       Express.replies].
  rewrite E. unfold str_or. apply String.eqb_neq in Hmsg. rewrite Hmsg.
  eexists. split; [reflexivity|]. repeat split.
Qed.

End Routes.

(** X11.  A request without the required text never reaches the upstream:
    when the prompt (for the response and analysis routes) or the
    description (for the code route) is missing or empty, the route sends
    no HTTP request and answers once with status 400 and the message
    "Prompt is required" (respectively "API description is required"). *)
Theorem X11_missing_text_is_rejected_before_any_upstream_call :
  forall (this : AIController.t) (up : Http.Upstream)
         (nodeEnv : option string) (now : string) (st : Express.State),
    (forall req : Express.Req Body.Prompt,
        Body.prompt (Express.body req) = None
        \/ Body.prompt (Express.body req) = Some "" ->
        (answered_with_error 400 "Prompt is required" st
           (route nodeEnv now (AIController.generateResponse this up) req st)
         /\ nothing_sent st
              (fst (route nodeEnv now (AIController.generateResponse this up)
                      req st)))
        /\ answered_with_error 400 "Prompt is required" st
             (route nodeEnv now (AIController.parsePrompt this up) req st)
        /\ nothing_sent st
             (fst (route nodeEnv now (AIController.parsePrompt this up)
                     req st)))
    /\ (forall req : Express.Req Body.Generation,
           Body.description (Express.body req) = None
           \/ Body.description (Express.body req) = Some "" ->
           answered_with_error 400 "API description is required" st
             (route nodeEnv now (AIController.generateApiCode this up now)
                req st)
           /\ nothing_sent st
                (fst (route nodeEnv now
                        (AIController.generateApiCode this up now) req st))).
Proof.
  intros this up nodeEnv now st. split.
  - intros req Hp.
    assert (H1 : exists st',
               AIController.generateResponse this up req st
               = (st', Thrown (createError "Prompt is required" 400))
               /\ nothing_sent st st'
               /\ Express.replies st' = Express.replies st).
    { unfold AIController.generateResponse, htry_catch, hbind, hthrow, lift,
        logger_error, log.
      destruct Hp as [-> | ->]; cbn; eexists; repeat split. }
    assert (H2 : exists st',
               AIController.parsePrompt this up req st
               = (st', Thrown (createError "Prompt is required" 400))
               /\ nothing_sent st st'
               /\ Express.replies st' = Express.replies st).
    { unfold AIController.parsePrompt, htry_catch, hbind, hthrow, lift,
        logger_error, log.
      destruct Hp as [-> | ->]; cbn; eexists; repeat split. }
    destruct H1 as (st1 & E1 & S1 & R1). destruct H2 as (st2 & E2 & S2 & R2).
    rewrite (route_on_throw nodeEnv now _ req st st1 _ E1).
    rewrite (route_on_throw nodeEnv now _ req st st2 _ E2).
    destruct (errorHandler_createError nodeEnv now req "Prompt is required"
                400 st1) as (r1 & -> & Hs1 & Hm1 & Hf1);
      [discriminate | split; discriminate |].
    destruct (errorHandler_createError nodeEnv now req "Prompt is required"
                400 st2) as (r2 & -> & Hs2 & Hm2 & Hf2);
      [discriminate | split; discriminate |].
    unfold answered_with_error, nothing_sent. cbn. rewrite R1, R2.
    repeat split; eauto.
  - intros req Hd.
    assert (H1 : exists st',
               AIController.generateApiCode this up now req st
               = (st', Thrown (createError "API description is required" 400))
               /\ nothing_sent st st'
               /\ Express.replies st' = Express.replies st).
    { unfold AIController.generateApiCode, htry_catch, hbind, hthrow, lift,
        logger_error, log.
      destruct Hd as [-> | ->]; cbn; eexists; repeat split. }
    destruct H1 as (st1 & E1 & S1 & R1).
    rewrite (route_on_throw nodeEnv now _ req st st1 _ E1).
    destruct (errorHandler_createError nodeEnv now req
                "API description is required" 400 st1)
      as (r1 & -> & Hs1 & Hm1 & Hf1); [discriminate | split; discriminate |].
    unfold answered_with_error, nothing_sent. cbn. rewrite R1.
    repeat split; eauto.
Qed.

Lemma X11_empty_prompt_witness :
  Body.prompt (Express.body (request_with None (prompt_body (Some "")))) = Some ""
  /\ answered_with_error 400 "Prompt is required" fresh
       (route (Some "production") "2024-01-01T00:00:00.000Z"
          (AIController.generateResponse sample_controller
             (upstream_saying "4"))
          (request_with None (prompt_body (Some ""))) fresh)
  /\ sent (Express.world
             (fst (route (Some "production") "2024-01-01T00:00:00.000Z"
                     (AIController.generateResponse sample_controller
                        (upstream_saying "4"))
                     (request_with None (prompt_body (Some ""))) fresh)))
     = [].
Proof.
  split; [reflexivity|].
  destruct (proj1 (X11_missing_text_is_rejected_before_any_upstream_call
                     sample_controller (upstream_saying "4")
                     (Some "production") "2024-01-01T00:00:00.000Z" fresh)
              (request_with None (prompt_body (Some "")))
              (or_intror eq_refl))
    as ((Hanswer & Hsent) & _).
  split; [exact Hanswer | exact Hsent].
Defined.

Section Controller.

Variable this : AIController.t.
Variable up : Http.Upstream.
Variable st : Express.State.

Lemma controller_generateResponse_valid (req : Express.Req Body.Prompt)
    (p : string) :
  Body.prompt (Express.body req) = Some p -> p <> "" ->
  AIController.generateResponse this up req st
  = match generateResponse (AIController.aiService this) up
            {| prompt := p;
               context := Body.context (Express.body req);
               maxTokens := Body.maxTokens (Express.body req);
               temperature := Body.temperature (Express.body req) |}
            (Express.world st) with
    | (w', Returned response) =>
        respond 200
          (Express.Json
             (JSON.JObject
                [("success", JSON.JBool true);
                 ("data",
                  JSON.JObject
                    ([("response", JSON.JString response);
                      ("prompt", JSON.JString p)]
                     ++ optional_member "userId" (Express.user_id req)))]))
          (with_world st w')
    | (w', Thrown e) =>
        (with_world st (logged w' "Generate response error:" e), Thrown e)
    | (w', Pending) => (with_world st w', Pending)
    end.
Proof.
  intros Hp Hne. apply String.eqb_neq in Hne.
  unfold AIController.generateResponse, htry_catch, hbind, hthrow, lift,
    logger_error, log.
  rewrite Hp, Hne.
  destruct (generateResponse (AIController.aiService this) up _
              (Express.world st)) as [w' [response|e|]]; reflexivity.
Qed.

Lemma controller_parsePrompt_valid (req : Express.Req Body.Prompt)
    (p : string) :
  Body.prompt (Express.body req) = Some p -> p <> "" ->
  AIController.parsePrompt this up req st
  = match parseApiPrompt (AIController.aiService this) up p
            (Express.world st) with
    | (w', Returned analysis) =>
        respond 200
          (Express.Json
             (JSON.JObject
                [("success", JSON.JBool true);
                 ("data",
                  JSON.JObject
                    ([("analysis", analysis);
                      ("originalPrompt", JSON.JString p)]
                     ++ optional_member "userId" (Express.user_id req)))]))
          (with_world st w')
    | (w', Thrown e) =>
        (with_world st (logged w' "Parse prompt error:" e), Thrown e)
    | (w', Pending) => (with_world st w', Pending)
    end.
Proof.
  intros Hp Hne. apply String.eqb_neq in Hne.
  unfold AIController.parsePrompt, htry_catch, hbind, hthrow, lift,
    logger_error, log.
  rewrite Hp, Hne.
  destruct (parseApiPrompt (AIController.aiService this) up p
              (Express.world st)) as [w' [analysis|e|]]; reflexivity.
Qed.

Lemma controller_generateApiCode_valid (now : string)
    (req : Express.Req Body.Generation) (d : string) :
  Body.description (Express.body req) = Some d -> d <> "" ->
  AIController.generateApiCode this up now req st
  = match generateApiCode (AIController.aiService this) up
            {| description := d;
               method := Body.method (Express.body req);
               inputSchema := Body.inputSchema (Express.body req);
               outputSchema := Body.outputSchema (Express.body req) |}
            (Express.world st) with
    | (w', Returned generatedCode) =>
        respond 200
          (Express.Json
             (JSON.JObject
                [("success", JSON.JBool true);
                 ("data",
                  JSON.JObject
                    (JSON.set_member "generatedAt" (JSON.JString now)
                       (override "userId" (Express.user_id req)
                          (JSON.set_member "description" (JSON.JString d)
                             (spread generatedCode)))))]))
          (with_world st w')
    | (w', Thrown e) =>
        (with_world st (logged w' "Generate API code error:" e), Thrown e)
    | (w', Pending) => (with_world st w', Pending)
    end.
Proof.
  intros Hd Hne. apply String.eqb_neq in Hne.
  unfold AIController.generateApiCode, htry_catch, hbind, hthrow, lift,
    logger_error, log.
  rewrite Hd, Hne.
  destruct (generateApiCode (AIController.aiService this) up _
              (Express.world st)) as [w' [generatedCode|e|]]; reflexivity.
Qed.

Lemma controller_testAI {B} (req : Express.Req B) :
  AIController.testAI this up req st
  = match testConnection (AIController.aiService this) up
            (Express.world st) with
    | (w', Returned testResult) =>
        respond 200
          (Express.Json
             (JSON.JObject
                [("success", JSON.JBool true);
                 ("data", AIController.connection_json testResult);
                 ("message",
                  JSON.JString
                    (if Connection.success testResult
                     then "AI service is working"
                     else "AI service test failed"))]))
          (with_world st w')
    | (w', Thrown e) =>
        (with_world st (logged w' "AI test error:" e),
         Thrown (createError "Failed to test AI service" 500))
    | (w', Pending) => (with_world st w', Pending)
    end.
Proof.
  unfold AIController.testAI, htry_catch, hbind, hthrow, lift,
    logger_error, log.
  destruct (testConnection (AIController.aiService this) up
              (Express.world st)) as [w' [testResult|e|]]; reflexivity.
Qed.

End Controller.

Lemma thrown_by_operation_is_wrapped (this : AIService) (up : Http.Upstream)
    (w : World) (e : JsError) :
  (exists request, snd (generateResponse this up request w) = Thrown e)
  \/ (exists prompt, snd (parseApiPrompt this up prompt w) = Thrown e)
  \/ (exists request, snd (generateApiCode this up request w) = Thrown e) ->
  exists inner, e = createError (failure_prefix ++ inner) 500.
Proof.
  intros [(request & H) | [(prompt & H) | (request & H)]].
  - rewrite generateResponse_outcome in H.
    destruct (snd (makeRequest this up (chat_messages request) _ w)) eqn:E;
      try discriminate. inversion H; subst.
    exact (makeRequest_throws_wrapped this up _ _ w e E).
  - rewrite parseApiPrompt_outcome in H.
    destruct (snd (makeRequest this up (analysis_messages prompt) _ w)) eqn:E;
      try discriminate. inversion H; subst.
    exact (makeRequest_throws_wrapped this up _ _ w e E).
  - rewrite generateApiCode_outcome in H.
    destruct (snd (makeRequest this up (codegen_messages request) _ w)) eqn:E;
      try discriminate. inversion H; subst.
    exact (makeRequest_throws_wrapped this up _ _ w e E).
Qed.

Lemma failed_operation_is_answered_with_500 :
  forall (this : AIController.t) (up : Http.Upstream)
         (nodeEnv : option string) (now : string) (st : Express.State)
         (e : JsError),
    (forall (req : Express.Req Body.Prompt) p,
        Body.prompt (Express.body req) = Some p -> p <> "" ->
        snd (generateResponse (AIController.aiService this) up
               {| prompt := p;
                  context := Body.context (Express.body req);
                  maxTokens := Body.maxTokens (Express.body req);
                  temperature := Body.temperature (Express.body req) |}
               (Express.world st)) = Thrown e ->
        answered_with_error 500 (message e) st
          (route nodeEnv now (AIController.generateResponse this up) req st))
    /\ (forall (req : Express.Req Body.Prompt) p,
           Body.prompt (Express.body req) = Some p -> p <> "" ->
           snd (parseApiPrompt (AIController.aiService this) up p
                  (Express.world st)) = Thrown e ->
           answered_with_error 500 (message e) st
             (route nodeEnv now (AIController.parsePrompt this up) req st))
    /\ (forall (req : Express.Req Body.Generation) d,
           Body.description (Express.body req) = Some d -> d <> "" ->
           snd (generateApiCode (AIController.aiService this) up
                  {| description := d;
                     method := Body.method (Express.body req);
                     inputSchema := Body.inputSchema (Express.body req);
                     outputSchema := Body.outputSchema (Express.body req) |}
                  (Express.world st)) = Thrown e ->
           answered_with_error 500 (message e) st
             (route nodeEnv now (AIController.generateApiCode this up now)
                req st)).
Proof.
  intros this up nodeEnv now st e.
  assert (Hanswer : forall B (req : Express.Req B) st' inner,
             Express.replies st' = Express.replies st ->
             answered_with_error 500
               (message (createError (failure_prefix ++ inner) 500)) st
               (errorHandler nodeEnv now
                  (createError (failure_prefix ++ inner) 500) req st')).
  { intros B req st' inner Hr.
    destruct (errorHandler_createError nodeEnv now req
                (failure_prefix ++ inner) 500 st')
      as (r & -> & Hs & Hm & Hf); [discriminate | split; discriminate |].
    unfold answered_with_error. cbn. rewrite Hr.
    split; [reflexivity|]. exists r. repeat split; assumption. }
  split; [|split].
  - intros req p Hp Hne H.
    destruct (thrown_by_operation_is_wrapped (AIController.aiService this)
                up (Express.world st) e)
      as (inner & ->); [left; eauto|].
    pose proof (controller_generateResponse_valid this up st req p Hp Hne)
      as E.
    destruct (generateResponse (AIController.aiService this) up _
                (Express.world st)) as [w' o].
    cbn in H. subst o.
    rewrite (route_on_throw nodeEnv now _ req st _ _ E).
    now apply Hanswer.
  - intros req p Hp Hne H.
    destruct (thrown_by_operation_is_wrapped (AIController.aiService this)
                up (Express.world st) e)
      as (inner & ->); [right; left; eauto|].
    pose proof (controller_parsePrompt_valid this up st req p Hp Hne) as E.
    destruct (parseApiPrompt (AIController.aiService this) up p
                (Express.world st)) as [w' o].
    cbn in H. subst o.
    rewrite (route_on_throw nodeEnv now _ req st _ _ E).
    now apply Hanswer.
  - intros req d Hd Hne H.
    destruct (thrown_by_operation_is_wrapped (AIController.aiService this)
                up (Express.world st) e)
      as (inner & ->); [right; right; eauto|].
    pose proof (controller_generateApiCode_valid this up st now req d Hd Hne)
      as E.
    destruct (generateApiCode (AIController.aiService this) up _
                (Express.world st)) as [w' o].
    cbn in H. subst o.
    rewrite (route_on_throw nodeEnv now _ req st _ _ E).
    now apply Hanswer.
Qed.

(** X12.  Whatever made the upstream call fail (a refusal, an unreachable
    host, a timeout, an unreadable body), the client of the three AI routes
    is answered once with status 500 and the message of the service's
    error.  In particular a refusal by the upstream is answered with status
    500 whatever its own status code was, and the message tells its status
    text. *)
Theorem X12_upstream_failures_are_answered_with_500 :
  forall (this : AIController.t) (up : Http.Upstream)
         (nodeEnv : option string) (now : string) (st : Express.State)
         (e : JsError),
    (forall (req : Express.Req Body.Prompt) p,
        Body.prompt (Express.body req) = Some p -> p <> "" ->
        snd (generateResponse (AIController.aiService this) up
               {| prompt := p;
                  context := Body.context (Express.body req);
                  maxTokens := Body.maxTokens (Express.body req);
                  temperature := Body.temperature (Express.body req) |}
               (Express.world st)) = Thrown e ->
        answered_with_error 500 (message e) st
          (route nodeEnv now (AIController.generateResponse this up) req st))
    /\ (forall (req : Express.Req Body.Prompt) p,
           Body.prompt (Express.body req) = Some p -> p <> "" ->
           snd (parseApiPrompt (AIController.aiService this) up p
                  (Express.world st)) = Thrown e ->
           answered_with_error 500 (message e) st
             (route nodeEnv now (AIController.parsePrompt this up) req st))
    /\ (forall (req : Express.Req Body.Generation) d,
           Body.description (Express.body req) = Some d -> d <> "" ->
           snd (generateApiCode (AIController.aiService this) up
                  {| description := d;
                     method := Body.method (Express.body req);
                     inputSchema := Body.inputSchema (Express.body req);
                     outputSchema := Body.outputSchema (Express.body req) |}
                  (Express.world st)) = Thrown e ->
           answered_with_error 500 (message e) st
             (route nodeEnv now (AIController.generateApiCode this up now)
                req st))
    /\ (forall r bodyText,
           upstream_refuses up r bodyText ->
           let told :=
             "Failed to communicate with AI service: AI service error: "
             ++ Http.statusText r in
           (forall (req : Express.Req Body.Prompt) p,
               Body.prompt (Express.body req) = Some p -> p <> "" ->
               answered_with_error 500 told st
                 (route nodeEnv now (AIController.generateResponse this up)
                    req st)
               /\ answered_with_error 500 told st
                    (route nodeEnv now (AIController.parsePrompt this up)
                       req st))
           /\ (forall (req : Express.Req Body.Generation) d,
                  Body.description (Express.body req) = Some d -> d <> "" ->
                  answered_with_error 500 told st
                    (route nodeEnv now
                       (AIController.generateApiCode this up now) req st))).
Proof.
  intros this up nodeEnv now st e.
  destruct (failed_operation_is_answered_with_500 this up nodeEnv now st e)
    as (H1 & H2 & H3).
  split; [exact H1|]. split; [exact H2|]. split; [exact H3|].
  intros r bodyText Hrefused told.
  destruct (failed_operation_is_answered_with_500 this up nodeEnv now st
              (createError told 500)) as (R1 & R2 & R3).
  assert (Hup : forall messages options,
             snd (makeRequest (AIController.aiService this) up messages
                    options (Express.world st))
             = Thrown (createError told 500)).
  { intros messages options.
    exact (proj1 (makeRequest_refused (AIController.aiService this) up
                    messages options (Express.world st) r bodyText
                    Hrefused)). }
  split.
  - intros req p Hp Hne. split.
    + apply (R1 req p Hp Hne).
      rewrite generateResponse_outcome. now rewrite Hup.
    + apply (R2 req p Hp Hne).
      rewrite parseApiPrompt_outcome. now rewrite Hup.
  - intros req d Hd Hne. apply (R3 req d Hd Hne).
    rewrite generateApiCode_outcome. now rewrite Hup.
Qed.

Lemma X12_upstream_404_witness :
  snd (parseApiPrompt sample_service upstream_404 "list all books"
         (Express.world fresh))
  = Thrown (createError
              "Failed to communicate with AI service: AI service error: Not Found"
              500)
  /\ answered_with_error 500
       "Failed to communicate with AI service: AI service error: Not Found"
       fresh
       (route (Some "production") "2024-01-01T00:00:00.000Z"
          (AIController.parsePrompt sample_controller upstream_404)
          (request_with (Some "user_1") (prompt_body (Some "list all books")))
          fresh).
Proof.
  split; [reflexivity|].
  refine (proj1 (proj2 (X12_upstream_failures_are_answered_with_500
                          sample_controller upstream_404 (Some "production")
                          "2024-01-01T00:00:00.000Z" fresh
                          (createError
                             "Failed to communicate with AI service: AI service error: Not Found"
                             500)))
            (request_with (Some "user_1") (prompt_body (Some "list all books")))
            "list all books" eq_refl _ eq_refl).
  discriminate.
Defined.

Lemma testConnection_never_throws (this : AIService) (up : Http.Upstream)
    (w : World) (e : JsError) :
  snd (testConnection this up w) <> Thrown e.
Proof.
  rewrite testConnection_outcome.
  destruct (snd (generateResponse this up connection_probe w)); discriminate.
Qed.

(** X13.  The test route never answers with an error.  [testAI] never
    throws, so its 500 "Failed to test AI service" is never sent; whenever
    [testConnection] returns, the route answers once with status 200 and
    [success: true] at the top, also when the connection test failed: the
    failure shows only in [data.success] and in the message. *)
Theorem X13_test_route_always_answers_200 :
  forall (this : AIController.t) (up : Http.Upstream)
         (nodeEnv : option string) (now : string) (B : Type)
         (req : Express.Req B) (st : Express.State),
    (forall e, snd (AIController.testAI this up req st) <> Thrown e)
    /\ (forall result,
           snd (testConnection (AIController.aiService this) up
                  (Express.world st)) = Returned result ->
           answered_with_json
             (JSON.JObject
                [("success", JSON.JBool true);
                 ("data",
                  JSON.JObject
                    [("success", JSON.JBool (Connection.success result));
                     ("model",
                      JSON.JString (model (AIController.aiService this)));
                     ("response",
                      JSON.JString (Connection.response result))]);
                 ("message",
                  JSON.JString
                    (if Connection.success result then "AI service is working"
                     else "AI service test failed"))])
             st (route nodeEnv now (AIController.testAI this up) req st)).
Proof.
  intros this up nodeEnv now B req st. split.
  - intros e. rewrite controller_testAI.
    pose proof (testConnection_never_throws
                  (AIController.aiService this) up (Express.world st))
      as Hnever.
    destruct (testConnection (AIController.aiService this) up
                (Express.world st)) as [w' [r|e'|]]; cbn; try discriminate.
    now elim (Hnever e').
  - intros result H.
    assert (Hmodel : Connection.model result
                     = model (AIController.aiService this)).
    { rewrite testConnection_outcome in H.
      destruct (snd (generateResponse (AIController.aiService this) up
                       connection_probe (Express.world st)));
        inversion H; reflexivity. }
    pose proof (controller_testAI this up st req) as E.
    destruct (testConnection (AIController.aiService this) up
                (Express.world st)) as [w' o].
    cbn in H. subst o. unfold respond in E.
    rewrite (route_on_return nodeEnv now _ req st _ E).
    unfold answered_with_json, AIController.connection_json. cbn.
    rewrite Hmodel. repeat split.
Qed.

Lemma X13_failed_test_witness :
  snd (testConnection sample_service upstream_404 (Express.world fresh))
  = Returned
      {| Connection.success := false;
         Connection.model := "deepseek/deepseek-chat-v3.1:free";
         Connection.response :=
           "Failed to communicate with AI service: AI service error: Not Found" |}
  /\ answered_with_json
       (JSON.JObject
          [("success", JSON.JBool true);
           ("data",
            JSON.JObject
              [("success", JSON.JBool false);
               ("model", JSON.JString "deepseek/deepseek-chat-v3.1:free");
               ("response",
                JSON.JString
                  "Failed to communicate with AI service: AI service error: Not Found")]);
           ("message", JSON.JString "AI service test failed")])
       fresh
       (route (Some "production") "2024-01-01T00:00:00.000Z"
          (AIController.testAI sample_controller upstream_404)
          (request_with None tt) fresh).
Proof.
  split; [reflexivity|].
  exact (proj2 (X13_test_route_always_answers_200
                  sample_controller upstream_404 (Some "production")
                  "2024-01-01T00:00:00.000Z" unit (request_with None tt)
                  fresh)
           _ eq_refl).
Defined.

(** X14.  When the upstream call succeeds, the response route answers once
    with status 200 and [{success: true, data: {response, prompt, userId}}]:
    the generated text (or "No response generated"), the prompt as it was
    sent, and the user id only when the request is authenticated.  The
    analysis route answers in the same way with the parsed analysis under
    [data.analysis] exactly as the model wrote it. *)
Theorem X14_successful_routes_answer_200 :
  forall (this : AIController.t) (up : Http.Upstream)
         (nodeEnv : option string) (now : string) (st : Express.State)
         (req : Express.Req Body.Prompt) (p : string)
         (data : OpenRouter.Response),
    Body.prompt (Express.body req) = Some p -> p <> "" ->
    upstream_replies up data ->
    answered_with_json
      (JSON.JObject
         [("success", JSON.JBool true);
          ("data",
           JSON.JObject
             ([("response",
                JSON.JString
                  (str_or (first_content data) "No response generated"));
               ("prompt", JSON.JString p)]
              ++ optional_member "userId" (Express.user_id req)))])
      st (route nodeEnv now (AIController.generateResponse this up) req st)
    /\ (forall m v,
           match_brace_span (reply_text data) = Some m ->
           JSON.parse m = Some v ->
           answered_with_json
             (JSON.JObject
                [("success", JSON.JBool true);
                 ("data",
                  JSON.JObject
                    ([("analysis", v); ("originalPrompt", JSON.JString p)]
                     ++ optional_member "userId" (Express.user_id req)))])
             st (route nodeEnv now (AIController.parsePrompt this up) req st)).
Proof.
  intros this up nodeEnv now st req p data Hp Hne Hup. split.
  - pose proof (controller_generateResponse_valid this up st req p Hp Hne)
      as E.
    pose proof (generateResponse_outcome (AIController.aiService this) up
                  (Express.world st)
                  {| prompt := p;
                     context := Body.context (Express.body req);
                     maxTokens := Body.maxTokens (Express.body req);
                     temperature := Body.temperature (Express.body req) |})
      as O.
    rewrite (makeRequest_returns _ up _ _ (Express.world st) data Hup) in O.
    destruct (generateResponse (AIController.aiService this) up _
                (Express.world st)) as [w' o].
    cbn in O. subst o. unfold respond in E.
    rewrite (route_on_return nodeEnv now _ req st _ E).
    unfold answered_with_json. cbn. repeat split.
  - intros m v Hm Hv.
    pose proof (controller_parsePrompt_valid this up st req p Hp Hne) as E.
    pose proof (parseApiPrompt_outcome (AIController.aiService this) up
                  (Express.world st) p) as O.
    rewrite (makeRequest_returns _ up _ _ (Express.world st) data Hup) in O.
    rewrite Hm, Hv in O.
    destruct (parseApiPrompt (AIController.aiService this) up p
                (Express.world st)) as [w' o].
    cbn in O. subst o. unfold respond in E.
    rewrite (route_on_return nodeEnv now _ req st _ E).
    unfold answered_with_json. cbn. repeat split.
Qed.

Lemma X14_two_plus_two_witness :
  upstream_replies (upstream_saying "4") (sample_reply [sample_choice (Some "4")])
  /\ answered_with_json
       (JSON.JObject
          [("success", JSON.JBool true);
           ("data",
            JSON.JObject
              [("response", JSON.JString "4");
               ("prompt", JSON.JString "What is 2+2?")])])
       fresh
       (route (Some "production") "2024-01-01T00:00:00.000Z"
          (AIController.generateResponse sample_controller
             (upstream_saying "4"))
          (request_with None (prompt_body (Some "What is 2+2?"))) fresh).
Proof.
  split; [apply upstream_saying_replies|].
  refine (proj1 (X14_successful_routes_answer_200
                   sample_controller (upstream_saying "4") (Some "production")
                   "2024-01-01T00:00:00.000Z" fresh
                   (request_with None (prompt_body (Some "What is 2+2?")))
                   "What is 2+2?" _ eq_refl _ (upstream_saying_replies "4"))).
  discriminate.
Defined.

Lemma assoc_set_member_same (k : string) (v : JSON.value)
    (ms : list (string * JSON.value)) :
  JSON.assoc k (JSON.set_member k v ms) = Some v.
Proof.
  induction ms as [|[k' v'] ms IH]; cbn.
  - now rewrite String.eqb_refl.
  - destruct (String.eqb k k') eqn:E; cbn; rewrite E; [reflexivity | exact IH].
Qed.

Lemma assoc_set_member_other (k k' : string) (v : JSON.value)
    (ms : list (string * JSON.value)) :
  k' <> k ->
  JSON.assoc k' (JSON.set_member k v ms) = JSON.assoc k' ms.
Proof.
  intros Hne. induction ms as [|[k0 v0] ms IH]; cbn.
  - apply String.eqb_neq in Hne. now rewrite Hne.
  - destruct (String.eqb_spec k k0) as [->|Hk]; cbn.
    + apply String.eqb_neq in Hne. now rewrite Hne.
    + destruct (String.eqb k' k0); [reflexivity | exact IH].
Qed.

Lemma assoc_remove_member_same (k : string)
    (ms : list (string * JSON.value)) :
  JSON.assoc k (remove_member k ms) = None.
Proof.
  induction ms as [|[k' v'] ms IH]; cbn; [reflexivity|].
  destruct (String.eqb k k') eqn:E; cbn; [exact IH | now rewrite E].
Qed.

Lemma assoc_remove_member_other (k k' : string)
    (ms : list (string * JSON.value)) :
  k' <> k ->
  JSON.assoc k' (remove_member k ms) = JSON.assoc k' ms.
Proof.
  intros Hne. induction ms as [|[k0 v0] ms IH]; cbn; [reflexivity|].
  destruct (String.eqb_spec k k0) as [->|Hk]; cbn.
  - apply String.eqb_neq in Hne. now rewrite Hne.
  - destruct (String.eqb k' k0); [reflexivity | exact IH].
Qed.

(** X15.  In the answer of the code route the three properties the
    controller writes win over the model's reply: [data.description] is the
    description of the request and [data.generatedAt] is the time of the
    answer even when the generated object has properties of these names,
    and [data.userId] is the authenticated user's id, or absent when there
    is none, never a value the model wrote.  Every other property of the
    generated object is passed on unchanged. *)
Theorem X15_controller_fields_override_the_generated_object :
  forall (this : AIController.t) (up : Http.Upstream)
         (nodeEnv : option string) (now : string) (st : Express.State)
         (req : Express.Req Body.Generation) (d : string)
         (generatedCode : JSON.value),
    Body.description (Express.body req) = Some d -> d <> "" ->
    snd (generateApiCode (AIController.aiService this) up
           {| description := d;
              method := Body.method (Express.body req);
              inputSchema := Body.inputSchema (Express.body req);
              outputSchema := Body.outputSchema (Express.body req) |}
           (Express.world st)) = Returned generatedCode ->
    exists ms,
      answered_with_json
        (JSON.JObject [("success", JSON.JBool true);
                       ("data", JSON.JObject ms)])
        st (route nodeEnv now (AIController.generateApiCode this up now)
              req st)
      /\ JSON.assoc "description" ms = Some (JSON.JString d)
      /\ JSON.assoc "generatedAt" ms = Some (JSON.JString now)
      /\ JSON.assoc "userId" ms
         = option_map JSON.JString (Express.user_id req)
      /\ (forall k,
             k <> "description" -> k <> "userId" -> k <> "generatedAt" ->
             JSON.assoc k ms = JSON.assoc k (spread generatedCode)).
Proof.
  intros this up nodeEnv now st req d generatedCode Hd Hne H.
  pose proof (controller_generateApiCode_valid this up st now req d Hd Hne)
    as E.
  destruct (generateApiCode (AIController.aiService this) up _
              (Express.world st)) as [w' o].
  cbn in H. subst o. unfold respond in E.
  eexists. split; [|split; [|split; [|split]]].
  - rewrite (route_on_return nodeEnv now _ req st _ E).
    unfold answered_with_json. cbn. repeat split.
  - rewrite assoc_set_member_other by discriminate.
    unfold override. destruct (Express.user_id req).
    + rewrite assoc_set_member_other by discriminate.
      apply assoc_set_member_same.
    + rewrite assoc_remove_member_other by discriminate.
      apply assoc_set_member_same.
  - apply assoc_set_member_same.
  - rewrite assoc_set_member_other by discriminate.
    unfold override. destruct (Express.user_id req); cbn.
    + apply assoc_set_member_same.
    + apply assoc_remove_member_same.
  - intros k K1 K2 K3.
    rewrite assoc_set_member_other by assumption.
    unfold override. destruct (Express.user_id req).
    + rewrite assoc_set_member_other by assumption.
      now rewrite assoc_set_member_other by assumption.
    + rewrite assoc_remove_member_other by assumption.
      now rewrite assoc_set_member_other by assumption.
Qed.

Lemma X15_forged_reply_witness :
  snd (generateApiCode sample_service (upstream_saying forged_reply)
         {| description := "list all books"; method := Some "POST";
            inputSchema := None; outputSchema := None |}
         (Express.world fresh))
  = Returned
      (JSON.JObject
         [("endpoint", JSON.JString "/api/books");
          ("description", JSON.JString "something else");
          ("userId", JSON.JString "admin");
          ("generatedAt", JSON.JString "never")])
  /\ exists ms,
       answered_with_json
         (JSON.JObject [("success", JSON.JBool true);
                        ("data", JSON.JObject ms)])
         fresh
         (route (Some "production") "2024-01-01T00:00:00.000Z"
            (AIController.generateApiCode sample_controller
               (upstream_saying forged_reply) "2024-01-01T00:00:00.000Z")
            (request_with None (generation_body (Some "list all books")))
            fresh)
       /\ JSON.assoc "description" ms = Some (JSON.JString "list all books")
       /\ JSON.assoc "userId" ms = None
       /\ JSON.assoc "endpoint" ms = Some (JSON.JString "/api/books").
Proof.
  split; [reflexivity|].
  destruct (X15_controller_fields_override_the_generated_object
              sample_controller (upstream_saying forged_reply)
              (Some "production") "2024-01-01T00:00:00.000Z" fresh
              (request_with None (generation_body (Some "list all books")))
              "list all books"
              (JSON.JObject
                 [("endpoint", JSON.JString "/api/books");
                  ("description", JSON.JString "something else");
                  ("userId", JSON.JString "admin");
                  ("generatedAt", JSON.JString "never")])
              eq_refl)
    as (ms & Hanswer & Hd & _ & Hu & Hother).
  - discriminate.
  - reflexivity.
  - exists ms. split; [exact Hanswer|]. split; [exact Hd|].
    split; [exact Hu|].
    rewrite (Hother "endpoint"); [reflexivity | | |]; discriminate.
Defined.

(** ** The parsed reply is an object *)

Lemma bottom_push_frame (f : JSON.frame) (stack : list JSON.frame) :
  stack <> [] -> bottom_is_object stack -> bottom_is_object (f :: stack).
Proof.
  unfold bottom_is_object. destruct stack as [|g st]; [now intros H|].
  intros _ H. exact H.
Qed.

Lemma bottom_replace_top (f f' : JSON.frame) (st : list JSON.frame) :
  bottom_is_object (f :: st) ->
  (st = [] -> exists ms k, f' = JSON.FObj ms k) ->
  bottom_is_object (f' :: st).
Proof.
  unfold bottom_is_object. destruct st as [|g st]; cbn.
  - intros _ H. destruct (H eq_refl) as (ms & k & ->). exact I.
  - intros H _. exact H.
Qed.

Lemma bottom_pop (f : JSON.frame) (st : list JSON.frame) :
  bottom_is_object (f :: st) -> st <> [] -> bottom_is_object st.
Proof.
  unfold bottom_is_object. destruct st as [|g st]; [now intros _ H|].
  intros H _. exact H.
Qed.

Lemma bottom_array_not_alone (items : list JSON.value) :
  ~ bottom_is_object [JSON.FArr items].
Proof. intros H. exact H. Qed.

Lemma push_value_keeps_bottom (v : JSON.value) (stack : list JSON.frame)
    (st' : JSON.pstate) :
  bottom_is_object stack ->
  JSON.push_value v stack = Some st' ->
  bottom_is_object (fst st').
Proof.
  intros Hb. destruct stack as [|[items|ms [k|]] st]; cbn.
  - now elim Hb.
  - intros H; inversion H; subst; cbn.
    apply (bottom_replace_top (JSON.FArr items)); [exact Hb|].
    intros ->. now elim (bottom_array_not_alone items).
  - intros H; inversion H; subst; cbn.
    apply (bottom_replace_top (JSON.FObj ms (Some k))); [exact Hb|].
    intros _. eauto.
  - discriminate.
Qed.

(** One token either leaves the outermost container open, or closes it and
    finishes with an object. *)
Lemma parse_step_keeps_bottom (stack : list JSON.frame) (m : JSON.pmode)
    (t : JSON.token) (st' : JSON.pstate) :
  bottom_is_object stack ->
  JSON.parse_step (stack, m) t = Some st' ->
  bottom_is_object (fst st')
  \/ exists ms, st' = ([], JSON.PDone (JSON.JObject ms)).
Proof.
  intros Hb.
  assert (Hne : stack <> []) by (intros ->; exact Hb).
  assert (Hstart : JSON.start_value t stack = Some st' ->
                   bottom_is_object (fst st')).
  { destruct t; cbn; try discriminate;
      try (apply push_value_keeps_bottom; exact Hb);
      intros H; inversion H; subst; cbn; now apply bottom_push_frame. }
  assert (Hkey : JSON.take_key t stack = Some st' ->
                 bottom_is_object (fst st')).
  { destruct t; cbn; try discriminate.
    destruct stack as [|[items|ms [k|]] st]; try discriminate.
    intros H; inversion H; subst; cbn.
    apply (bottom_replace_top (JSON.FObj ms None)); [exact Hb|].
    intros _. eauto. }
  assert (Harr : JSON.close_array stack = Some st' ->
                 bottom_is_object (fst st')).
  { destruct stack as [|[items|ms k] st]; cbn; try discriminate.
    intros H.
    apply (push_value_keeps_bottom (JSON.JArray (rev items)) st st');
      [|exact H].
    apply (bottom_pop (JSON.FArr items)); [exact Hb|].
    intros ->. now elim (bottom_array_not_alone items). }
  assert (Hobj : JSON.close_object stack = Some st' ->
                 bottom_is_object (fst st')
                 \/ exists ms, st' = ([], JSON.PDone (JSON.JObject ms))).
  { destruct stack as [|[items|ms [k|]] st]; cbn; try discriminate.
    destruct st as [|g st].
    - cbn. intros H; inversion H; subst. right. eauto.
    - intros H. left.
      apply (push_value_keeps_bottom (JSON.JObject ms) (g :: st) st');
        [|exact H].
      apply (bottom_pop (JSON.FObj ms None)); [exact Hb | discriminate]. }
  destruct m; cbn.
  - intros H. left. now apply Hstart.
  - destruct t; intros H; left; try (now apply Hstart). now apply Harr.
  - destruct t; intros H; try (left; now apply Hkey). now apply Hobj.
  - intros H. left. now apply Hkey.
  - destruct t; try discriminate. intros H; inversion H; subst. now left.
  - destruct t; try discriminate.
    + now apply Hobj.
    + intros H. left. now apply Harr.
    + destruct stack as [|[items|ms [k|]] st]; try discriminate;
        intros H; inversion H; subst; now left.
  - discriminate.
Qed.

Lemma parse_tokens_bottom_object (ts : list JSON.token)
    (stack : list JSON.frame) (m : JSON.pmode) (v : JSON.value) :
  bottom_is_object stack ->
  JSON.parse_tokens (stack, m) ts = Some v -> is_object v.
Proof.
  revert stack m. induction ts as [|t ts IH]; intros stack m Hb.
  - cbn. destruct stack; [now elim Hb | destruct m; discriminate].
  - change (JSON.parse_tokens (stack, m) (t :: ts))
      with (match JSON.parse_step (stack, m) t with
            | Some st' => JSON.parse_tokens st' ts
            | None => None
            end).
    destruct (JSON.parse_step (stack, m) t) as [[stack' m']|] eqn:E;
      [|discriminate].
    destruct (parse_step_keeps_bottom stack m t _ Hb E) as [Hb' | (ms & H)].
    + now apply IH.
    + inversion H; subst. destruct ts as [|t' ts]; cbn.
      * intros H'; inversion H'; subst. now exists ms.
      * discriminate.
Qed.

Lemma parse_of_brace_is_object (rest : string) (v : JSON.value) :
  JSON.parse (String "{" rest) = Some v -> is_object v.
Proof.
  unfold JSON.parse, JSON.lex. cbn.
  destruct (JSON.lex_from JSON.LDefault rest) as [more|]; [|discriminate].
  cbn. apply parse_tokens_bottom_object. exact I.
Qed.

(** X16.  Whatever the model replies, [parseApiPrompt] and [generateApiCode]
    return a JSON object, never an array, a text, a number, a boolean or
    null: the piece they parse starts with an opening brace, so a successful
    parse gives an object, and each fallback is an object. *)
Theorem X16_results_are_objects :
  forall (this : AIService) (up : Http.Upstream) (w : World)
         (v : JSON.value),
    (exists prompt, snd (parseApiPrompt this up prompt w) = Returned v)
    \/ (exists request, snd (generateApiCode this up request w) = Returned v) ->
    is_object v.
Proof.
  assert (Hpiece : forall content fallback,
             is_object fallback ->
             is_object
               match match_brace_span content with
               | Some m =>
                   match JSON.parse m with
                   | Some v => v
                   | None => fallback
                   end
               | None => fallback
               end).
  { intros content fallback Hf.
    destruct (match_brace_span content) as [m|] eqn:Em; [|exact Hf].
    destruct (JSON.parse m) as [v|] eqn:Ev; [|exact Hf].
    destruct (match_brace_span_some content m Em)
      as (pre & mid & post & _ & -> & _).
    exact (parse_of_brace_is_object _ v Ev). }
  intros this up w v [(prompt & H) | (request & H)].
  - rewrite parseApiPrompt_outcome in H.
    destruct (snd (makeRequest this up (analysis_messages prompt) _ w));
      inversion H.
    apply Hpiece. unfold analysis_fallback. eexists. reflexivity.
  - rewrite generateApiCode_outcome in H.
    destruct (snd (makeRequest this up (codegen_messages request) _ w));
      inversion H.
    apply Hpiece. unfold codegen_fallback. eexists. reflexivity.
Qed.

Lemma X16_object_inside_array_witness :
  snd (run (parseApiPrompt sample_service (upstream_saying (qq "[{'a':1}]"))
              "list all books"))
  = Returned (JSON.JObject [("a", JSON.JNumber "1")])
  /\ is_object (JSON.JObject [("a", JSON.JNumber "1")]).
Proof.
  split; [reflexivity|].
  apply (X16_results_are_objects sample_service
           (upstream_saying (qq "[{'a':1}]")) {| logs := []; sent := [] |}).
  left. exists "list all books". reflexivity.
Defined.

(** ** Properties of the authentication middleware *)

Lemma substring_0_length (s : string) : substring 0 (String.length s) s = s.
Proof.
  induction s as [|c s IH]; cbn; [reflexivity | now rewrite IH].
Qed.

Lemma token_of_bearer (token : string) :
  Auth.token_of ("Bearer " ++ token) = token.
Proof.
  unfold Auth.token_of. cbn. rewrite Nat.sub_0_r. apply substring_0_length.
Qed.

(** X17.  [authenticate] never hands [next] an error with a status other
    than 401, and never attaches a user when it fails: whatever went wrong
    (no header, no server secret, an invalid session, Clerk rejecting or
    being down), the error is a fresh operational error with status code
    401 whose message is "Invalid or expired session" or "Authentication
    failed". *)
Theorem X17_authenticate_fails_with_401_only :
  forall (secretKey : option string) (clerk : Clerk.Client)
         (authorization : option string) (e : JsError),
    Auth.handed (Auth.authenticate secretKey clerk authorization)
    = Some (Auth.Fail e) ->
    (e = createError "Invalid or expired session" 401
     \/ e = createError "Authentication failed" 401)
    /\ statusCode e = Some 401
    /\ Auth.attached (Auth.authenticate secretKey clerk authorization) = None.
Proof.
  intros secretKey clerk authorization e.
  unfold Auth.authenticate.
  set (attempt := match authorization with Some _ => _ | None => _ end).
  destruct attempt as [[user auth]|error status|]; cbn; try discriminate.
  intros H; inversion H; subst e; clear H.
  destruct (match status with Some n => n =? 401 | None => false end
            || contains "session" (message error))%bool;
    repeat split; auto.
Qed.

Lemma X17_no_header_witness :
  Auth.handed (Auth.authenticate (Some "sk_test_1") sample_clerk None)
  = Some (Auth.Fail (createError "Authentication failed" 401))
  /\ statusCode (createError "Authentication failed" 401) = Some 401.
Proof.
  split; [reflexivity|].
  exact (proj1 (proj2 (X17_authenticate_fails_with_401_only
                         (Some "sk_test_1") sample_clerk None _ eq_refl))).
Defined.

(** X18.  What the client is told does not say what was wrong on the server
    side.  A request with no Authorization header, or one that does not
    start with "Bearer ", is refused with "Authentication failed": the text
    "Access token required" never leaves the middleware.  With a bearer
    token but no CLERK_SECRET_KEY the error made with status 500 is
    replaced by the same 401.  A session that Clerk reports as absent or
    without user is refused with "Invalid or expired session", and so is
    every rejection by Clerk, of the session check or of the user lookup,
    that has status 401 or the word "session" in its message; a rejection
    with another status and no "session" in its message gives
    "Authentication failed". *)
Theorem X18_authenticate_failure_messages :
  forall (secretKey : option string) (clerk : Clerk.Client),
    let refused msg :=
      Some (Auth.Fail (createError msg 401)) in
    (forall authorization,
        authorization = None
        \/ (exists h, authorization = Some h
                      /\ String.prefix "Bearer " h = false) ->
        Auth.handed (Auth.authenticate secretKey clerk authorization)
        = refused "Authentication failed")
    /\ (forall token,
           secretKey = None \/ secretKey = Some "" ->
           Auth.handed (Auth.authenticate secretKey clerk
                          (Some ("Bearer " ++ token)))
           = refused "Authentication failed")
    /\ (forall token k,
           secretKey = Some k -> k <> "" ->
           (Clerk.verifySession clerk token k = Clerk.Fulfilled None
            \/ exists session,
                 Clerk.verifySession clerk token k
                 = Clerk.Fulfilled (Some session)
                 /\ Clerk.userId session = "") ->
           Auth.handed (Auth.authenticate secretKey clerk
                          (Some ("Bearer " ++ token)))
           = refused "Invalid or expired session")
    /\ (forall token k err status,
           secretKey = Some k -> k <> "" ->
           (Clerk.verifySession clerk token k = Clerk.Rejected err status
            \/ exists session,
                 Clerk.verifySession clerk token k
                 = Clerk.Fulfilled (Some session)
                 /\ Clerk.userId session <> ""
                 /\ Clerk.getUser clerk (Clerk.userId session)
                    = Clerk.Rejected err status) ->
           (status = Some 401 \/ contains "session" (message err) = true ->
            Auth.handed (Auth.authenticate secretKey clerk
                           (Some ("Bearer " ++ token)))
            = refused "Invalid or expired session")
           /\ (status <> Some 401 ->
               contains "session" (message err) = false ->
               Auth.handed (Auth.authenticate secretKey clerk
                              (Some ("Bearer " ++ token)))
               = refused "Authentication failed")).
Proof.
  intros secretKey clerk refused.
  assert (Hbearer : forall token,
             String.prefix "Bearer " ("Bearer " ++ token) = true)
    by (intros token; apply prefix_append).
  split; [|split; [|split]].
  - intros authorization [-> | (h & -> & Hh)]; unfold Auth.authenticate.
    + reflexivity.
    + now rewrite Hh.
  - intros token Hk. unfold Auth.authenticate.
    rewrite Hbearer. destruct Hk as [-> | ->]; reflexivity.
  - intros token k -> Hk Hsession. unfold Auth.authenticate.
    rewrite Hbearer, token_of_bearer.
    apply String.eqb_neq in Hk. cbn. rewrite Hk. cbn.
    destruct Hsession as [-> | (session & -> & Hu)]; [reflexivity|].
    rewrite Hu. reflexivity.
  - intros token k err status -> Hk Hrej.
    apply String.eqb_neq in Hk.
    assert (E : Auth.authenticate (Some k) clerk (Some ("Bearer " ++ token))
                = {| Auth.written :=
                       [{| Auth.level := Auth.Failure;
                           Auth.text := "Clerk authentication error:";
                           Auth.about := Some err |}];
                     Auth.attached := None;
                     Auth.handed :=
                       Some (Auth.Fail
                               (if (match status with
                                    | Some n => n =? 401
                                    | None => false
                                    end
                                    || contains "session" (message err))%bool
                                then createError "Invalid or expired session"
                                       401
                                else createError "Authentication failed"
                                       401)) |}).
    { unfold Auth.authenticate. rewrite Hbearer, token_of_bearer.
      cbn. rewrite Hk. cbn.
      destruct Hrej as [-> | (session & -> & Hu & Hget)]; [reflexivity|].
      apply String.eqb_neq in Hu. rewrite Hu, Hget. reflexivity. }
    rewrite E. cbn. split.
    + intros [-> | ->]; [reflexivity | now rewrite orb_true_r].
    + intros Hs Hc. rewrite Hc.
      destruct status as [n|]; [|reflexivity].
      destruct (Z.eqb_spec n 401) as [->|_]; [now elim Hs | reflexivity].
Qed.

Lemma X18_missing_secret_witness :
  Auth.handed (Auth.authenticate None sample_clerk
                 (Some ("Bearer " ++ "sess_token_1")))
  = Some (Auth.Fail (createError "Authentication failed" 401))
  /\ Auth.handed (Auth.authenticate (Some "sk_test_1") clerk_without_users
                    (Some ("Bearer " ++ "sess_token_1")))
     = Some (Auth.Fail (createError "Authentication failed" 401)).
Proof.
  split.
  - exact (proj1 (proj2 (X18_authenticate_failure_messages None sample_clerk))
             "sess_token_1" (or_introl eq_refl)).
  - refine (proj2 (proj2 (proj2 (proj2 (X18_authenticate_failure_messages
                                          (Some "sk_test_1")
                                          clerk_without_users)))
                     "sess_token_1" "sk_test_1" unavailable (Some 503)
                     eq_refl _ _) _ eq_refl).
    + discriminate.
    + right.
      exists {| Clerk.id := "sess_1"; Clerk.userId := "user_2abc" |}.
      split; [reflexivity|]. split; [discriminate | reflexivity].
    + discriminate.
Defined.

(** X19.  With a bearer token, a configured secret, a session that Clerk
    verifies for a user, and that user's record, [authenticate] hands over
    with [next()] and attaches the user: Clerk is asked about exactly the
    text that follows "Bearer " in the header; the email is the first
    address or the empty text, the role is the one of the metadata or
    "user", names and image are kept only when not empty; [req.auth] holds
    the ids of the user and of the session. *)
Theorem X19_authenticate_attaches_the_verified_user :
  forall (clerk : Clerk.Client) (k token : string)
         (session : Clerk.Session) (user : Clerk.User),
    k <> "" ->
    Clerk.verifySession clerk token k = Clerk.Fulfilled (Some session) ->
    Clerk.userId session <> "" ->
    Clerk.getUser clerk (Clerk.userId session) = Clerk.Fulfilled user ->
    let result :=
      Auth.authenticate (Some k) clerk (Some ("Bearer " ++ token)) in
    Auth.handed result = Some Auth.Continue
    /\ Auth.attached result
       = Some ({| Auth.id := Clerk.user_id user;
                  Auth.email :=
                    match Clerk.emailAddresses user with
                    | Some (a :: _) => str_or (Clerk.emailAddress a) ""
                    | _ => ""
                    end;
                  Auth.firstName := Auth.if_truthy (Clerk.firstName user);
                  Auth.lastName := Auth.if_truthy (Clerk.lastName user);
                  Auth.imageUrl := Auth.if_truthy (Clerk.imageUrl user);
                  Auth.role := str_or (Clerk.metadata_role user) "user" |},
               {| Auth.userId := Clerk.userId session;
                  Auth.sessionId := Clerk.id session |})
    /\ (forall u a, Auth.attached result = Some (u, a) -> Auth.role u <> "").
Proof.
  intros clerk k token session user Hk Hs Hu Hg result.
  assert (E : result
              = {| Auth.written :=
                     [{| Auth.level := Auth.Debug;
                         Auth.text :=
                           "User authenticated via Clerk: "
                           ++ str_or (Some (Auth.first_email user)) "unknown";
                         Auth.about := None |}];
                   Auth.attached :=
                     Some (Auth.userInfo_of user,
                           {| Auth.userId := Clerk.userId session;
                              Auth.sessionId := Clerk.id session |});
                   Auth.handed := Some Auth.Continue |}).
  { subst result. unfold Auth.authenticate.
    rewrite (prefix_append "Bearer " token), token_of_bearer.
    apply String.eqb_neq in Hk, Hu. cbn. rewrite Hk. cbn.
    rewrite Hs, Hu, Hg. reflexivity. }
  rewrite E. cbn. split; [reflexivity|]. split; [reflexivity|].
  intros u a H; inversion H; subst. cbn.
  apply str_or_nonempty. discriminate.
Qed.

Lemma X19_sample_user_witness :
  "sk_test_1" <> ""
  /\ Auth.attached
       (Auth.authenticate (Some "sk_test_1") sample_clerk
          (Some ("Bearer " ++ "sess_token_1")))
     = Some ({| Auth.id := "user_2abc"; Auth.email := "ada@example.org";
                Auth.firstName := Some "Ada"; Auth.lastName := None;
                Auth.imageUrl := None; Auth.role := "user" |},
             {| Auth.userId := "user_2abc"; Auth.sessionId := "sess_1" |}).
Proof.
  assert (Hk : "sk_test_1" <> "") by discriminate.
  split; [exact Hk|].
  refine (proj1 (proj2 (X19_authenticate_attaches_the_verified_user
                          sample_clerk "sk_test_1" "sess_token_1"
                          {| Clerk.id := "sess_1";
                             Clerk.userId := "user_2abc" |}
                          sample_user Hk eq_refl _ eq_refl))).
  discriminate.
Defined.

(** X20.  [authorize(...roles)] lets a request pass exactly when it has a
    user whose role is one of [roles]; without a user it hands over the
    error "Authentication required" with status 401, with a user of another
    role "Insufficient permissions" with status 403.  With no role listed
    nobody passes. *)
Theorem X20_authorize_passes_listed_roles_only :
  forall (roles : list string) (user : option Auth.UserInfo),
    (Auth.authorize roles user = Auth.Continue <->
     exists u, user = Some u /\ In (Auth.role u) roles)
    /\ (user = None ->
        Auth.authorize roles user
        = Auth.Fail (createError "Authentication required" 401))
    /\ (forall u, user = Some u -> ~ In (Auth.role u) roles ->
                  Auth.authorize roles user
                  = Auth.Fail (createError "Insufficient permissions" 403))
    /\ (roles = [] -> Auth.authorize roles user <> Auth.Continue).
Proof.
  intros roles user.
  assert (Hin : forall r, existsb (String.eqb r) roles = true <-> In r roles).
  { intros r. rewrite existsb_exists. split.
    - intros (x & Hx & E). apply String.eqb_eq in E. now subst.
    - intros H. exists r. split; [exact H | apply String.eqb_refl]. }
  unfold Auth.authorize. split; [|split; [|split]].
  - destruct user as [u|]; split.
    + destruct (existsb (String.eqb (Auth.role u)) roles) eqn:E;
        [|discriminate].
      intros _. exists u. split; [reflexivity | now apply Hin].
    + intros (u' & H & Hr). inversion H; subst u'.
      apply Hin in Hr. now rewrite Hr.
    + discriminate.
    + intros (u & H & _). discriminate.
  - intros ->. reflexivity.
  - intros u -> Hn.
    destruct (existsb (String.eqb (Auth.role u)) roles) eqn:E;
      [|reflexivity].
    apply Hin in E. now elim Hn.
  - intros ->. destruct user; discriminate.
Qed.

Lemma X20_admin_only_witness :
  ~ In "user" ["admin"]
  /\ Auth.authorize ["admin"]
       (Some {| Auth.id := "user_2abc"; Auth.email := "ada@example.org";
                Auth.firstName := Some "Ada"; Auth.lastName := None;
                Auth.imageUrl := None; Auth.role := "user" |})
     = Auth.Fail (createError "Insufficient permissions" 403).
Proof.
  assert (Hn : ~ In "user" ["admin"]).
  { intros [H | []]. discriminate. }
  split; [exact Hn|].
  exact (proj1 (proj2 (proj2 (X20_authorize_passes_listed_roles_only
                                ["admin"] _)))
           {| Auth.id := "user_2abc"; Auth.email := "ada@example.org";
              Auth.firstName := Some "Ada"; Auth.lastName := None;
              Auth.imageUrl := None; Auth.role := "user" |}
           eq_refl Hn).
Defined.

(** X21.  [optionalAuth] never refuses a request: it never hands an error to
    [next].  It attaches exactly the user that [authenticate] would attach
    for the same header, secret and Clerk answers, and it calls [next()]
    whenever [authenticate] would have called [next] at all, also where
    [authenticate] fails. *)
Theorem X21_optionalAuth_never_refuses :
  forall (secretKey : option string) (clerk : Clerk.Client)
         (authorization : option string),
    (forall e,
        Auth.handed (Auth.optionalAuth secretKey clerk authorization)
        <> Some (Auth.Fail e))
    /\ Auth.attached (Auth.optionalAuth secretKey clerk authorization)
       = Auth.attached (Auth.authenticate secretKey clerk authorization)
    /\ Auth.handed (Auth.optionalAuth secretKey clerk authorization)
       = match Auth.handed
                 (Auth.authenticate secretKey clerk authorization) with
         | Some _ => Some Auth.Continue
         | None => None
         end.
Proof.
  intros secretKey clerk authorization.
  unfold Auth.optionalAuth, Auth.authenticate.
  destruct authorization as [h|]; [|repeat split; discriminate].
  destruct (String.prefix "Bearer " h); [|repeat split; discriminate].
  destruct (str_truthy secretKey); [|repeat split; discriminate].
  destruct (Clerk.verifySession clerk (Auth.token_of h) (str_or secretKey ""))
    as [[session|]|e s|]; try (repeat split; discriminate).
  destruct (String.eqb (Clerk.userId session) "");
    [repeat split; discriminate|].
  destruct (Clerk.getUser clerk (Clerk.userId session)) as [user|e s|];
    repeat split; discriminate.
Qed.

Lemma X21_unknown_token_witness :
  Auth.handed (Auth.authenticate (Some "sk_test_1") sample_clerk
                 (Some "Bearer other"))
  = Some (Auth.Fail (createError "Authentication failed" 401))
  /\ Auth.handed (Auth.optionalAuth (Some "sk_test_1") sample_clerk
                    (Some "Bearer other"))
     = Some Auth.Continue.
Proof.
  split; [reflexivity|].
  exact (proj2 (proj2 (X21_optionalAuth_never_refuses
                         (Some "sk_test_1") sample_clerk
                         (Some "Bearer other")))).
Defined.

(** ** The request body reads back *)

Lemma append_nil_r (s : string) : s ++ "" = s.
Proof.
  induction s as [|c s IH]; cbn; [reflexivity | now rewrite IH].
Qed.

Lemma string_of_list_ascii_app (l1 l2 : list ascii) :
  string_of_list_ascii (l1 ++ l2)
  = string_of_list_ascii l1 ++ string_of_list_ascii l2.
Proof.
  induction l1 as [|c l1 IH]; cbn; [reflexivity | now rewrite IH].
Qed.

(** Inside a string literal, the escape of a character is read back as that
    character. *)
Lemma lex_escaped_char (c : ascii) (acc : list ascii) (tail : string) :
  JSON.lex_from (JSON.LStr acc) (JSON.escape_char c ++ tail)
  = JSON.lex_from (JSON.LStr (c :: acc)) tail.
Proof.
  destruct c as [[] [] [] [] [] [] [] []]; cbn;
    destruct (JSON.lex_from (JSON.LStr (_ :: acc)) tail); reflexivity.
Qed.

Lemma lex_string_body (s : string) (acc : list ascii) (rest : string) :
  JSON.lex_from (JSON.LStr acc) (JSON.escape s ++ String JSON.dquote rest)
  = option_map
      (cons (JSON.TStr (string_of_list_ascii (rev acc) ++ s)))
      (JSON.lex_from JSON.LDefault rest).
Proof.
  revert acc. induction s as [|c s IH]; intros acc.
  - cbn. rewrite append_nil_r.
    destruct (JSON.lex_from JSON.LDefault rest); reflexivity.
  - cbn [JSON.escape]. rewrite append_assoc, lex_escaped_char, IH.
    cbn [rev]. rewrite string_of_list_ascii_app. cbn.
    now rewrite append_assoc.
Qed.

Lemma lexes_quote (s : string) : Lexes (JSON.quote s) [JSON.TStr s].
Proof.
  intros rest. unfold JSON.quote. cbn. rewrite append_assoc. cbn.
  rewrite lex_string_body. cbn.
  destruct (JSON.lex_from JSON.LDefault rest); reflexivity.
Qed.

Lemma lexes_nil : Lexes "" [].
Proof.
  intros rest. cbn. destruct (JSON.lex_from JSON.LDefault rest); reflexivity.
Qed.

Lemma lexes_app (x y : string) (tx ty : list JSON.token) :
  Lexes x tx -> Lexes y ty -> Lexes (x ++ y) (tx ++ ty).
Proof.
  intros Hx Hy rest. rewrite append_assoc, Hx, Hy.
  destruct (JSON.lex_from JSON.LDefault rest); cbn;
    [now rewrite app_assoc | reflexivity].
Qed.

Lemma lexes_punctuation (c : ascii) (t : JSON.token) :
  JSON.lex_default c = Some (JSON.LDefault, [t]) ->
  Lexes (String c "") [t].
Proof.
  intros H rest. cbn. rewrite H.
  destruct (JSON.lex_from JSON.LDefault rest); reflexivity.
Qed.

Lemma lexes_as (x : string) (toks toks' : list JSON.token) :
  Lexes x toks' -> toks' = toks -> Lexes x toks.
Proof. now intros H <-. Qed.

Ltac lexes_pieces :=
  repeat first
    [ apply lexes_quote
    | apply lexes_nil
    | apply (lexes_punctuation "{" JSON.TLBrace eq_refl)
    | apply (lexes_punctuation "}" JSON.TRBrace eq_refl)
    | apply (lexes_punctuation "[" JSON.TLBracket eq_refl)
    | apply (lexes_punctuation "]" JSON.TRBracket eq_refl)
    | apply (lexes_punctuation ":" JSON.TColon eq_refl)
    | apply (lexes_punctuation "," JSON.TComma eq_refl)
    | eapply lexes_app ].

Lemma lexes_message (m : ChatMessage) :
  Lexes (JSON.serialize "" "" (message_json m)) (message_tokens m).
Proof.
  change (JSON.serialize "" "" (message_json m))
    with ("{" ++ ((JSON.quote "role" ++ ":" ++ "" ++ JSON.quote (role m))
                  ++ "," ++ (JSON.quote "content" ++ ":" ++ ""
                             ++ JSON.quote (content m)))
              ++ "}").
  eapply lexes_as; [lexes_pieces | reflexivity].
Qed.

Lemma lexes_messages (ms : list ChatMessage) :
  Lexes (String.concat ","
           (map (JSON.serialize "" "") (map message_json ms)))
    (messages_tokens ms).
Proof.
  induction ms as [|m ms IH]; [apply lexes_nil|].
  destruct ms as [|m' ms]; [apply lexes_message|].
  change (String.concat ","
            (map (JSON.serialize "" "") (map message_json (m :: m' :: ms))))
    with (JSON.serialize "" "" (message_json m)
          ++ "," ++ String.concat ","
                      (map (JSON.serialize "" "")
                         (map message_json (m' :: ms)))).
  change (messages_tokens (m :: m' :: ms))
    with (app (message_tokens m)
            (app [JSON.TComma] (messages_tokens (m' :: ms)))).
  apply lexes_app; [apply lexes_message|].
  apply lexes_app; [apply (lexes_punctuation "," JSON.TComma eq_refl)|].
  exact IH.
Qed.

Lemma lexes_array (ms : list ChatMessage) :
  Lexes (JSON.serialize "" "" (JSON.JArray (map message_json ms)))
    (JSON.TLBracket :: app (messages_tokens ms) [JSON.TRBracket]).
Proof.
  destruct ms as [|m ms].
  - change (JSON.serialize "" "" (JSON.JArray (map message_json [])))
      with ("[" ++ "]").
    eapply lexes_as; [lexes_pieces | reflexivity].
  - change (JSON.serialize "" "" (JSON.JArray (map message_json (m :: ms))))
      with ("[" ++ String.concat ","
                     (map (JSON.serialize "" "") (map message_json (m :: ms)))
                ++ "]").
    eapply lexes_as.
    + apply lexes_app;
        [apply (lexes_punctuation "[" JSON.TLBracket eq_refl)|].
      apply lexes_app; [apply lexes_messages|].
      apply (lexes_punctuation "]" JSON.TRBracket eq_refl).
    + reflexivity.
Qed.

Lemma lexes_body (mdl : string) (ms : list ChatMessage) :
  Lexes (JSON.stringify
           (JSON.JObject [("model", JSON.JString mdl);
                          ("messages", JSON.JArray (map message_json ms))]))
    ([JSON.TLBrace; JSON.TStr "model"; JSON.TColon; JSON.TStr mdl;
      JSON.TComma; JSON.TStr "messages"; JSON.TColon; JSON.TLBracket]
     ++ messages_tokens ms ++ [JSON.TRBracket; JSON.TRBrace])%list.
Proof.
  change (JSON.stringify
            (JSON.JObject [("model", JSON.JString mdl);
                           ("messages", JSON.JArray (map message_json ms))]))
    with ("{" ++ ((JSON.quote "model" ++ ":" ++ "" ++ JSON.quote mdl)
                  ++ "," ++ (JSON.quote "messages" ++ ":" ++ ""
                             ++ JSON.serialize "" ""
                                  (JSON.JArray (map message_json ms))))
              ++ "}").
  eapply lexes_as.
  - apply lexes_app; [apply (lexes_punctuation "{" JSON.TLBrace eq_refl)|].
    apply lexes_app; [|apply (lexes_punctuation "}" JSON.TRBrace eq_refl)].
    apply lexes_app; [lexes_pieces|].
    apply lexes_app; [apply (lexes_punctuation "," JSON.TComma eq_refl)|].
    apply lexes_app; [apply lexes_quote|].
    apply lexes_app; [apply (lexes_punctuation ":" JSON.TColon eq_refl)|].
    apply lexes_app; [apply lexes_nil|].
    apply lexes_array.
  - cbn. now rewrite <- app_assoc.
Qed.

(** One message, read as an item of the open array. *)
Lemma parse_message_tokens (m : ChatMessage) (first : bool)
    (items : list JSON.value) (st : list JSON.frame)
    (rest : list JSON.token) :
  JSON.parse_tokens
    (JSON.FArr items :: st, if first then JSON.PArrFirst else JSON.PValue)
    (message_tokens m ++ rest)%list
  = JSON.parse_tokens
      (JSON.FArr (message_json m :: items) :: st, JSON.PAfter) rest.
Proof.
  destruct first; reflexivity.
Qed.

Lemma parse_messages_tokens (ms : list ChatMessage) (first : bool)
    (items : list JSON.value) (st : list JSON.frame)
    (rest : list JSON.token) :
  ms <> [] ->
  JSON.parse_tokens
    (JSON.FArr items :: st, if first then JSON.PArrFirst else JSON.PValue)
    (messages_tokens ms ++ rest)%list
  = JSON.parse_tokens
      (JSON.FArr (rev (map message_json ms) ++ items)%list :: st, JSON.PAfter)
      rest.
Proof.
  revert first items. induction ms as [|m ms IH]; intros first items Hne;
    [now elim Hne|].
  destruct ms as [|m' ms].
  - cbn [messages_tokens map rev app]. apply parse_message_tokens.
  - change (messages_tokens (m :: m' :: ms))
      with (app (message_tokens m)
              (JSON.TComma :: messages_tokens (m' :: ms))).
    rewrite <- app_assoc, parse_message_tokens.
    change (JSON.parse_tokens
              (JSON.FArr (message_json m :: items) :: st, JSON.PAfter)
              ((JSON.TComma :: messages_tokens (m' :: ms)) ++ rest)%list)
      with (JSON.parse_tokens
              (JSON.FArr (message_json m :: items) :: st,
               if false then JSON.PArrFirst else JSON.PValue)
              (messages_tokens (m' :: ms) ++ rest)%list).
    rewrite IH by discriminate.
    change (map message_json (m :: m' :: ms))
      with (message_json m :: map message_json (m' :: ms)).
    cbn [rev]. now rewrite <- app_assoc.
Qed.

Lemma parse_body_tokens (mdl : string) (ms : list ChatMessage) :
  JSON.parse_tokens ([], JSON.PValue)
    ([JSON.TLBrace; JSON.TStr "model"; JSON.TColon; JSON.TStr mdl;
      JSON.TComma; JSON.TStr "messages"; JSON.TColon; JSON.TLBracket]
     ++ messages_tokens ms ++ [JSON.TRBracket; JSON.TRBrace])%list
  = Some (JSON.JObject [("model", JSON.JString mdl);
                        ("messages", JSON.JArray (map message_json ms))]).
Proof.
  change (JSON.parse_tokens
            (JSON.FArr [] :: [JSON.FObj [("model", JSON.JString mdl)]
                                (Some "messages")],
             if true then JSON.PArrFirst else JSON.PValue)
            (messages_tokens ms ++ [JSON.TRBracket; JSON.TRBrace])%list
          = Some (JSON.JObject
                    [("model", JSON.JString mdl);
                     ("messages", JSON.JArray (map message_json ms))])).
  destruct ms as [|m ms]; [reflexivity|].
  etransitivity.
  - refine (parse_messages_tokens (m :: ms) true []
              [JSON.FObj [("model", JSON.JString mdl)] (Some "messages")]
              [JSON.TRBracket; JSON.TRBrace] _).
    discriminate.
  - rewrite app_nil_r.
    change (Some (JSON.JObject
                    [("model", JSON.JString mdl);
                     ("messages",
                      JSON.JArray (rev (rev (map message_json (m :: ms)))))])
            = Some (JSON.JObject
                      [("model", JSON.JString mdl);
                       ("messages",
                        JSON.JArray (map message_json (m :: ms)))])).
    now rewrite rev_involutive.
Qed.

Lemma stringified_body_reads_back (mdl : string) (ms : list ChatMessage) :
  JSON.parse
    (JSON.stringify
       (JSON.JObject [("model", JSON.JString mdl);
                      ("messages", JSON.JArray (map message_json ms))]))
  = Some (JSON.JObject [("model", JSON.JString mdl);
                        ("messages", JSON.JArray (map message_json ms))]).
Proof.
  unfold JSON.parse, JSON.lex.
  rewrite <- (append_nil_r (JSON.stringify _)), (lexes_body mdl ms "").
  cbn [JSON.lex_from JSON.lex_end option_map]. rewrite app_nil_r.
  apply parse_body_tokens.
Qed.

(** X22.  The body of the request reads back.  Whatever the model name and
    the texts of the messages (quotes, backslashes, line breaks, control
    characters), the one request [makeRequest] sends has a body that
    [JSON.parse] reads as exactly the object with the two members [model]
    and [messages], each message with its role and content unchanged: a
    prompt cannot change the structure of the request. *)
Theorem X22_request_body_reads_back :
  forall (this : AIService) (up : Http.Upstream) (w : World),
    let reads_back (after : World) (messages : list ChatMessage) : Prop :=
      exists req,
        sent after = app (sent w) [req]
        /\ JSON.parse (Http.body req)
           = Some (JSON.JObject
                     [("model", JSON.JString (model this));
                      ("messages", JSON.JArray (map message_json messages))])
    in
    (forall messages options,
        reads_back (fst (makeRequest this up messages options w)) messages)
    /\ (forall request,
           reads_back (fst (generateResponse this up request w))
             (chat_messages request))
    /\ (forall prompt,
           reads_back (fst (parseApiPrompt this up prompt w))
             (analysis_messages prompt))
    /\ (forall request,
           reads_back (fst (generateApiCode this up request w))
             (codegen_messages request)).
Proof.
  intros this up w reads_back.
  assert (H : forall messages options,
             reads_back (fst (makeRequest this up messages options w))
               messages).
  { intros messages options. eexists. split; [apply makeRequest_sent|].
    cbn [Http.body]. apply stringified_body_reads_back. }
  split; [exact H|]. subst reads_back. cbn beta.
  split; [|split].
  - intros request. rewrite generateResponse_sent. apply H.
  - intros prompt. rewrite parseApiPrompt_sent. apply H.
  - intros request. rewrite generateApiCode_sent. apply H.
Qed.




